(** * Article content model, derived fields, lifecycle and engagement

    A shallow embedding of the article model (models/Article.js), the
    author-side controller (controllers/articleController.js), the public
    controller and the engagement handlers of the auth controller
    (controllers/publicController.js), together with the request validation
    chains of the article routes.

    Conventions of the embedding.
    - A JavaScript string is a [string]; every character stands for one
      UTF-16 code unit below 256, so titles and texts range over Latin-1.
    - A JavaScript [Number] that the code only ever uses as an integer
      counter ([views], [likes], [readTime]) is a [Z]; a [Date] is the [Z]
      of its epoch milliseconds; [undefined]/[null] is [None].
    - Object ids are compared by their string form throughout the source
      ([includes], [toString() !== ...]); they are [string]s here.
    - The persisted collections are finite maps from ids to documents. *)

From Stdlib Require Import ZArith Ascii String List Bool Lia.
From stdpp Require Import base option list gmap strings.

Open Scope string_scope.

(** ** JavaScript string primitives used by the source *)

Module JS.

(** Character classes. [isSpace] is the class [\s] restricted to code units
    below 256: TAB, LF, VT, FF, CR, SPACE and NO-BREAK SPACE. *)
Definition code (c : ascii) : nat := nat_of_ascii c.

Definition isSpace (c : ascii) : bool :=
  let n := code c in
  ((9 <=? n)%nat && (n <=? 13)%nat) || (n =? 32)%nat || (n =? 160)%nat.

Definition isLowerAZ (c : ascii) : bool :=
  let n := code c in (97 <=? n)%nat && (n <=? 122)%nat.

Definition isDigit (c : ascii) : bool :=
  let n := code c in (48 <=? n)%nat && (n <=? 57)%nat.

Definition isHyphen (c : ascii) : bool := (code c =? 45)%nat.

(** [String.prototype.toLowerCase] on one code unit below 256: the ASCII
    capitals and the Latin-1 capitals (0xC0-0xDE without the multiplication
    sign 0xD7) move up by 32, everything else stays. *)
Definition lowerChar (c : ascii) : ascii :=
  let n := code c in
  if ((65 <=? n)%nat && (n <=? 90)%nat)
     || ((192 <=? n)%nat && (n <=? 222)%nat && negb (n =? 215)%nat)
  then ascii_of_nat (n + 32) else c.

Fixpoint toLowerCase (s : string) : string :=
  match s with
  | EmptyString => EmptyString
  | String c r => String (lowerChar c) (toLowerCase r)
  end.

(** [s.replace(/[^...]/g, '')]: drop every character outside the class
    [keep]. *)
Fixpoint removeOutside (keep : ascii -> bool) (s : string) : string :=
  match s with
  | EmptyString => EmptyString
  | String c r =>
      if keep c then String c (removeOutside keep r) else removeOutside keep r
  end.

(** [s.replace(/C+/g, r)] for a character class [C]: every maximal run of
    characters of the class becomes the single character [r]. [inrun] says
    that the character just before belonged to the class. *)
Fixpoint replaceRuns (cls : ascii -> bool) (r : ascii) (inrun : bool)
    (s : string) : string :=
  match s with
  | EmptyString => EmptyString
  | String c t =>
      if cls c
      then (if inrun then replaceRuns cls r true t
            else String r (replaceRuns cls r true t))
      else String c (replaceRuns cls r false t)
  end.

(** [String.prototype.trim]: it takes no parameter; an argument passed to
    it is ignored, and white space (only) is removed at both ends. *)
Fixpoint trimStart (s : string) : string :=
  match s with
  | EmptyString => EmptyString
  | String c r => if isSpace c then trimStart r else s
  end.

Fixpoint trimEnd (s : string) : string :=
  match s with
  | EmptyString => EmptyString
  | String c r =>
      match trimEnd r with
      | EmptyString => if isSpace c then EmptyString else String c EmptyString
      | t => String c t
      end
  end.

Definition trim (s : string) : string := trimEnd (trimStart s).

(** [s.split(/\s+/)]: the pieces between the maximal runs of white space,
    the empty pieces at both ends included, so the result is never the
    empty array. *)
Fixpoint splitSpaces (inrun : bool) (s : string) : list string :=
  match s with
  | EmptyString => [EmptyString]
  | String c r =>
      if isSpace c
      then (if inrun then splitSpaces true r
            else EmptyString :: splitSpaces true r)
      else match splitSpaces false r with
           | [] => [String c EmptyString]
           | w :: ws => String c w :: ws
           end
  end.

Definition split_ws (s : string) : list string := splitSpaces false s.

(** [arr.join(' ')]. *)
Definition join (sep : string) (l : list string) : string :=
  String.concat sep l.

(** [s.substring(0, n)]. *)
Definition substring0 (n : nat) (s : string) : string :=
  String.substring 0 n s.

(** Truthiness of a string: the empty string is the only falsy one. *)
Definition truthy (s : string) : bool :=
  match s with EmptyString => false | _ => true end.

(** [Math.ceil(n / d)] for integers [n] and a positive [d]. *)
Definition ceilDiv (n d : Z) : Z := ((n + d - 1) / d)%Z.

(** [s.split(sep)] for a separator of one character: the pieces between
    the occurrences of the separator, the empty ones included. *)
Fixpoint splitOn (sep : ascii) (s : string) : list string :=
  match s with
  | EmptyString => [EmptyString]
  | String c r =>
      if Ascii.eqb c sep then EmptyString :: splitOn sep r
      else match splitOn sep r with
           | [] => [String c EmptyString]
           | w :: ws => String c w :: ws
           end
  end.

(** [s.startsWith(p)]. *)
Definition startsWith (p s : string) : bool := String.prefix p s.

(** A number as the list handlers compute one: an integer, [NaN] or
    [Infinity]. *)
Inductive number :=
| Int (z : Z)
| NaN
| Infinity.

(** A numeric query parameter as [parseInt] reads it: the parameter is
    absent, or it reads as an integer, or [parseInt] makes nothing of it. *)
Inductive queryNumber :=
| Absent
| Parsed (z : Z)
| Unparsed.

(** [parseInt(p)] for a parameter [p] destructured with the default [d]. *)
Definition parseInt (d : Z) (p : queryNumber) : number :=
  match p with
  | Absent => Int d
  | Parsed z => Int z
  | Unparsed => NaN
  end.

(** [Math.ceil(total / limit)] for a count [total]. *)
Definition ceilOver (total : nat) (limit : number) : number :=
  match limit with
  | Int l =>
      if (0 <? l)%Z then Int (ceilDiv (Z.of_nat total) l)
      else if (l =? 0)%Z then (if (total =? 0)%nat then NaN else Infinity)
      else Int (- (Z.of_nat total / - l))
  | NaN => NaN
  | Infinity => Int 0
  end.

End JS.

(** ** Data model (models/Article.js, models/User.js) *)

(** A block of the first content format ([contentBlockSchema]). *)
Module ContentBlock.
Record t := mk {
  type : string;
  content : string;
  alt : string;
  order : Z
}.
End ContentBlock.

(** A block of the editor document. [editorData] is a [Mixed] path: only
    the shape the code reads is kept, [blocks[].type], [blocks[].data.text]
    and [blocks[].data.items]; a key that is missing is [None]. *)
Module EditorBlock.
Record payload := mkPayload {
  text : option string;
  items : option (list string)
}.
Record t := mk {
  type : string;
  data : payload
}.
End EditorBlock.

Module EditorData.
Record t := mk {
  blocks : option (list EditorBlock.t)
}.
End EditorData.

Module Article.

(** The paths of [articleSchema], with [createdAt] and [updatedAt] of the
    [timestamps: true] option. *)
Record t := mk {
  title : string;
  slug : option string;
  contentBlocks : list ContentBlock.t;
  editorData : option EditorData.t;
  excerpt : option string;
  category : option string;
  tags : list string;
  status : string;
  author : string;
  featuredImage : string;
  publishedAt : option Z;
  views : Z;
  likes : Z;
  likedBy : list string;
  readTime : Z;
  seoTitle : option string;
  seoDescription : option string;
  isFeatured : bool;
  allowComments : bool;
  createdAt : Z;
  updatedAt : Z
}.

Definition set_slug (v : option string) (a : t) : t :=
  {| title := title a;
     slug := v;
     contentBlocks := contentBlocks a;
     editorData := editorData a;
     excerpt := excerpt a;
     category := category a;
     tags := tags a;
     status := status a;
     author := author a;
     featuredImage := featuredImage a;
     publishedAt := publishedAt a;
     views := views a;
     likes := likes a;
     likedBy := likedBy a;
     readTime := readTime a;
     seoTitle := seoTitle a;
     seoDescription := seoDescription a;
     isFeatured := isFeatured a;
     allowComments := allowComments a;
     createdAt := createdAt a;
     updatedAt := updatedAt a |}.

Definition set_excerpt (v : option string) (a : t) : t :=
  {| title := title a;
     slug := slug a;
     contentBlocks := contentBlocks a;
     editorData := editorData a;
     excerpt := v;
     category := category a;
     tags := tags a;
     status := status a;
     author := author a;
     featuredImage := featuredImage a;
     publishedAt := publishedAt a;
     views := views a;
     likes := likes a;
     likedBy := likedBy a;
     readTime := readTime a;
     seoTitle := seoTitle a;
     seoDescription := seoDescription a;
     isFeatured := isFeatured a;
     allowComments := allowComments a;
     createdAt := createdAt a;
     updatedAt := updatedAt a |}.

Definition set_status (v : string) (a : t) : t :=
  {| title := title a;
     slug := slug a;
     contentBlocks := contentBlocks a;
     editorData := editorData a;
     excerpt := excerpt a;
     category := category a;
     tags := tags a;
     status := v;
     author := author a;
     featuredImage := featuredImage a;
     publishedAt := publishedAt a;
     views := views a;
     likes := likes a;
     likedBy := likedBy a;
     readTime := readTime a;
     seoTitle := seoTitle a;
     seoDescription := seoDescription a;
     isFeatured := isFeatured a;
     allowComments := allowComments a;
     createdAt := createdAt a;
     updatedAt := updatedAt a |}.

Definition set_publishedAt (v : option Z) (a : t) : t :=
  {| title := title a;
     slug := slug a;
     contentBlocks := contentBlocks a;
     editorData := editorData a;
     excerpt := excerpt a;
     category := category a;
     tags := tags a;
     status := status a;
     author := author a;
     featuredImage := featuredImage a;
     publishedAt := v;
     views := views a;
     likes := likes a;
     likedBy := likedBy a;
     readTime := readTime a;
     seoTitle := seoTitle a;
     seoDescription := seoDescription a;
     isFeatured := isFeatured a;
     allowComments := allowComments a;
     createdAt := createdAt a;
     updatedAt := updatedAt a |}.

Definition set_views (v : Z) (a : t) : t :=
  {| title := title a;
     slug := slug a;
     contentBlocks := contentBlocks a;
     editorData := editorData a;
     excerpt := excerpt a;
     category := category a;
     tags := tags a;
     status := status a;
     author := author a;
     featuredImage := featuredImage a;
     publishedAt := publishedAt a;
     views := v;
     likes := likes a;
     likedBy := likedBy a;
     readTime := readTime a;
     seoTitle := seoTitle a;
     seoDescription := seoDescription a;
     isFeatured := isFeatured a;
     allowComments := allowComments a;
     createdAt := createdAt a;
     updatedAt := updatedAt a |}.

Definition set_likes (v : Z) (a : t) : t :=
  {| title := title a;
     slug := slug a;
     contentBlocks := contentBlocks a;
     editorData := editorData a;
     excerpt := excerpt a;
     category := category a;
     tags := tags a;
     status := status a;
     author := author a;
     featuredImage := featuredImage a;
     publishedAt := publishedAt a;
     views := views a;
     likes := v;
     likedBy := likedBy a;
     readTime := readTime a;
     seoTitle := seoTitle a;
     seoDescription := seoDescription a;
     isFeatured := isFeatured a;
     allowComments := allowComments a;
     createdAt := createdAt a;
     updatedAt := updatedAt a |}.

Definition set_likedBy (v : list string) (a : t) : t :=
  {| title := title a;
     slug := slug a;
     contentBlocks := contentBlocks a;
     editorData := editorData a;
     excerpt := excerpt a;
     category := category a;
     tags := tags a;
     status := status a;
     author := author a;
     featuredImage := featuredImage a;
     publishedAt := publishedAt a;
     views := views a;
     likes := likes a;
     likedBy := v;
     readTime := readTime a;
     seoTitle := seoTitle a;
     seoDescription := seoDescription a;
     isFeatured := isFeatured a;
     allowComments := allowComments a;
     createdAt := createdAt a;
     updatedAt := updatedAt a |}.

Definition set_readTime (v : Z) (a : t) : t :=
  {| title := title a;
     slug := slug a;
     contentBlocks := contentBlocks a;
     editorData := editorData a;
     excerpt := excerpt a;
     category := category a;
     tags := tags a;
     status := status a;
     author := author a;
     featuredImage := featuredImage a;
     publishedAt := publishedAt a;
     views := views a;
     likes := likes a;
     likedBy := likedBy a;
     readTime := v;
     seoTitle := seoTitle a;
     seoDescription := seoDescription a;
     isFeatured := isFeatured a;
     allowComments := allowComments a;
     createdAt := createdAt a;
     updatedAt := updatedAt a |}.

Definition set_updatedAt (v : Z) (a : t) : t :=
  {| title := title a;
     slug := slug a;
     contentBlocks := contentBlocks a;
     editorData := editorData a;
     excerpt := excerpt a;
     category := category a;
     tags := tags a;
     status := status a;
     author := author a;
     featuredImage := featuredImage a;
     publishedAt := publishedAt a;
     views := views a;
     likes := likes a;
     likedBy := likedBy a;
     readTime := readTime a;
     seoTitle := seoTitle a;
     seoDescription := seoDescription a;
     isFeatured := isFeatured a;
     allowComments := allowComments a;
     createdAt := createdAt a;
     updatedAt := v |}.

End Article.

Module User.
Record t := mk {
  name : string;
  email : string;
  role : string;
  isActive : bool;
  savedArticles : list string
}.

Definition set_savedArticles (v : list string) (u : t) : t :=
  {| name := name u; email := email u; role := role u;
     isActive := isActive u; savedArticles := v |}.
End User.

(** The two collections. *)
Record DB := mkDB {
  articles : gmap string Article.t;
  users : gmap string User.t
}.

Definition set_articles (m : gmap string Article.t) (db : DB) : DB :=
  {| articles := m; users := users db |}.

Definition set_users (m : gmap string User.t) (db : DB) : DB :=
  {| articles := articles db; users := m |}.

(** ** Mongoose documents: modified paths and validators *)

Module Document.

(** A hydrated document: its fields, whether it was never saved, and the
    paths marked modified since it was loaded or built. *)
Record t := mk {
  doc : Article.t;
  isNew : bool;
  modifiedPaths : list string
}.

Definition isModified (p : string) (d : t) : bool :=
  bool_decide (p ∈ modifiedPaths d).

(** A document as [findOne] returns it. *)
Definition load (a : Article.t) : t :=
  {| doc := a; isNew := false; modifiedPaths := [] |}.

(** The assignment [d.p = v] through the path's getter and setter; the
    path is marked only when the value changes. *)
Definition set {A : Type} `{EqDecision A} (p : string)
    (get : Article.t -> A) (put : A -> Article.t -> Article.t)
    (v : A) (d : t) : t :=
  {| doc := put v (doc d); isNew := isNew d;
     modifiedPaths := if bool_decide (get (doc d) = v) then modifiedPaths d
                      else modifiedPaths d ++ [p] |}.

Definition update (f : Article.t -> Article.t) (d : t) : t :=
  {| doc := f (doc d); isNew := isNew d; modifiedPaths := modifiedPaths d |}.

End Document.

Module Schema.

Definition categoryEnum : list string :=
  ["UXUI"; "UX"; "UI"; "Design"; "Development"; "AI"; "Design"; "Daily"].

Definition statusEnum : list string := ["draft"; "published"; "archived"].

Definition blockTypeEnum : list string := ["text"; "image"; "video"; "code"].

Definition inEnum (v : string) (values : list string) : bool :=
  existsb (String.eqb v) values.

Definition maxlength (n : nat) (v : option string) : bool :=
  match v with
  | Some s => (String.length s <=? n)%nat
  | None => true
  end.

Definition validBlock (b : ContentBlock.t) : bool :=
  inEnum (ContentBlock.type b) blockTypeEnum
  && JS.truthy (ContentBlock.content b).

(** The validators the schema declares for one path. *)
Definition validPath (a : Article.t) (p : string) : bool :=
  if p =? "title" then
    JS.truthy (Article.title a) && maxlength 200 (Some (Article.title a))
  else if p =? "excerpt" then maxlength 500 (Article.excerpt a)
  else if p =? "category" then
    match Article.category a with
    | Some c => inEnum c categoryEnum
    | None => true
    end
  else if p =? "status" then inEnum (Article.status a) statusEnum
  else if p =? "contentBlocks" then forallb validBlock (Article.contentBlocks a)
  else if p =? "seoTitle" then maxlength 60 (Article.seoTitle a)
  else if p =? "seoDescription" then maxlength 160 (Article.seoDescription a)
  else true.

Definition validPaths (a : Article.t) (ps : list string) : bool :=
  forallb (validPath a) ps.

(** The setters of the string paths: [trim] on [title], [trim] and
    [lowercase] on [slug] and on every tag. *)
Definition castTitle (s : string) : string := JS.trim s.
Definition castLower (s : string) : string := JS.toLowerCase (JS.trim s).

(** Paths with [required: true] are validated on every save. *)
Definition requiredPaths : list string := ["title"; "author"].

Definition allPaths : list string :=
  ["title"; "slug"; "contentBlocks"; "editorData"; "excerpt"; "category";
   "tags"; "status"; "author"; "featuredImage"; "publishedAt"; "views";
   "likes"; "likedBy"; "readTime"; "seoTitle"; "seoDescription";
   "isFeatured"; "allowComments"].

End Schema.

(** ** The pre-save hooks of models/Article.js *)

Module Model.

(** The class [[a-z0-9 -]] whose complement the slug expression removes. *)
Definition slugChar (c : ascii) : bool :=
  JS.isLowerAZ c || JS.isDigit c || (JS.code c =? 32)%nat || JS.isHyphen c.

(** [title.toLowerCase().replace(/[^a-z0-9 -]/g, '').replace(/\s+/g, '-')
    .replace(/-+/g, '-').trim('-')], the expression of the slug hook and,
    letter for letter, of [updateArticle]. *)
Definition slugify (title : string) : string :=
  JS.trim
    (JS.replaceRuns JS.isHyphen "-" false
       (JS.replaceRuns JS.isSpace "-" false
          (JS.removeOutside slugChar (JS.toLowerCase title)))).

Definition preSaveSlug (d : Document.t) : Document.t :=
  if Document.isModified "title" d
  then Document.update
         (fun a =>
            Article.set_slug
              (Some (Schema.castLower (slugify (Article.title a)))) a) d
  else d.

Definition preSavePublishedAt (now : Z) (d : Document.t) : Document.t :=
  if Document.isModified "status" d
     && (Article.status (Document.doc d) =? "published")
     && negb (bool_decide (is_Some (Article.publishedAt (Document.doc d))))
  then Document.update (Article.set_publishedAt (Some now)) d
  else d.

(** [ed && ed.blocks && ed.blocks.length > 0], with the blocks when it
    holds. *)
Definition populatedBlocks (ed : option EditorData.t)
    : option (list EditorBlock.t) :=
  match ed with
  | Some e =>
      match EditorData.blocks e with
      | Some (b :: bs) => Some (b :: bs)
      | _ => None
      end
  | None => None
  end.

Definition isParagraphOrHeader (b : EditorBlock.t) : bool :=
  (EditorBlock.type b =? "paragraph") || (EditorBlock.type b =? "header").

(** [block.data.text] as [join] and string concatenation see it. *)
Definition textOf (b : EditorBlock.t) : string :=
  default "" (EditorBlock.text (EditorBlock.data b)).

Definition isTextBlock (b : ContentBlock.t) : bool :=
  ContentBlock.type b =? "text".

(** The text the read-time hook measures. *)
Definition textContent (a : Article.t) : string :=
  let textContent := "" in
  let textContent :=
    if (0 <? length (Article.contentBlocks a))%nat
    then JS.join " "
           (map ContentBlock.content
              (List.filter isTextBlock (Article.contentBlocks a)))
    else textContent in
  match populatedBlocks (Article.editorData a) with
  | Some blocks =>
      let editorText :=
        JS.join " " (map textOf (List.filter isParagraphOrHeader blocks)) in
      textContent ++ " " ++ editorText
  | None => textContent
  end.

Definition readTimeOf (a : Article.t) : Z :=
  let wordCount := length (JS.split_ws (textContent a)) in
  JS.ceilDiv (Z.of_nat wordCount) 200.

Definition contentModified (d : Document.t) : bool :=
  Document.isModified "contentBlocks" d || Document.isModified "editorData" d.

Definition preSaveReadTime (d : Document.t) : Document.t :=
  if contentModified d
  then Document.update (fun a => Article.set_readTime (readTimeOf a) a) d
  else d.

(** The predicate of the [find] over the editor blocks in the excerpt
    hook. *)
Definition excerptSource (b : EditorBlock.t) : bool :=
  if isParagraphOrHeader b then JS.truthy (textOf b)
  else if EditorBlock.type b =? "quote" then JS.truthy (textOf b)
  else if EditorBlock.type b =? "list" then
    match EditorBlock.items (EditorBlock.data b) with
    | Some (_ :: _) => true
    | _ => false
    end
  else false.

(** What the hook reads from the block it found: [items[0]] of a list,
    [text] of any other block. *)
Definition excerptOfBlock (b : EditorBlock.t) : string :=
  if EditorBlock.type b =? "list"
  then match EditorBlock.items (EditorBlock.data b) with
       | Some (i :: _) => i
       | _ => ""
       end
  else textOf b.

(** The excerpt candidate of the hook ([excerptText]). *)
Definition excerptText (a : Article.t) : string :=
  let excerptText := "" in
  let excerptText :=
    if (0 <? length (Article.contentBlocks a))%nat
    then match List.find isTextBlock (Article.contentBlocks a) with
         | Some firstTextBlock => ContentBlock.content firstTextBlock
         | None => excerptText
         end
    else excerptText in
  if negb (JS.truthy excerptText)
  then match populatedBlocks (Article.editorData a) with
       | Some blocks =>
           match List.find excerptSource blocks with
           | Some firstTextBlock => excerptOfBlock firstTextBlock
           | None => excerptText
           end
       | None => excerptText
       end
  else excerptText.

(** [excerptText.substring(0, 200) + '...']. *)
Definition excerptOf (excerptText : string) : string :=
  JS.substring0 200 excerptText ++ "...".

Definition preSaveExcerpt (d : Document.t) : Document.t :=
  if contentModified d
  then if JS.truthy (excerptText (Document.doc d))
       then Document.update
              (fun a => Article.set_excerpt (Some (excerptOf (excerptText a))) a)
              d
       else d
  else d.

(** The [timestamps: true] option: [updatedAt] follows every save that
    writes something. [createdAt] is set when the document is built. *)
Definition timestamps (now : Z) (d : Document.t) : Document.t :=
  if Document.isNew d || negb (bool_decide (Document.modifiedPaths d = []))
  then Document.update (Article.set_updatedAt now) d
  else d.

(** The pre-save chain in the order of registration. *)
Definition preSave (now : Z) (d : Document.t) : Document.t :=
  preSaveExcerpt
    (preSaveReadTime
       (preSavePublishedAt now
          (preSaveSlug (timestamps now d)))).

(** [doc.save()]: the validators of the paths to validate run first, then
    the hooks; [None] is the rejected save ([ValidationError]). *)
Definition pathsToValidate (d : Document.t) : list string :=
  if Document.isNew d then Schema.allPaths
  else Schema.requiredPaths ++ Document.modifiedPaths d.

Definition save (now : Z) (d : Document.t) : option Article.t :=
  if Schema.validPaths (Document.doc d) (pathsToValidate d)
  then Some (Document.doc (preSave now d))
  else None.

End Model.

(** ** Requests and responses *)

Module Request.

(** The JSON body of a create or update request; a key that is absent is
    [None]. The validators below reject bodies whose [contentBlocks] or
    [tags] is not an array or whose [editorData] is not an object, which the
    types already say. *)
Record body := mkBody {
  title : option string;
  contentBlocks : option (list ContentBlock.t);
  editorData : option EditorData.t;
  category : option string;
  tags : option (list string);
  status : option string;
  featuredImage : option string;
  seoTitle : option string;
  seoDescription : option string;
  isFeatured : option bool;
  allowComments : option bool
}.

Definition set_title (v : option string) (b : body) : body :=
  {| title := v; contentBlocks := contentBlocks b; editorData := editorData b;
     category := category b; tags := tags b; status := status b;
     featuredImage := featuredImage b; seoTitle := seoTitle b;
     seoDescription := seoDescription b; isFeatured := isFeatured b;
     allowComments := allowComments b |}.

End Request.

Inductive Payload :=
| Failure (error : string)
| FailureDetails (error : string) (details : list string)
| ArticlePayload (article : Article.t) (message : option string)
| LikesPayload (likes : Z) (liked : option bool) (message : string)
| SavedPayload (saved : bool) (before : bool) (message : string).

Record Response := mkResponse {
  statusCode : nat;
  success : bool;
  payload : Payload
}.

Definition failure (code : nat) (error : string) : Response :=
  {| statusCode := code; success := false; payload := Failure error |}.

Definition ok (code : nat) (p : Payload) : Response :=
  {| statusCode := code; success := true; payload := p |}.

(** ** The validation chains of the article routes *)

Module Validation.

(** The [custom] validator of [body('category')]; the chain is
    [optional()], so it only runs when the key is present. *)
Definition categoryErrors (b : Request.body) : list string :=
  match Request.category b with
  | None => []
  | Some value =>
      if bool_decide (Request.status b = Some "published")
         && negb (JS.truthy value)
      then ["Category is required for published articles"]
      else if JS.truthy value && negb (Schema.inEnum value Schema.categoryEnum)
      then ["Invalid category. Must be one of: "
            ++ JS.join ", " Schema.categoryEnum]
      else []
  end.

Definition lengthBetween (lo hi : nat) (s : string) : bool :=
  (lo <=? String.length s)%nat && (String.length s <=? hi)%nat.

Definition optionalMax (hi : nat) (v : option string) (msg : string)
    : list string :=
  match v with
  | Some s => if lengthBetween 0 hi s then [] else [msg]
  | None => []
  end.

Definition statusErrors (b : Request.body) : list string :=
  match Request.status b with
  | Some s => if Schema.inEnum s Schema.statusEnum then [] else ["Invalid status"]
  | None => []
  end.

Definition commonErrors (b : Request.body) : list string :=
  (categoryErrors b ++ statusErrors b
   ++ optionalMax 60 (Request.seoTitle b)
        "SEO title cannot be more than 60 characters"
   ++ optionalMax 160 (Request.seoDescription b)
        "SEO description cannot be more than 160 characters")%list.

Definition titleMessage : string :=
  "Title must be between 1 and 200 characters".

(** [body('title').trim().isLength({ min: 1, max: 200 })]: the sanitizer
    rewrites the body, and an absent title is the empty string. *)
Definition createArticleValidation (b : Request.body)
    : Request.body * list string :=
  let title := JS.trim (default "" (Request.title b)) in
  (Request.set_title (Some title) b,
   ((if lengthBetween 1 200 title then [] else [titleMessage])
    ++ commonErrors b)%list).

(** The same chain with [optional()] in front. *)
Definition updateArticleValidation (b : Request.body)
    : Request.body * list string :=
  match Request.title b with
  | Some t =>
      let title := JS.trim t in
      (Request.set_title (Some title) b,
       ((if lengthBetween 1 200 title then [] else [titleMessage])
        ++ commonErrors b)%list)
  | None => (b, commonErrors b)
  end.

End Validation.

(** ** Persistence operations shared by the controllers *)

Module Store.

(** [Article.findOne({ _id: id, status: 'published' })]. *)
Definition findPublished (id : string) (db : DB) : option Article.t :=
  match articles db !! id with
  | Some a => if Article.status a =? "published" then Some a else None
  | None => None
  end.

(** [Article.findOne({ slug, status: 'published' })], with the id of the
    document found. The value of the query goes through the setters of the
    path ([trim], [lowercase]) before it is compared. *)
Definition findPublishedBySlug (slug : string) (db : DB)
    : option (string * Article.t) :=
  List.find
    (fun ia => bool_decide (Article.slug (snd ia) = Some (Schema.castLower slug))
               && (Article.status (snd ia) =? "published"))
    (map_to_list (articles db)).

(** [Article.findOne({ _id: id, author: userId })]. *)
Definition findOwned (id userId : string) (db : DB) : option Article.t :=
  match articles db !! id with
  | Some a => if Article.author a =? userId then Some a else None
  | None => None
  end.

(** The unique index on [slug]: some other document holds the slug. *)
Definition slugTaken (id : string) (slug : option string) (db : DB) : bool :=
  match slug with
  | Some s =>
      existsb
        (fun ia => negb (fst ia =? id)
                   && bool_decide (Article.slug (snd ia) = Some s))
        (map_to_list (articles db))
  | None => false
  end.

Definition putArticle (id : string) (a : Article.t) (db : DB) : DB :=
  set_articles (<[id := a]> (articles db)) db.

Definition putUser (id : string) (u : User.t) (db : DB) : DB :=
  set_users (<[id := u]> (users db)) db.

(** [Article.find(query)]: the documents the query selects, in the order
    of the collection. *)
Definition find (query : Article.t -> bool) (db : DB)
    : list (string * Article.t) :=
  List.filter (fun ia => query (snd ia)) (map_to_list (articles db)).

(** [Article.countDocuments(query)]. *)
Definition countDocuments (query : Article.t -> bool) (db : DB) : nat :=
  length (find query db).

(** The largest number the driver sends as a 32-bit integer. *)
Definition maxInt : Z := 2147483647.

(** [.skip(skip).limit(limit)] on a cursor. For a skip that is not
    negative, a positive limit keeps that many documents after the skipped
    ones and the limit 0 keeps them all; this for a skip and a limit of at
    most [maxInt], where the arithmetic of the handlers is exact too. What
    the driver and the database make of the other values ([NaN], a negative
    number, a larger one) is theirs: [beyond] stands for it, and [None] is
    a query that throws. *)
Definition skipLimit {A : Type}
    (beyond : JS.number -> JS.number -> list A -> option (list A))
    (skip limit : JS.number) (docs : list A) : option (list A) :=
  match skip, limit with
  | JS.Int s, JS.Int l =>
      if (0 <=? s)%Z && (s <=? maxInt)%Z && (0 <? l)%Z && (l <=? maxInt)%Z
      then Some (take (Z.to_nat l) (drop (Z.to_nat s) docs))
      else if (0 <=? s)%Z && (s <=? maxInt)%Z && (l =? 0)%Z
      then Some (drop (Z.to_nat s) docs)
      else beyond skip limit docs
  | _, _ => beyond skip limit docs
  end.

(** [.select('-contentBlocks')]: the document without its legacy blocks;
    the empty list stands for the path that is left out. *)
Definition withoutContentBlocks (a : Article.t) : Article.t :=
  {| Article.title := Article.title a; Article.slug := Article.slug a;
     Article.contentBlocks := [];
     Article.editorData := Article.editorData a;
     Article.excerpt := Article.excerpt a;
     Article.category := Article.category a; Article.tags := Article.tags a;
     Article.status := Article.status a; Article.author := Article.author a;
     Article.featuredImage := Article.featuredImage a;
     Article.publishedAt := Article.publishedAt a;
     Article.views := Article.views a; Article.likes := Article.likes a;
     Article.likedBy := Article.likedBy a;
     Article.readTime := Article.readTime a;
     Article.seoTitle := Article.seoTitle a;
     Article.seoDescription := Article.seoDescription a;
     Article.isFeatured := Article.isFeatured a;
     Article.allowComments := Article.allowComments a;
     Article.createdAt := Article.createdAt a;
     Article.updatedAt := Article.updatedAt a |}.

Definition deleteArticle (id : string) (db : DB) : DB :=
  set_articles (delete id (articles db)) db.

End Store.

(** ** Replies of the listing and maintenance handlers *)

Module Reply.

(** The [pagination] object of a list response. *)
Record Pagination := mkPagination {
  currentPage : JS.number;
  totalPages : JS.number;
  totalItems : Z;
  itemsPerPage : JS.number
}.

(** A handler's answer: the error of a failed request, or the data of a
    successful one. *)
Inductive t (A : Type) :=
| Rejected (code : nat) (error : string)
| Accepted (code : nat) (data : A).

Arguments Rejected {A} code error.
Arguments Accepted {A} code data.

Definition accepted {A : Type} (r : t A) : option A :=
  match r with
  | Accepted _ data => Some data
  | Rejected _ _ => None
  end.

(** A page of documents with their ids, as the query selects them;
    [populate] then puts the public fields of the author in the place of
    the author's id, which a page does not show. *)
Record Page := mkPage {
  items : list (string * Article.t);
  pagination : option Pagination
}.

(** [skip] and the [pagination] object as the list handlers compute them
    from [parseInt(page)] and [parseInt(limit)]: no handler looks at the
    result of the route's validators, so any value can arrive. *)
Definition skipOf (page limit : JS.number) : JS.number :=
  match page, limit with
  | JS.Int p, JS.Int l => JS.Int ((p - 1) * l)
  | _, _ => JS.NaN
  end.

Definition paginationOf (page limit : JS.number) (total : nat) : Pagination :=
  {| currentPage := page;
     totalPages := JS.ceilOver total limit;
     totalItems := Z.of_nat total;
     itemsPerPage := limit |}.

End Reply.

(** ** controllers/articleController.js *)

Module ArticleController.

(** The document [Article.create(articleData)] builds before it is saved:
    the given keys, the schema defaults for the rest. *)
Definition newDocument (req : Request.body) (userId : string) (now : Z)
    : Document.t :=
  let status := default "draft" (Request.status req) in
  let category :=
    match Request.category req with
    | Some c => if JS.truthy c then Some c else None
    | None => None
    end in
  let given (p : string) {A : Type} (v : option A) : list string :=
    match v with Some _ => [p] | None => [] end in
  {| Document.doc :=
       {| Article.title := Schema.castTitle (default "" (Request.title req));
          Article.slug := None;
          Article.contentBlocks := default [] (Request.contentBlocks req);
          Article.editorData := Request.editorData req;
          Article.excerpt := None;
          Article.category := category;
          Article.tags := map Schema.castLower (default [] (Request.tags req));
          Article.status := status;
          Article.author := userId;
          Article.featuredImage := default "" (Request.featuredImage req);
          Article.publishedAt := None;
          Article.views := 0;
          Article.likes := 0;
          Article.likedBy := [];
          Article.readTime := 0;
          Article.seoTitle := Request.seoTitle req;
          Article.seoDescription := Request.seoDescription req;
          Article.isFeatured := default false (Request.isFeatured req);
          Article.allowComments := default true (Request.allowComments req);
          Article.createdAt := now;
          Article.updatedAt := now |};
     Document.isNew := true;
     Document.modifiedPaths :=
       (given "title" (Request.title req) ++ given "category" category
        ++ ["tags"; "contentBlocks"; "status"; "author"]
        ++ given "featuredImage" (Request.featuredImage req)
        ++ given "seoTitle" (Request.seoTitle req)
        ++ given "seoDescription" (Request.seoDescription req)
        ++ ["isFeatured"; "allowComments"]
        ++ given "editorData" (Request.editorData req))%list |}.

Definition duplicateTitle : string :=
  "An article with this title already exists. Please use a different title.".

(** POST /api/articles. [newId] is the id the driver gives the document. *)
Definition createArticle (req : Request.body) (userId newId : string)
    (now : Z) (db : DB) : Response * DB :=
  let '(req, errors) := Validation.createArticleValidation req in
  match errors with
  | _ :: _ =>
      ({| statusCode := 400; success := false;
          payload := FailureDetails "Validation failed" errors |}, db)
  | [] =>
      match Model.save now (newDocument req userId now) with
      | None => (failure 400 "Validation Error", db)
      | Some article =>
          if Store.slugTaken newId (Article.slug article) db
          then (failure 400 duplicateTitle, db)
          else
            (ok 201
               (ArticlePayload article
                  (Some (if default "draft" (Request.status req) =? "published"
                         then "Article published successfully"
                         else "Article saved as draft"))),
             Store.putArticle newId article db)
      end
  end.

(** The excerpt candidate [updateArticle] computes from the request. *)
Definition hasStringText (b : EditorBlock.t) : bool :=
  Model.isParagraphOrHeader b
  && bool_decide (is_Some (EditorBlock.text (EditorBlock.data b))).

Definition populated {A : Type} (l : option (list A)) : option (list A) :=
  match l with
  | Some (x :: r) => Some (x :: r)
  | _ => None
  end.

Definition edBlocksOf (editorData : option EditorData.t)
    : option (list EditorBlock.t) :=
  match editorData with
  | Some e => EditorData.blocks e
  | None => None
  end.

Definition excerptText (contentBlocks : option (list ContentBlock.t))
    (editorData : option EditorData.t) : string :=
  let excerptText := "" in
  let excerptText :=
    match populated contentBlocks with
    | Some blocks =>
        match List.find Model.isTextBlock blocks with
        | Some firstTextBlock => ContentBlock.content firstTextBlock
        | None => excerptText
        end
    | None => excerptText
    end in
  if negb (JS.truthy excerptText)
  then match populated (edBlocksOf editorData) with
       | Some edBlocks =>
           match List.find hasStringText edBlocks with
           | Some firstTextBlock => Model.textOf firstTextBlock
           | None => excerptText
           end
       | None => excerptText
       end
  else excerptText.

(** The text [updateArticle] measures. *)
Definition fullText (contentBlocks : option (list ContentBlock.t))
    (editorData : option EditorData.t) : string :=
  let fullText := "" in
  let fullText :=
    match populated contentBlocks with
    | Some blocks =>
        fullText ++ " "
        ++ JS.join " "
             (map ContentBlock.content (List.filter Model.isTextBlock blocks))
    | None => fullText
    end in
  match populated (edBlocksOf editorData) with
  | Some edBlocks =>
      let textBlocks :=
        JS.join " " (map Model.textOf (List.filter hasStringText edBlocks)) in
      fullText ++ " " ++ textBlocks
  | None => fullText
  end.

Definition excerptFor (excerptText : string) : string :=
  if JS.truthy excerptText
  then JS.substring0 200 excerptText ++ "..."
  else "".

Definition wordCount (fullText : string) : nat :=
  if JS.truthy (JS.trim fullText)
  then length (JS.split_ws (JS.trim fullText))
  else 0%nat.

Definition readTimeFor (fullText : string) : Z :=
  JS.ceilDiv (Z.of_nat (wordCount fullText)) 200.

(** The object [updateData]; a key never assigned is [None]. [publishedAt]
    is the one key the code also assigns [undefined] to: [Some None]. *)
Record UpdateData := mkUpdateData {
  u_title : option string;
  u_slug : option string;
  u_contentBlocks : option (list ContentBlock.t);
  u_editorData : option EditorData.t;
  u_category : option string;
  u_tags : option (list string);
  u_status : option string;
  u_publishedAt : option (option Z);
  u_featuredImage : option string;
  u_seoTitle : option string;
  u_seoDescription : option string;
  u_isFeatured : option bool;
  u_allowComments : option bool;
  u_excerpt : option string;
  u_readTime : option Z
}.

Definition contentGiven (req : Request.body) : bool :=
  bool_decide (is_Some (Request.contentBlocks req))
  || bool_decide (is_Some (Request.editorData req)).

Definition buildUpdateData (req : Request.body) (article : Article.t)
    (now : Z) : UpdateData :=
  {| u_title := Request.title req;
     u_slug := Model.slugify <$> Request.title req;
     u_contentBlocks := Request.contentBlocks req;
     u_editorData := Request.editorData req;
     u_category := Request.category req;
     u_tags := Request.tags req;
     u_status := Request.status req;
     u_publishedAt :=
       match Request.status req with
       | Some status =>
           if status =? "draft" then Some None
           else if (status =? "published")
                   && negb (bool_decide (is_Some (Article.publishedAt article)))
           then Some (Some now)
           else None
       | None => None
       end;
     u_featuredImage := Request.featuredImage req;
     u_seoTitle := Request.seoTitle req;
     u_seoDescription := Request.seoDescription req;
     u_isFeatured := Request.isFeatured req;
     u_allowComments := Request.allowComments req;
     u_excerpt :=
       if contentGiven req
       then Some (excerptFor
                    (excerptText (Request.contentBlocks req)
                       (Request.editorData req)))
       else None;
     u_readTime :=
       if contentGiven req
       then Some (readTimeFor
                    (fullText (Request.contentBlocks req)
                       (Request.editorData req)))
       else None |}.

(** The paths [runValidators] checks: those the update sets. *)
Definition updatedPaths (u : UpdateData) : list string :=
  let given (p : string) {A : Type} (v : option A) : list string :=
    match v with Some _ => [p] | None => [] end in
  (given "title" (u_title u) ++ given "slug" (u_slug u)
   ++ given "contentBlocks" (u_contentBlocks u)
   ++ given "editorData" (u_editorData u)
   ++ given "category" (u_category u) ++ given "tags" (u_tags u)
   ++ given "status" (u_status u)
   ++ given "featuredImage" (u_featuredImage u)
   ++ given "seoTitle" (u_seoTitle u)
   ++ given "seoDescription" (u_seoDescription u)
   ++ given "isFeatured" (u_isFeatured u)
   ++ given "allowComments" (u_allowComments u)
   ++ given "excerpt" (u_excerpt u) ++ given "readTime" (u_readTime u))%list.

(** The document after the update is applied. What the persistence layer
    does with a key whose value is [undefined] is decided outside these
    sources: with [unsetUndefined] the path is cleared, without it the key
    is dropped from the update. The pre-save hooks do not run here; the
    [timestamps] option refreshes [updatedAt]. *)
Definition applyUpdate (unsetUndefined : bool) (u : UpdateData) (now : Z)
    (a : Article.t) : Article.t :=
  {| Article.title := default (Article.title a) (Schema.castTitle <$> u_title u);
     Article.slug :=
       match u_slug u with
       | Some s => Some (Schema.castLower s)
       | None => Article.slug a
       end;
     Article.contentBlocks :=
       default (Article.contentBlocks a) (u_contentBlocks u);
     Article.editorData :=
       match u_editorData u with
       | Some e => Some e
       | None => Article.editorData a
       end;
     Article.excerpt :=
       match u_excerpt u with
       | Some e => Some e
       | None => Article.excerpt a
       end;
     Article.category :=
       match u_category u with
       | Some c => Some c
       | None => Article.category a
       end;
     Article.tags :=
       default (Article.tags a) (map Schema.castLower <$> u_tags u);
     Article.status := default (Article.status a) (u_status u);
     Article.author := Article.author a;
     Article.featuredImage :=
       default (Article.featuredImage a) (u_featuredImage u);
     Article.publishedAt :=
       match u_publishedAt u with
       | Some (Some t) => Some t
       | Some None =>
           if unsetUndefined then None else Article.publishedAt a
       | None => Article.publishedAt a
       end;
     Article.views := Article.views a;
     Article.likes := Article.likes a;
     Article.likedBy := Article.likedBy a;
     Article.readTime := default (Article.readTime a) (u_readTime u);
     Article.seoTitle :=
       match u_seoTitle u with
       | Some v => Some v
       | None => Article.seoTitle a
       end;
     Article.seoDescription :=
       match u_seoDescription u with
       | Some v => Some v
       | None => Article.seoDescription a
       end;
     Article.isFeatured := default (Article.isFeatured a) (u_isFeatured u);
     Article.allowComments :=
       default (Article.allowComments a) (u_allowComments u);
     Article.createdAt := Article.createdAt a;
     Article.updatedAt := now |}.

(** [Article.findByIdAndUpdate(id, updateData, { new: true,
    runValidators: true })]; [inl] carries the message of the error. *)
Definition findByIdAndUpdate (unsetUndefined : bool) (id : string)
    (u : UpdateData) (now : Z) (db : DB) : string + (Article.t * DB) :=
  match articles db !! id with
  | None => inl "Server error updating article"
  | Some a =>
      let a' := applyUpdate unsetUndefined u now a in
      if negb (Schema.validPaths a' (updatedPaths u))
      then inl "Validation Error"
      else if bool_decide (is_Some (u_slug u))
              && Store.slugTaken id (Article.slug a') db
      then inl duplicateTitle
      else inr (a', Store.putArticle id a' db)
  end.

(** PUT /api/articles/:id *)
Definition updateArticle (unsetUndefined : bool) (req : Request.body)
    (id userId : string) (now : Z) (db : DB) : Response * DB :=
  let '(req, errors) := Validation.updateArticleValidation req in
  match errors with
  | _ :: _ =>
      ({| statusCode := 400; success := false;
          payload := FailureDetails "Validation failed" errors |}, db)
  | [] =>
      match Store.findOwned id userId db with
      | None => (failure 404 "Article not found", db)
      | Some article =>
          let updateData := buildUpdateData req article now in
          match findByIdAndUpdate unsetUndefined id updateData now db with
          | inl error =>
              (failure (if error =? "Server error updating article"
                        then 500 else 400) error, db)
          | inr (article, db') =>
              (ok 200
                 (ArticlePayload article (Some "Article updated successfully")),
               db')
          end
      end
  end.

(** PUT /api/articles/:id/publish *)
Definition publishArticle (id userId : string) (now : Z) (db : DB)
    : Response * DB :=
  match Store.findOwned id userId db with
  | None => (failure 404 "Article not found", db)
  | Some a =>
      let article := Document.load a in
      let article :=
        Document.set "status" Article.status Article.set_status "published"
          article in
      let article :=
        if negb (bool_decide
                   (is_Some (Article.publishedAt (Document.doc article))))
        then Document.set "publishedAt" Article.publishedAt
               Article.set_publishedAt (Some now) article
        else article in
      match Model.save now article with
      | None => (failure 500 "Server error publishing article", db)
      | Some article =>
          (ok 200
             (ArticlePayload article (Some "Article published successfully")),
           Store.putArticle id article db)
      end
  end.

(** PUT /api/articles/:id/unpublish *)
Definition unpublishArticle (id userId : string) (now : Z) (db : DB)
    : Response * DB :=
  match Store.findOwned id userId db with
  | None => (failure 404 "Article not found", db)
  | Some a =>
      let article := Document.load a in
      let article :=
        Document.set "status" Article.status Article.set_status "draft"
          article in
      match Model.save now article with
      | None => (failure 500 "Server error unpublishing article", db)
      | Some article =>
          (ok 200
             (ArticlePayload article (Some "Article unpublished successfully")),
           Store.putArticle id article db)
      end
  end.

(** GET /api/articles: the requesting author's articles, filtered, sorted
    and paged. [page] and [limit] are the query parameters as [parseInt]
    reads them (defaults 1 and 10); [sortDocs] is the cursor's [sort],
    [None] for a key the database refuses, and [beyond] its [skip] and
    [limit] outside their natural range, the work of the database. *)
Definition ownQuery (userId : string) (status category : option string)
    (a : Article.t) : bool :=
  (Article.author a =? userId)
  && match status with
     | Some s => if JS.truthy s then Article.status a =? s else true
     | None => true
     end
  && match category with
     | Some c => if JS.truthy c then bool_decide (Article.category a = Some c)
                 else true
     | None => true
     end.

Definition getArticles
    (sortDocs : string -> list (string * Article.t)
                -> option (list (string * Article.t)))
    (beyond : JS.number -> JS.number -> list (string * Article.t)
              -> option (list (string * Article.t)))
    (status category : option string) (page limit : JS.queryNumber)
    (sort : option string) (userId : string) (db : DB)
    : Reply.t Reply.Page :=
  let page := JS.parseInt 1 page in
  let limit := JS.parseInt 10 limit in
  let sort := default "-createdAt" sort in
  let query := ownQuery userId status category in
  let skip := Reply.skipOf page limit in
  match sortDocs sort (Store.find query db)
        ≫= Store.skipLimit beyond skip limit with
  | None => Reply.Rejected 500 "Server error getting articles"
  | Some articles =>
      let total := Store.countDocuments query db in
      Reply.Accepted 200
        {| Reply.items := articles;
           Reply.pagination := Some (Reply.paginationOf page limit total) |}
  end.

(** GET /api/articles/:id *)
Definition getArticle (id userId : string) (db : DB) : Reply.t Article.t :=
  match Store.findOwned id userId db with
  | None => Reply.Rejected 404 "Article not found"
  | Some article => Reply.Accepted 200 article
  end.

(** DELETE /api/articles/:id *)
Definition deleteArticle (id userId : string) (db : DB)
    : Reply.t string * DB :=
  match Store.findOwned id userId db with
  | None => (Reply.Rejected 404 "Article not found", db)
  | Some _ =>
      (Reply.Accepted 200 "Article deleted successfully",
       Store.deleteArticle id db)
  end.

(** POST /api/articles/regenerate-excerpts: every article that has an
    editor document is marked modified on [editorData] and saved; a save
    that throws ends the loop with the earlier saves in place. [clock] gives
    the time of the save that follows [updatedCount] saves; the answer
    carries [updatedCount]. *)
Fixpoint regenerateLoop (clock : nat -> Z)
    (articles : list (string * Article.t)) (updatedCount : nat) (db : DB)
    : option nat * DB :=
  match articles with
  | [] => (Some updatedCount, db)
  | (id, article) :: rest =>
      match Article.editorData article with
      | Some _ =>
          match Model.save (clock updatedCount)
                  {| Document.doc := article; Document.isNew := false;
                     Document.modifiedPaths := ["editorData"] |} with
          | Some saved =>
              regenerateLoop clock rest (S updatedCount)
                (Store.putArticle id saved db)
          | None => (None, db)
          end
      | None => regenerateLoop clock rest updatedCount db
      end
  end.

Definition regenerateExcerpts (clock : nat -> Z) (db : DB)
    : Reply.t nat * DB :=
  match regenerateLoop clock (Store.find (fun _ => true) db) 0 db with
  | (Some updatedCount, db') => (Reply.Accepted 200 updatedCount, db')
  | (None, db') =>
      (Reply.Rejected 500 "Server error regenerating excerpts", db')
  end.

End ArticleController.

(** ** controllers/publicController.js *)

Module PublicController.

(** [article.views += 1; await article.save()] *)
Definition countView (now : Z) (a : Article.t) : option Article.t :=
  Model.save now
    (Document.set "views" Article.views Article.set_views
       (Article.views a + 1)%Z (Document.load a)).

(** GET /api/public/articles/:slug *)
Definition getPublicArticle (slug : string) (now : Z) (db : DB)
    : Response * DB :=
  match Store.findPublishedBySlug slug db with
  | None => (failure 404 "Article not found or not published", db)
  | Some (id, a) =>
      match countView now a with
      | None => (failure 500 "Server error getting article", db)
      | Some article =>
          (ok 200 (ArticlePayload article None),
           Store.putArticle id article db)
      end
  end.

(** GET /api/public/articles/id/:id *)
Definition getPublicArticleById (id : string) (now : Z) (db : DB)
    : Response * DB :=
  match Store.findPublished id db with
  | None => (failure 404 "Article not found or not published", db)
  | Some a =>
      match countView now a with
      | None => (failure 500 "Server error getting article", db)
      | Some article =>
          (ok 200 (ArticlePayload article None),
           Store.putArticle id article db)
      end
  end.

(** POST /api/public/articles/:id/like: increment only, for readers who
    are not signed in. *)
Definition likeArticle (id : string) (now : Z) (db : DB) : Response * DB :=
  match Store.findPublished id db with
  | None => (failure 404 "Article not found", db)
  | Some a =>
      match Model.save now
              (Document.set "likes" Article.likes Article.set_likes
                 (Article.likes a + 1)%Z (Document.load a)) with
      | None => (failure 500 "Server error liking article", db)
      | Some article =>
          (ok 200
             (LikesPayload (Article.likes article) None
                "Article liked successfully"),
           Store.putArticle id article db)
      end
  end.

(** The filter of GET /api/public/articles. [author] is the cast id of
    the [author] parameter and [pattern] the compiled [search] expression,
    case-insensitive, when they are asked for. The value of [tag] goes
    through the setters of the path ([trim], [lowercase]). *)
Definition publicQuery (category tag author : option string)
    (pattern : option (string -> bool)) (a : Article.t) : bool :=
  (Article.status a =? "published")
  && match category with
     | Some c => if JS.truthy c then bool_decide (Article.category a = Some c)
                 else true
     | None => true
     end
  && match tag with
     | Some t => if JS.truthy t
                 then bool_decide (Schema.castLower t ∈ Article.tags a)
                 else true
     | None => true
     end
  && match author with
     | Some key => Article.author a =? key
     | None => true
     end
  && match pattern with
     | Some test =>
         test (Article.title a)
         || match Article.excerpt a with
            | Some e => test e
            | None => false
            end
         || existsb test (Article.tags a)
     | None => true
     end.

Definition projected (docs : list (string * Article.t))
    : list (string * Article.t) :=
  map (fun ia => (fst ia, Store.withoutContentBlocks (snd ia))) docs.

(** A query parameter that is asked for: present and not empty. *)
Definition given (param : option string) : option string :=
  match param with
  | Some v => if JS.truthy v then Some v else None
  | None => None
  end.

(** GET /api/public/articles. [regex] compiles a search expression and
    [castId] casts a string to an id in the spelling of the store; either
    gives [None] for a string that is refused, and the request fails. *)
Definition getPublicArticles
    (sortDocs : string -> list (string * Article.t)
                -> option (list (string * Article.t)))
    (beyond : JS.number -> JS.number -> list (string * Article.t)
              -> option (list (string * Article.t)))
    (regex : string -> option (string -> bool))
    (castId : string -> option string)
    (category tag author : option string) (page limit : JS.queryNumber)
    (sort search : option string) (db : DB) : Reply.t Reply.Page :=
  let page := JS.parseInt 1 page in
  let limit := JS.parseInt 10 limit in
  let sort := default "-publishedAt" sort in
  let failed := Reply.Rejected 500 "Server error getting articles" in
  match given search, given search ≫= regex,
        given author, given author ≫= castId with
  | Some _, None, _, _ => failed
  | _, _, Some _, None => failed
  | _, pattern, _, key =>
      let query := publicQuery category tag key pattern in
      let skip := Reply.skipOf page limit in
      match sortDocs sort (Store.find query db)
            ≫= Store.skipLimit beyond skip limit with
      | None => failed
      | Some articles =>
          let total := Store.countDocuments query db in
          Reply.Accepted 200
            {| Reply.items := projected articles;
               Reply.pagination :=
                 Some (Reply.paginationOf page limit total) |}
      end
  end.

(** GET /api/public/articles/featured *)
Definition getFeaturedArticles
    (sortDocs : string -> list (string * Article.t)
                -> option (list (string * Article.t)))
    (beyond : JS.number -> JS.number -> list (string * Article.t)
              -> option (list (string * Article.t)))
    (limit : JS.queryNumber) (db : DB) : Reply.t Reply.Page :=
  let limit := JS.parseInt 5 limit in
  match sortDocs "-publishedAt"
          (Store.find
             (fun a => (Article.status a =? "published")
                       && Article.isFeatured a) db)
        ≫= Store.skipLimit beyond (JS.Int 0) limit with
  | None => Reply.Rejected 500 "Server error getting featured articles"
  | Some articles =>
      Reply.Accepted 200
        {| Reply.items := projected articles; Reply.pagination := None |}
  end.

(** The lower bound on [publishedAt] of GET /api/public/articles/popular. *)
Definition dateFilter (timeframe : string) (now : Z) (a : Article.t) : bool :=
  let since (days : Z) :=
    match Article.publishedAt a with
    | Some t => (now - days * 24 * 60 * 60 * 1000 <=? t)%Z
    | None => false
    end in
  if timeframe =? "week" then since 7%Z
  else if timeframe =? "month" then since 30%Z
  else true.

(** GET /api/public/articles/popular *)
Definition getPopularArticles
    (sortDocs : string -> list (string * Article.t)
                -> option (list (string * Article.t)))
    (beyond : JS.number -> JS.number -> list (string * Article.t)
              -> option (list (string * Article.t)))
    (limit : JS.queryNumber) (timeframe : option string) (now : Z) (db : DB)
    : Reply.t Reply.Page :=
  let limit := JS.parseInt 5 limit in
  let timeframe := default "all" timeframe in
  match sortDocs "-views -likes"
          (Store.find
             (fun a => (Article.status a =? "published")
                       && dateFilter timeframe now a) db)
        ≫= Store.skipLimit beyond (JS.Int 0) limit with
  | None => Reply.Rejected 500 "Server error getting popular articles"
  | Some articles =>
      Reply.Accepted 200
        {| Reply.items := projected articles; Reply.pagination := None |}
  end.

(** GET /api/public/articles/category/:category *)
Definition getArticlesByCategory
    (sortDocs : string -> list (string * Article.t)
                -> option (list (string * Article.t)))
    (beyond : JS.number -> JS.number -> list (string * Article.t)
              -> option (list (string * Article.t)))
    (category : string) (page limit : JS.queryNumber) (sort : option string)
    (db : DB) : Reply.t Reply.Page :=
  let page := JS.parseInt 1 page in
  let limit := JS.parseInt 10 limit in
  let sort := default "-publishedAt" sort in
  let query a :=
    (Article.status a =? "published")
    && bool_decide (Article.category a = Some category) in
  let skip := Reply.skipOf page limit in
  match sortDocs sort (Store.find query db)
        ≫= Store.skipLimit beyond skip limit with
  | None => Reply.Rejected 500 "Server error getting articles by category"
  | Some articles =>
      Reply.Accepted 200
        {| Reply.items := projected articles;
           Reply.pagination :=
             Some (Reply.paginationOf page limit
                     (Store.countDocuments query db)) |}
  end.

(** GET /api/public/articles/author/:authorId *)
Definition getArticlesByAuthor
    (sortDocs : string -> list (string * Article.t)
                -> option (list (string * Article.t)))
    (beyond : JS.number -> JS.number -> list (string * Article.t)
              -> option (list (string * Article.t)))
    (castId : string -> option string)
    (authorId : string) (page limit : JS.queryNumber) (sort : option string)
    (db : DB) : Reply.t Reply.Page :=
  let page := JS.parseInt 1 page in
  let limit := JS.parseInt 10 limit in
  let sort := default "-publishedAt" sort in
  match castId authorId with
  | None => Reply.Rejected 500 "Server error getting articles by author"
  | Some key =>
      let query a :=
        (Article.status a =? "published") && (Article.author a =? key) in
      let skip := Reply.skipOf page limit in
      match sortDocs sort (Store.find query db)
            ≫= Store.skipLimit beyond skip limit with
      | None => Reply.Rejected 500 "Server error getting articles by author"
      | Some articles =>
          Reply.Accepted 200
            {| Reply.items := projected articles;
               Reply.pagination :=
                 Some (Reply.paginationOf page limit
                         (Store.countDocuments query db)) |}
      end
  end.

End PublicController.

(** ** The engagement handlers of the auth controller *)

Module AuthController.

(** The body of [toggleLikeArticle] between [findOne] and [save]. *)
Definition toggle (userId : string) (article : Document.t) : Document.t :=
  let a := Document.doc article in
  let hasLiked := bool_decide (userId ∈ Article.likedBy a) in
  if hasLiked
  then
    let article :=
      Document.set "likedBy" Article.likedBy Article.set_likedBy
        (filter (fun id => id ≠ userId) (Article.likedBy a)) article in
    Document.set "likes" Article.likes Article.set_likes
      (Z.max 0 (Article.likes a - 1)) article
  else
    let article :=
      Document.set "likedBy" Article.likedBy Article.set_likedBy
        (Article.likedBy a ++ [userId])%list article in
    Document.set "likes" Article.likes Article.set_likes
      (Article.likes a + 1)%Z article.

(** POST /api/auth/articles/:id/like *)
Definition toggleLikeArticle (id userId : string) (now : Z) (db : DB)
    : Response * DB :=
  match Store.findPublished id db with
  | None => (failure 404 "Article not found", db)
  | Some a =>
      let hasLiked := bool_decide (userId ∈ Article.likedBy a) in
      match Model.save now (toggle userId (Document.load a)) with
      | None => (failure 500 "Server error toggling like", db)
      | Some article =>
          (ok 200
             (LikesPayload (Article.likes article) (Some (negb hasLiked))
                (if hasLiked then "Article unliked successfully"
                 else "Article liked successfully")),
           Store.putArticle id article db)
      end
  end.

(** POST /api/auth/articles/save *)
Definition saveArticle (articleId userId : string) (db : DB)
    : Response * DB :=
  match Store.findPublished articleId db with
  | None => (failure 404 "Article not found or not published", db)
  | Some _ =>
      match users db !! userId with
      | None => (failure 500 "Server error saving article", db)
      | Some user =>
          let wasAlreadySaved :=
            bool_decide (articleId ∈ User.savedArticles user) in
          let db :=
            if negb wasAlreadySaved
            then Store.putUser userId
                   (User.set_savedArticles
                      (User.savedArticles user ++ [articleId])%list user) db
            else db in
          (ok 200
             (SavedPayload true wasAlreadySaved
                (if wasAlreadySaved then "Article already saved"
                 else "Article saved successfully")),
           db)
      end
  end.

(** DELETE /api/auth/articles/:id/save *)
Definition unsaveArticle (id userId : string) (db : DB) : Response * DB :=
  match users db !! userId with
  | None => (failure 500 "Server error removing article from saved", db)
  | Some user =>
      let wasSaved := bool_decide (id ∈ User.savedArticles user) in
      let user :=
        User.set_savedArticles
          (filter (fun articleId => articleId ≠ id) (User.savedArticles user))
          user in
      (ok 200
         (SavedPayload false wasSaved
            (if wasSaved then "Article removed from saved articles"
             else "Article was not saved")),
       Store.putUser userId user db)
  end.

(** The [articleIds] query parameter: one string or, when the key is
    repeated, an array of strings. *)
Inductive QueryValue :=
| QString (s : string)
| QArray (l : list string).

(** One entry of the status list. *)
Record ArticleStatus := mkArticleStatus {
  articleId : string;
  liked : bool;
  saved : bool
}.

(** GET /api/auth/articles/status. [isObjectId] says which strings the
    driver casts to an id; one that it refuses makes the query throw. *)
Definition getArticlesStatus (isObjectId : string -> bool)
    (articleIds : option QueryValue) (userId : string) (db : DB)
    : Reply.t (list ArticleStatus) :=
  let missing :=
    match articleIds with
    | None => true
    | Some (QString s) => negb (JS.truthy s)
    | Some (QArray _) => false
    end in
  if missing then Reply.Rejected 400 "Article IDs are required"
  else
    let ids :=
      match articleIds with
      | Some (QArray l) => l
      | Some (QString s) => JS.splitOn "," s
      | None => []
      end in
    match users db !! userId with
    | None => Reply.Rejected 500 "Server error getting articles status"
    | Some user =>
        let savedArticleIds := User.savedArticles user in
        if negb (forallb isObjectId ids)
        then Reply.Rejected 500 "Server error getting articles status"
        else
          let articles :=
            List.filter
              (fun ia => bool_decide (fst ia ∈ ids)
                         && (Article.status (snd ia) =? "published"))
              (map_to_list (articles db)) in
          Reply.Accepted 200
            (map (fun ia =>
                    {| articleId := fst ia;
                       liked := bool_decide (userId ∈ Article.likedBy (snd ia));
                       saved := bool_decide (fst ia ∈ savedArticleIds) |})
               articles)
    end.

End AuthController.

(** ** The engagement handlers on the id as the request spells it *)

(** The controllers above take the id of an article in the spelling of the
    store, the key [findOne] looks up once the driver has cast the string
    of the request. Here the string is the request's own. [castId] is the
    driver's cast of a string to an ObjectId, given in the spelling of the
    store; [None] is the [CastError] of a string it refuses, which the
    [catch] of every handler answers with 500. *)
Module Handler.

(** POST /api/auth/articles/:id/like *)
Definition toggleLikeArticle (castId : string -> option string)
    (id userId : string) (now : Z) (db : DB) : Response * DB :=
  match castId id with
  | None => (failure 500 "Server error toggling like", db)
  | Some key => AuthController.toggleLikeArticle key userId now db
  end.

(** POST /api/public/articles/:id/like *)
Definition likeArticle (castId : string -> option string)
    (id : string) (now : Z) (db : DB) : Response * DB :=
  match castId id with
  | None => (failure 500 "Server error liking article", db)
  | Some key => PublicController.likeArticle key now db
  end.

(** POST /api/auth/articles/save. [findOne] casts [articleId];
    [includes] compares it as it is spelled with the stored ids; [push]
    casts it again, so the stored spelling is what is appended. *)
Definition saveArticle (castId : string -> option string)
    (articleId userId : string) (db : DB) : Response * DB :=
  match castId articleId with
  | None => (failure 500 "Server error saving article", db)
  | Some key =>
      match Store.findPublished key db with
      | None => (failure 404 "Article not found or not published", db)
      | Some _ =>
          match users db !! userId with
          | None => (failure 500 "Server error saving article", db)
          | Some user =>
              let wasAlreadySaved :=
                bool_decide (articleId ∈ User.savedArticles user) in
              let db :=
                if negb wasAlreadySaved
                then Store.putUser userId
                       (User.set_savedArticles
                          (User.savedArticles user ++ [key])%list user) db
                else db in
              (ok 200
                 (SavedPayload true wasAlreadySaved
                    (if wasAlreadySaved then "Article already saved"
                     else "Article saved successfully")),
               db)
          end
      end
  end.

End Handler.

(** ** The authentication middleware *)

Module AuthMiddleware.

(** The token of an [Authorization] header: the second piece of the
    header split at the spaces, when the header starts with [Bearer]. *)
Definition tokenOf (authorization : option string) : option string :=
  match authorization with
  | Some h =>
      if JS.truthy h && JS.startsWith "Bearer" h
      then nth_error (JS.splitOn " " h) 1
      else None
  | None => None
  end.

(** [protect]: the user the request goes on with, or the 401 answer.
    [verify] is [jwt.verify] with the server's secret: the [id] of the
    payload of a token it accepts. [isObjectId] says which strings
    [findById] casts to an id; on another one it throws, and the inner
    [catch] answers as for a token that does not verify. *)
Definition protect (verify : string -> option string)
    (isObjectId : string -> bool)
    (authorization : option string) (db : DB)
    : (nat * string) + (string * User.t) :=
  match tokenOf authorization with
  | None => inl (401%nat, "Access denied. No token provided.")
  | Some token =>
      if negb (JS.truthy token)
      then inl (401%nat, "Access denied. No token provided.")
      else
        match verify token with
        | None => inl (401%nat, "Invalid token.")
        | Some id =>
            if negb (isObjectId id) then inl (401%nat, "Invalid token.")
            else
              match users db !! id with
              | None => inl (401%nat, "Token is no longer valid.")
              | Some user =>
                  if negb (User.isActive user)
                  then inl (401%nat, "Account has been deactivated.")
                  else inr (id, user)
              end
        end
  end.

(** [authorize(...roles)] on the user [protect] left on the request. *)
Definition authorize (roles : list string) (user : option User.t)
    : option (nat * string) :=
  match user with
  | None => Some (401%nat, "Not authorized to access this route.")
  | Some u =>
      if negb (bool_decide (User.role u ∈ roles))
      then Some (403%nat,
                 "User role '" ++ User.role u
                 ++ "' is not authorized to access this route.")
      else None
  end.

(** [optionalAuth]: the request always goes on, with a user when the
    header carries a token of an active user. *)
Definition optionalAuth (verify : string -> option string)
    (isObjectId : string -> bool)
    (authorization : option string) (db : DB) : option (string * User.t) :=
  match tokenOf authorization with
  | None => None
  | Some token =>
      if JS.truthy token
      then match verify token with
           | None => None
           | Some id =>
               if isObjectId id
               then match users db !! id with
                    | Some user =>
                        if User.isActive user then Some (id, user) else None
                    | None => None
                    end
               else None
           end
      else None
  end.

End AuthMiddleware.

(** * Vocabulary of the properties *)

Section Vocabulary.

Import Document Model AuthController.

(** The fields no pre-save hook and no timestamp writes. *)
Definition keptBySave (a a' : Article.t) : Prop :=
  Article.title a' = Article.title a
  /\ Article.contentBlocks a' = Article.contentBlocks a
  /\ Article.editorData a' = Article.editorData a
  /\ Article.category a' = Article.category a
  /\ Article.tags a' = Article.tags a
  /\ Article.status a' = Article.status a
  /\ Article.author a' = Article.author a
  /\ Article.featuredImage a' = Article.featuredImage a
  /\ Article.views a' = Article.views a
  /\ Article.likes a' = Article.likes a
  /\ Article.likedBy a' = Article.likedBy a
  /\ Article.seoTitle a' = Article.seoTitle a
  /\ Article.seoDescription a' = Article.seoDescription a
  /\ Article.isFeatured a' = Article.isFeatured a
  /\ Article.allowComments a' = Article.allowComments a
  /\ Article.createdAt a' = Article.createdAt a.

(** The derived and lifecycle fields, which the hooks may write. *)
Definition derivedKept (a a' : Article.t) : Prop :=
  Article.slug a' = Article.slug a
  /\ Article.excerpt a' = Article.excerpt a
  /\ Article.readTime a' = Article.readTime a
  /\ Article.publishedAt a' = Article.publishedAt a.

(** One hook of the chain: it keeps the bookkeeping of the document and
    the fields of [keptBySave]. *)
Definition hookStep (d d' : t) : Prop :=
  modifiedPaths d' = modifiedPaths d
  /\ isNew d' = isNew d
  /\ keptBySave (doc d) (doc d').

(** [likedBy] is an array in the source; its cardinality as a set is the
    number of distinct ids in it. *)
Definition likers (a : Article.t) : gset string :=
  list_to_set (Article.likedBy a).

Definition cardinality (a : Article.t) : Z := Z.of_nat (size (likers a)).

Definition likesConsistent (a : Article.t) : Prop :=
  Article.likes a = cardinality a.

(** A run of toggles on one article; each carries the acting user and the
    time of the request. *)
Fixpoint toggles (id : string) (ops : list (string * Z)) (db : DB) : DB :=
  match ops with
  | [] => db
  | (userId, now) :: rest =>
      toggles id rest (snd (toggleLikeArticle id userId now db))
  end.

(** The toggle is carried out when the article is published and its stored
    title passes the schema. *)
Definition toggleApplies (a : Article.t) : bool :=
  (Article.status a =? "published") && Schema.validPath a "title".

Definition toggledLikedBy (u : string) (l : list string) : list string :=
  if bool_decide (u ∈ l) then filter (fun id => id ≠ u) l
  else (l ++ [u])%list.

Definition toggledLikes (u : string) (l : list string) (n : Z) : Z :=
  if bool_decide (u ∈ l) then Z.max 0 (n - 1) else (n + 1)%Z.

Definition sampleArticle : Article.t :=
  {| Article.title := "Hello, World!";
     Article.slug := Some "hello-world";
     Article.contentBlocks := [];
     Article.editorData := None;
     Article.excerpt := None;
     Article.category := None;
     Article.tags := [];
     Article.status := "published";
     Article.author := "author1";
     Article.featuredImage := "";
     Article.publishedAt := Some 2000%Z;
     Article.views := 0;
     Article.likes := 1;
     Article.likedBy := ["reader1"];
     Article.readTime := 1;
     Article.seoTitle := None;
     Article.seoDescription := None;
     Article.isFeatured := false;
     Article.allowComments := true;
     Article.createdAt := 1000;
     Article.updatedAt := 2000 |}.

Definition sampleDB : DB :=
  {| articles := {[ "a1" := sampleArticle ]}; users := ∅ |}.

Definition viewed (now : Z) (a : Article.t) : Article.t :=
  Article.set_updatedAt now (Article.set_views (Article.views a + 1) a).

(** Every path but [views] and [updatedAt]. *)
Definition restKept (a a' : Article.t) : Prop :=
  Article.title a' = Article.title a
  /\ Article.slug a' = Article.slug a
  /\ Article.contentBlocks a' = Article.contentBlocks a
  /\ Article.editorData a' = Article.editorData a
  /\ Article.excerpt a' = Article.excerpt a
  /\ Article.category a' = Article.category a
  /\ Article.tags a' = Article.tags a
  /\ Article.status a' = Article.status a
  /\ Article.author a' = Article.author a
  /\ Article.featuredImage a' = Article.featuredImage a
  /\ Article.publishedAt a' = Article.publishedAt a
  /\ Article.likes a' = Article.likes a
  /\ Article.likedBy a' = Article.likedBy a
  /\ Article.readTime a' = Article.readTime a
  /\ Article.seoTitle a' = Article.seoTitle a
  /\ Article.seoDescription a' = Article.seoDescription a
  /\ Article.isFeatured a' = Article.isFeatured a
  /\ Article.allowComments a' = Article.allowComments a
  /\ Article.createdAt a' = Article.createdAt a.

(** The article a publish request stores when the save goes through: the
    new status, the publish time the handler decided on, and the timestamp
    [stamp] of the save. *)
Definition published (now stamp : Z) (a : Article.t) : Article.t :=
  Article.set_updatedAt stamp
    (Article.set_publishedAt (Some (default now (Article.publishedAt a)))
       (Article.set_status "published" a)).

(** The article an unpublish request stores. *)
Definition unpublished (stamp : Z) (a : Article.t) : Article.t :=
  Article.set_updatedAt stamp (Article.set_status "draft" a).

Definition lifecyclePath (p : string) : Prop :=
  p = "status" \/ p = "publishedAt".

(** A draft without a category, as [createArticle] stores it for the title
    alone, and a store that holds it together with one reader who saved
    it. *)
Definition draftArticle : Article.t :=
  {| Article.title := "Hello, World!";
     Article.slug := Some "hello-world";
     Article.contentBlocks := [];
     Article.editorData := None;
     Article.excerpt := None;
     Article.category := None;
     Article.tags := [];
     Article.status := "draft";
     Article.author := "author1";
     Article.featuredImage := "";
     Article.publishedAt := None;
     Article.views := 0;
     Article.likes := 0;
     Article.likedBy := [];
     Article.readTime := 1;
     Article.seoTitle := None;
     Article.seoDescription := None;
     Article.isFeatured := false;
     Article.allowComments := true;
     Article.createdAt := 1000;
     Article.updatedAt := 1000 |}.

Definition reader1 : User.t :=
  {| User.name := "Reader"; User.email := "reader@example.org";
     User.role := "user"; User.isActive := true;
     User.savedArticles := ["d1"] |}.

Definition draftDB : DB :=
  {| articles := {[ "d1" := draftArticle ]};
     users := {[ "reader1" := reader1 ]} |}.

(** A request body with no key at all. *)
Definition emptyBody : Request.body :=
  {| Request.title := None; Request.contentBlocks := None;
     Request.editorData := None; Request.category := None;
     Request.tags := None; Request.status := None;
     Request.featuredImage := None; Request.seoTitle := None;
     Request.seoDescription := None; Request.isFeatured := None;
     Request.allowComments := None |}.

Definition statusBody (status : string) : Request.body :=
  {| Request.title := None; Request.contentBlocks := None;
     Request.editorData := None; Request.category := None;
     Request.tags := None; Request.status := Some status;
     Request.featuredImage := None; Request.seoTitle := None;
     Request.seoDescription := None; Request.isFeatured := None;
     Request.allowComments := None |}.

Definition titledBody (title : string) (status : option string)
    (category : option string) : Request.body :=
  {| Request.title := Some title; Request.contentBlocks := None;
     Request.editorData := None; Request.category := category;
     Request.tags := None; Request.status := status;
     Request.featuredImage := None; Request.seoTitle := None;
     Request.seoDescription := None; Request.isFeatured := None;
     Request.allowComments := None |}.

Definition emptyDB : DB := {| articles := ∅; users := ∅ |}.

(** Every character of the string is in the class. *)
Fixpoint allChars (p : ascii -> bool) (s : string) : bool :=
  match s with
  | EmptyString => true
  | String c r => p c && allChars p r
  end.

(** No two neighbours of the string are both in the class; [prev] says
    that the character before the string is. *)
Fixpoint noAdjacent (cls : ascii -> bool) (prev : bool) (s : string) : bool :=
  match s with
  | EmptyString => true
  | String c r =>
      if cls c then negb prev && noAdjacent cls true r
      else noAdjacent cls false r
  end.

(** The class [[a-z0-9-]] of a slug. *)
Definition slugOut (c : ascii) : bool :=
  JS.isLowerAZ c || JS.isDigit c || JS.isHyphen c.

Definition firstChar (s : string) : option ascii :=
  match s with
  | EmptyString => None
  | String c _ => Some c
  end.

Fixpoint lastChar (s : string) : option ascii :=
  match s with
  | EmptyString => None
  | String c EmptyString => Some c
  | String _ r => lastChar r
  end.

(** The number of white-space-separated tokens of a text: its maximal runs
    of characters that are not white space. [inword] says that the
    character before the string belongs to a token. *)
Fixpoint countWords (inword : bool) (s : string) : nat :=
  match s with
  | EmptyString => 0
  | String c r =>
      if JS.isSpace c then countWords false r
      else (if inword then 0 else 1) + countWords true r
  end.

Definition words (s : string) : nat := countWords false s.

(** A body with a title and an editor document of one paragraph. *)
Definition paragraphBody (title text : string) : Request.body :=
  {| Request.title := Some title; Request.contentBlocks := None;
     Request.editorData :=
       Some {| EditorData.blocks :=
                 Some [ {| EditorBlock.type := "paragraph";
                           EditorBlock.data :=
                             {| EditorBlock.text := Some text;
                                EditorBlock.items := None |} |} ] |};
     Request.category := None; Request.tags := None; Request.status := None;
     Request.featuredImage := None; Request.seoTitle := None;
     Request.seoDescription := None; Request.isFeatured := None;
     Request.allowComments := None |}.

(** A body with a title and one legacy text block. *)
Definition textBody (title text : string) : Request.body :=
  {| Request.title := Some title;
     Request.contentBlocks :=
       Some [ {| ContentBlock.type := "text"; ContentBlock.content := text;
                 ContentBlock.alt := ""; ContentBlock.order := 0 |} ];
     Request.editorData := None;
     Request.category := None; Request.tags := None; Request.status := None;
     Request.featuredImage := None; Request.seoTitle := None;
     Request.seoDescription := None; Request.isFeatured := None;
     Request.allowComments := None |}.

(** A body that replaces the legacy blocks and nothing else. *)
Definition blocksBody (blocks : list ContentBlock.t) : Request.body :=
  {| Request.title := None; Request.contentBlocks := Some blocks;
     Request.editorData := None;
     Request.category := None; Request.tags := None; Request.status := None;
     Request.featuredImage := None; Request.seoTitle := None;
     Request.seoDescription := None; Request.isFeatured := None;
     Request.allowComments := None |}.

(** [n] words separated by single spaces. *)
Definition manyWords (n : nat) : string := JS.join " " (replicate n "word").

(** An article whose editor document holds no text, with an excerpt left
    from an earlier content. *)
Definition imageOnlyArticle : Article.t :=
  {| Article.title := "Gallery";
     Article.slug := Some "gallery";
     Article.contentBlocks := [];
     Article.editorData :=
       Some {| EditorData.blocks :=
                 Some [ {| EditorBlock.type := "image";
                           EditorBlock.data :=
                             {| EditorBlock.text := None;
                                EditorBlock.items := None |} |} ] |};
     Article.excerpt := Some "An earlier text...";
     Article.category := None;
     Article.tags := [];
     Article.status := "draft";
     Article.author := "author1";
     Article.featuredImage := "";
     Article.publishedAt := None;
     Article.views := 0;
     Article.likes := 0;
     Article.likedBy := [];
     Article.readTime := 1;
     Article.seoTitle := None;
     Article.seoDescription := None;
     Article.isFeatured := false;
     Article.allowComments := true;
     Article.createdAt := 1000;
     Article.updatedAt := 1000 |}.

(** The blocks of an editor document, none when the document or its
    [blocks] key is missing. *)
Definition editorBlocks (ed : option EditorData.t) : list EditorBlock.t :=
  default [] (ed ≫= EditorData.blocks).

Definition mkBlock (type : string) (text : option string)
    (items : option (list string)) : EditorBlock.t :=
  {| EditorBlock.type := type;
     EditorBlock.data := {| EditorBlock.text := text;
                            EditorBlock.items := items |} |}.

Definition withEditorBlocks (blocks : list EditorBlock.t) (a : Article.t)
    : Article.t :=
  {| Article.title := Article.title a; Article.slug := Article.slug a;
     Article.contentBlocks := Article.contentBlocks a;
     Article.editorData := Some {| EditorData.blocks := Some blocks |};
     Article.excerpt := Article.excerpt a;
     Article.category := Article.category a; Article.tags := Article.tags a;
     Article.status := Article.status a; Article.author := Article.author a;
     Article.featuredImage := Article.featuredImage a;
     Article.publishedAt := Article.publishedAt a;
     Article.views := Article.views a; Article.likes := Article.likes a;
     Article.likedBy := Article.likedBy a;
     Article.readTime := Article.readTime a;
     Article.seoTitle := Article.seoTitle a;
     Article.seoDescription := Article.seoDescription a;
     Article.isFeatured := Article.isFeatured a;
     Article.allowComments := Article.allowComments a;
     Article.createdAt := Article.createdAt a;
     Article.updatedAt := Article.updatedAt a |}.






(** The words of the texts an update request carries: those of its legacy
    text blocks and those of its paragraphs and headers that have a text. *)
Definition sumWords (texts : list string) : nat :=
  foldr (fun t n => (words t + n)%nat) 0%nat texts.

Definition requestTexts (contentBlocks : option (list ContentBlock.t))
    (editorData : option EditorData.t) : list string :=
  (map ContentBlock.content
     (List.filter (fun b => ContentBlock.type b =? "text")
        (default [] contentBlocks))
   ++ omap (fun b =>
              if (EditorBlock.type b =? "paragraph")
                 || (EditorBlock.type b =? "header")
              then EditorBlock.text (EditorBlock.data b)
              else None)
        (editorBlocks editorData))%list.

(** A store with one published article and one reader. *)
Definition readerDB : DB :=
  {| articles := {[ "a1" := sampleArticle ]};
     users := {[ "reader1" := reader1 ]} |}.

(** The article an anonymous like stores. *)
Definition likedOnce (now : Z) (a : Article.t) : Article.t :=
  Article.set_updatedAt now (Article.set_likes (Article.likes a + 1) a).

(** The pre-save chain on the fields alone, for a document with the given
    bookkeeping: what each hook writes, in the order of the chain. *)
Definition stamped (isNew : bool) (modified : list string) (now : Z)
    (a : Article.t) : Article.t :=
  if isNew || negb (bool_decide (modified = []))
  then Article.set_updatedAt now a else a.

Definition slugged (modified : list string) (a : Article.t) : Article.t :=
  if bool_decide ("title" ∈ modified)
  then Article.set_slug
         (Some (Schema.castLower (Model.slugify (Article.title a)))) a
  else a.

Definition dated (modified : list string) (now : Z) (a : Article.t)
    : Article.t :=
  if bool_decide ("status" ∈ modified)
     && (Article.status a =? "published")
     && negb (bool_decide (is_Some (Article.publishedAt a)))
  then Article.set_publishedAt (Some now) a else a.

Definition contentTouched (modified : list string) : bool :=
  bool_decide ("contentBlocks" ∈ modified)
  || bool_decide ("editorData" ∈ modified).

Definition timed (modified : list string) (a : Article.t) : Article.t :=
  if contentTouched modified
  then Article.set_readTime (Model.readTimeOf a) a else a.

Definition excerpted (modified : list string) (a : Article.t) : Article.t :=
  if contentTouched modified && JS.truthy (Model.excerptText a)
  then Article.set_excerpt (Some (Model.excerptOf (Model.excerptText a))) a
  else a.

Definition afterHooks (isNew : bool) (modified : list string) (now : Z)
    (a : Article.t) : Article.t :=
  excerpted modified
    (timed modified
       (dated modified now
          (slugged modified (stamped isNew modified now a)))).

(** The article [createArticle] stores for a validated body. *)
Definition created (req : Request.body) (userId : string) (now : Z)
    : Article.t :=
  let d := ArticleController.newDocument req userId now in
  afterHooks true (modifiedPaths d) now (doc d).

(** A body with a title and the text of one paragraph, for a new draft. *)
Definition noteBody : Request.body := paragraphBody "Field Notes" "one two".

(** The requests that write to the store, one constructor for each route
    handler that does, with the parameters the handler reads from the
    request. *)
Inductive Call :=
| CreateArticle (req : Request.body) (userId newId : string)
| UpdateArticle (unsetUndefined : bool) (req : Request.body)
    (id userId : string)
| DeleteArticle (id userId : string)
| PublishArticle (id userId : string)
| UnpublishArticle (id userId : string)
| RegenerateExcerpts (clock : nat -> Z)
| GetPublicArticle (slug : string)
| GetPublicArticleById (id : string)
| LikeArticle (id : string)
| ToggleLikeArticle (id userId : string)
| SaveArticle (articleId userId : string)
| UnsaveArticle (id userId : string).

Definition codeOf {A : Type} (r : Reply.t A) : nat :=
  match r with
  | Reply.Rejected code _ => code
  | Reply.Accepted code _ => code
  end.

(** The status code a request is answered with and the store it leaves. *)
Definition serve (c : Call) (now : Z) (db : DB) : nat * DB :=
  let answered (r : Response * DB) := (statusCode (fst r), snd r) in
  let replied {A : Type} (r : Reply.t A * DB) := (codeOf (fst r), snd r) in
  match c with
  | CreateArticle req u newId =>
      answered (ArticleController.createArticle req u newId now db)
  | UpdateArticle unset req id u =>
      answered (ArticleController.updateArticle unset req id u now db)
  | DeleteArticle id u => replied (ArticleController.deleteArticle id u db)
  | PublishArticle id u =>
      answered (ArticleController.publishArticle id u now db)
  | UnpublishArticle id u =>
      answered (ArticleController.unpublishArticle id u now db)
  | RegenerateExcerpts clock =>
      replied (ArticleController.regenerateExcerpts clock db)
  | GetPublicArticle slug =>
      answered (PublicController.getPublicArticle slug now db)
  | GetPublicArticleById id =>
      answered (PublicController.getPublicArticleById id now db)
  | LikeArticle id => answered (PublicController.likeArticle id now db)
  | ToggleLikeArticle id u => answered (toggleLikeArticle id u now db)
  | SaveArticle id u => answered (saveArticle id u db)
  | UnsaveArticle id u => answered (unsaveArticle id u db)
  end.

(** What the surroundings of a handler guarantee when it runs: the id the
    driver gives a new document is not in use, and the user of a request
    that passed [protect] is in the store. *)
Definition wellPosed (c : Call) (db : DB) : Prop :=
  let signedIn (u : string) := is_Some (users db !! u) in
  match c with
  | CreateArticle _ u newId => articles db !! newId = None /\ signedIn u
  | UpdateArticle _ _ _ u => signedIn u
  | DeleteArticle _ u => signedIn u
  | PublishArticle _ u => signedIn u
  | UnpublishArticle _ u => signedIn u
  | ToggleLikeArticle _ u => signedIn u
  | SaveArticle _ u => signedIn u
  | UnsaveArticle _ u => signedIn u
  | RegenerateExcerpts _ => True
  | GetPublicArticle _ => True
  | GetPublicArticleById _ => True
  | LikeArticle _ => True
  end.

(** A sequence of requests with their times, served one after another. *)
Fixpoint run (calls : list (Call * Z)) (db : DB) : DB :=
  match calls with
  | [] => db
  | (c, now) :: rest => run rest (snd (serve c now db))
  end.

Fixpoint posed (calls : list (Call * Z)) (db : DB) : Prop :=
  match calls with
  | [] => True
  | (c, now) :: rest => wellPosed c db /\ posed rest (snd (serve c now db))
  end.

(** The article passes every validator of the schema. *)
Definition validArticle (a : Article.t) : Prop :=
  Schema.validPaths a Schema.allPaths = true.

(** A change that leaves title and slug alone. *)
Definition quiet (a a' : Article.t) : Prop :=
  Article.title a' = Article.title a
  /\ Article.slug a' = Article.slug a
  /\ Article.author a' = Article.author a
  /\ Article.createdAt a' = Article.createdAt a
  /\ (Article.views a <= Article.views a')%Z
  /\ ((0 <= Article.likes a)%Z -> (0 <= Article.likes a')%Z)
  /\ (validArticle a -> validArticle a').

(** The slug of [a'] is the slug of its title, and no other document of
    the store holds it. *)
Definition keyed (db : DB) (id : string) (a' : Article.t) : Prop :=
  Article.slug a' = Some (slugify (Article.title a'))
  /\ forall id' b, articles db !! id' = Some b -> id' <> id ->
                   Article.slug b <> Article.slug a'.

Definition rewritten (a a' : Article.t) : Prop :=
  Article.author a' = Article.author a
  /\ Article.createdAt a' = Article.createdAt a
  /\ Article.views a' = Article.views a
  /\ Article.likes a' = Article.likes a
  /\ (validArticle a -> validArticle a').

Definition fresh (a' : Article.t) : Prop :=
  Article.views a' = 0%Z /\ Article.likes a' = 0%Z /\ validArticle a'.

(** The three ways a request can leave the collection of articles: every
    document where it was, changed quietly if at all; one document written
    under a slug that is the key of its title; one document removed. *)
Definition quietly (db db' : DB) : Prop :=
  forall id,
    match articles db !! id with
    | Some a => exists a', articles db' !! id = Some a' /\ quiet a a'
    | None => articles db' !! id = None
    end.

Definition writesOne (db db' : DB) : Prop :=
  exists id a',
    articles db' = <[id := a']> (articles db)
    /\ keyed db id a'
    /\ match articles db !! id with
       | Some a => rewritten a a'
       | None => fresh a'
       end.

Definition removesOne (db db' : DB) : Prop :=
  exists id, articles db' = delete id (articles db).

(** Every slug is the slug of its article's title, and no two articles
    share one. *)
Definition slugsAreKeys (db : DB) : Prop :=
  (forall id a, articles db !! id = Some a ->
                Article.slug a = Some (slugify (Article.title a)))
  /\ (forall i j a b, articles db !! i = Some a -> articles db !! j = Some b ->
                      Article.slug a = Article.slug b -> i = j).

(** Every article passes the schema and has counters that are not
    negative. *)
Definition sound (db : DB) : Prop :=
  forall id a, articles db !! id = Some a ->
               validArticle a
               /\ (0 <= Article.likes a)%Z /\ (0 <= Article.views a)%Z.

(** The article a toggle stores, with the timestamp of its save. *)
Definition toggled (u : string) (stamp : Z) (a : Article.t) : Article.t :=
  Article.set_updatedAt stamp
    (Article.set_likes
       (toggledLikes u (Article.likedBy a) (Article.likes a))
       (Article.set_likedBy (toggledLikedBy u (Article.likedBy a)) a)).

(** The article the regeneration stores for one it found. *)
Definition regenerated (now : Z) (a : Article.t) : Article.t :=
  afterHooks false ["editorData"] now a.

(** A store with the sample article, its author and a reader, and a
    sequence of requests on it. *)
Definition blogDB : DB :=
  {| articles := {[ "a1" := sampleArticle ]};
     users := {[ "reader1" := reader1;
                 "author1" := {| User.name := "Ann"; User.email := "ann@example.org";
                                 User.role := "author"; User.isActive := true;
                                 User.savedArticles := [] |} ]} |}.

Definition session : list (Call * Z) :=
  [ (CreateArticle noteBody "author1" "n1", 3000%Z);
    (PublishArticle "n1" "author1", 3100%Z);
    (GetPublicArticle "field-notes", 3200%Z);
    (ToggleLikeArticle "n1" "reader1", 3300%Z);
    (SaveArticle "n1" "reader1", 3400%Z);
    (UpdateArticle false (titledBody "Field Notes, Revised" None None)
       "n1" "author1", 3500%Z);
    (RegenerateExcerpts (fun n => 3600 + Z.of_nat n)%Z, 3600%Z);
    (DeleteArticle "a1" "author1", 3700%Z) ].

(** A cursor's [sort], when the database takes the key, hands back the
    documents it was given, in some order. *)
Definition reorders
    (sortDocs : string -> list (string * Article.t)
                -> option (list (string * Article.t))) : Prop :=
  forall s l r, sortDocs s l = Some r -> r ≡ₚ l.

(** Outside their natural range too, [skip] and [limit] only leave
    documents out: what comes back is part of what went in, in its
    order. *)
Definition selects
    (beyond : JS.number -> JS.number -> list (string * Article.t)
              -> option (list (string * Article.t))) : Prop :=
  forall skip limit docs r,
    beyond skip limit docs = Some r -> r `sublist_of` docs.

(** What a list reply shows: no document twice, and only stored articles
    that satisfy [P], each as [shown]. *)
Definition listsOnly (shown : Article.t -> Article.t)
    (P : Article.t -> Prop) (db : DB) (r : Reply.t Reply.Page) : Prop :=
  forall page, Reply.accepted r = Some page ->
    NoDup ((Reply.items page).*1)
    /\ forall id a', (id, a') ∈ Reply.items page ->
         exists a, articles db !! id = Some a /\ P a /\ a' = shown a.

(** For a page of 1 or more and a positive limit, a list reply has at
    most [limit] entries; this when the limit and the number of documents
    to skip are at most [Store.maxInt]. *)
Definition bounded (page limit : JS.number) (r : Reply.t Reply.Page) : Prop :=
  forall p l, page = JS.Int p -> limit = JS.Int l ->
    (1 <= p)%Z -> (0 < l <= Store.maxInt)%Z ->
    ((p - 1) * l <= Store.maxInt)%Z ->
    forall pg, Reply.accepted r = Some pg ->
               (length (Reply.items pg) <= Z.to_nat l)%nat.

(** The filter of a list request on one field: a parameter that is
    absent or empty does not filter. *)
Definition filtered {A : Type} (param : option string) (holds : string -> A)
    (none : A) : A :=
  match param with
  | Some v => if JS.truthy v then holds v else none
  | None => none
  end.

(** The items of an accepted list reply. *)
Definition itemsOf (r : Reply.t Reply.Page) : list (string * Article.t) :=
  match r with
  | Reply.Accepted _ page => Reply.items page
  | Reply.Rejected _ _ => []
  end.


(** What [optionalAuth] leaves on the request, read off the outcome of
    [protect]. *)
Definition admittedUser (r : (nat * string) + (string * User.t))
    : option (string * User.t) :=
  match r with
  | inr user => Some user
  | inl _ => None
  end.

(** A [jwt.verify] that accepts the one token [tok], of the reader. *)
Definition verifyReader (token : string) : option string :=
  if token =? "tok" then Some "reader1" else None.

(** The articles that carry an editor document. *)
Definition hasEditorData (a : Article.t) : bool :=
  bool_decide (is_Some (Article.editorData a)).

(** An article with an editor document, and a store that holds it. *)
Definition essay : Article.t :=
  withEditorBlocks [mkBlock "paragraph" (Some "one two") None] sampleArticle.

Definition essayDB : DB :=
  {| articles := {[ "e1" := essay ]}; users := ∅ |}.

End Vocabulary.

(** * Lemmas and theorems *)

(** ** What a save leaves alone *)

Section SaveFrame.

Import Document Model.

Lemma keptBySave_refl a : keptBySave a a.
Proof. repeat split. Qed.

Lemma derivedKept_refl a : derivedKept a a.
Proof. repeat split. Qed.

Lemma hookStep_refl d : hookStep d d.
Proof. repeat split. Qed.

Lemma hookStep_trans d1 d2 d3 : hookStep d1 d2 -> hookStep d2 d3 -> hookStep d1 d3.
Proof.
  unfold hookStep, keptBySave. intros (P1 & N1 & K1) (P2 & N2 & K2).
  split; [congruence|]. split; [congruence|].
  decompose [and] K1. decompose [and] K2. repeat split; congruence.
Qed.

Lemma hookStep_update f d :
  (forall a, keptBySave a (f a)) -> hookStep d (update f d).
Proof. intros Hf. split; [reflexivity|]. split; [reflexivity|]. apply Hf. Qed.

Lemma hookStep_isModified p d d' :
  hookStep d d' -> isModified p d' = isModified p d.
Proof. intros (Hp & _). unfold isModified. rewrite Hp. reflexivity. Qed.

Lemma timestamps_step now d : hookStep d (timestamps now d).
Proof.
  unfold timestamps. destruct (isNew d || _).
  - apply hookStep_update. intros a. repeat split.
  - apply hookStep_refl.
Qed.

Lemma preSaveSlug_step d : hookStep d (preSaveSlug d).
Proof.
  unfold preSaveSlug. destruct (isModified "title" d).
  - apply hookStep_update. intros a. repeat split.
  - apply hookStep_refl.
Qed.

Lemma preSavePublishedAt_step now d : hookStep d (preSavePublishedAt now d).
Proof.
  unfold preSavePublishedAt. destruct (_ && _).
  - apply hookStep_update. intros a. repeat split.
  - apply hookStep_refl.
Qed.

Lemma preSaveReadTime_step d : hookStep d (preSaveReadTime d).
Proof.
  unfold preSaveReadTime. destruct (contentModified d).
  - apply hookStep_update. intros a. repeat split.
  - apply hookStep_refl.
Qed.

Lemma preSaveExcerpt_step d : hookStep d (preSaveExcerpt d).
Proof.
  unfold preSaveExcerpt. destruct (contentModified d); [|apply hookStep_refl].
  destruct (JS.truthy _); [|apply hookStep_refl].
  apply hookStep_update. intros a. repeat split.
Qed.

Lemma preSave_step now d : hookStep d (preSave now d).
Proof.
  unfold preSave.
  eapply hookStep_trans; [apply timestamps_step|].
  eapply hookStep_trans; [apply preSaveSlug_step|].
  eapply hookStep_trans; [apply preSavePublishedAt_step|].
  eapply hookStep_trans; [apply preSaveReadTime_step|].
  apply preSaveExcerpt_step.
Qed.

Lemma preSave_kept now d : keptBySave (doc d) (doc (preSave now d)).
Proof. apply preSave_step. Qed.

Lemma save_Some now d a' :
  save now d = Some a' ->
  Schema.validPaths (doc d) (pathsToValidate d) = true
  /\ a' = doc (preSave now d).
Proof.
  unfold save. destruct (Schema.validPaths _ _); [|discriminate].
  intros [= <-]. split; reflexivity.
Qed.

Lemma save_kept now d a' : save now d = Some a' -> keptBySave (doc d) a'.
Proof. intros H. apply save_Some in H as [_ ->]. apply preSave_kept. Qed.

Lemma contentModified_step d d' :
  hookStep d d' -> contentModified d' = contentModified d.
Proof.
  intros H. unfold contentModified.
  rewrite !(hookStep_isModified _ _ _ H). reflexivity.
Qed.

(** A save that modified neither the title, the status nor the content
    runs no hook body: only the timestamp can move. *)
Lemma preSave_untracked now d :
  isModified "title" d = false ->
  isModified "status" d = false ->
  contentModified d = false ->
  preSave now d = timestamps now d.
Proof.
  intros H1 H2 H3. unfold preSave.
  pose proof (timestamps_step now d) as Hs.
  assert (E1 : preSaveSlug (timestamps now d) = timestamps now d).
  { unfold preSaveSlug. rewrite (hookStep_isModified _ _ _ Hs), H1.
    reflexivity. }
  rewrite E1.
  assert (E2 : preSavePublishedAt now (timestamps now d) = timestamps now d).
  { unfold preSavePublishedAt. rewrite (hookStep_isModified _ _ _ Hs), H2.
    reflexivity. }
  rewrite E2.
  assert (E3 : preSaveReadTime (timestamps now d) = timestamps now d).
  { unfold preSaveReadTime. rewrite (contentModified_step _ _ Hs), H3.
    reflexivity. }
  rewrite E3.
  unfold preSaveExcerpt. rewrite (contentModified_step _ _ Hs), H3.
  reflexivity.
Qed.

Lemma timestamps_derived now d : derivedKept (doc d) (doc (timestamps now d)).
Proof.
  unfold timestamps. destruct (isNew d || _); repeat split.
Qed.

End SaveFrame.

(** ** Likes and the set of likers *)

Section Likes.

Import Document Model AuthController.

Lemma toggle_fields u a :
  let d := toggle u (load a) in
  Article.likedBy (doc d) = toggledLikedBy u (Article.likedBy a)
  /\ Article.likes (doc d) = toggledLikes u (Article.likedBy a) (Article.likes a)
  /\ Article.title (doc d) = Article.title a
  /\ Article.status (doc d) = Article.status a
  /\ isNew d = false
  /\ Forall (fun p => p = "likedBy" \/ p = "likes") (modifiedPaths d).
Proof.
  cbv zeta. unfold toggle, toggledLikedBy, toggledLikes, Document.set, load.
  cbn [doc isNew modifiedPaths].
  destruct (bool_decide (u ∈ Article.likedBy a));
    cbn [doc isNew modifiedPaths];
    repeat (split; [reflexivity|]);
    repeat (match goal with
            | |- context [if ?b then _ else _] => destruct b
            end);
    cbn [app];
    repeat (match goal with
            | |- Forall _ (_ :: _) => constructor; [auto|]
            | |- Forall _ [] => constructor
            end).
Qed.

Lemma validPaths_engagement a a' (ps : list string) :
  Article.title a' = Article.title a ->
  Forall (fun p => p = "likedBy" \/ p = "likes") ps ->
  Schema.validPaths a' (Schema.requiredPaths ++ ps) = Schema.validPath a "title".
Proof.
  intros Ht Hps. unfold Schema.validPaths, Schema.requiredPaths.
  rewrite forallb_app.
  assert (Hrest : forallb (Schema.validPath a') ps = true).
  { apply forallb_forall. intros p Hp.
    rewrite Forall_forall in Hps.
    destruct (Hps p) as [-> | ->];
      [apply list_elem_of_In; exact Hp|reflexivity|reflexivity]. }
  rewrite Hrest, andb_true_r.
  cbn [forallb].
  change (Schema.validPath a' "author") with true. rewrite !andb_true_r.
  change (Schema.validPath a' "title")
    with (JS.truthy (Article.title a')
          && Schema.maxlength 200 (Some (Article.title a'))).
  rewrite Ht. reflexivity.
Qed.

(** The article found at [id] after one toggle request. *)
Lemma toggleLike_article id u now db a :
  articles db !! id = Some a ->
  if toggleApplies a
  then exists a',
      articles (snd (toggleLikeArticle id u now db)) !! id = Some a'
      /\ Article.likedBy a' = toggledLikedBy u (Article.likedBy a)
      /\ Article.likes a' = toggledLikes u (Article.likedBy a) (Article.likes a)
      /\ Article.title a' = Article.title a
      /\ Article.status a' = Article.status a
  else snd (toggleLikeArticle id u now db) = db.
Proof.
  intros Ha. unfold toggleApplies, toggleLikeArticle, Store.findPublished.
  rewrite Ha.
  destruct (Article.status a =? "published") eqn:Hst; [|reflexivity].
  destruct (toggle_fields u a) as (Hl & Hn & Ht & Hs & Hnew & Hps).
  rewrite andb_true_l.
  unfold save, pathsToValidate. rewrite Hnew.
  rewrite (validPaths_engagement a _ _ Ht Hps).
  destruct (Schema.validPath a "title"); [|reflexivity].
  eexists. split.
  { cbn [snd]. unfold Store.putArticle, set_articles. cbn [articles].
    apply lookup_insert_eq. }
  destruct (preSave_kept now (toggle u (load a)))
    as (Kt & _ & _ & _ & _ & Ks & _ & _ & _ & Kl & Kb & _).
  rewrite Kb, Kl, Kt, Ks. auto.
Qed.

Lemma toggled_consistent u (l : list string) (n : Z) :
  n = Z.of_nat (size (list_to_set (C := gset string) l)) ->
  toggledLikes u l n
  = Z.of_nat (size (list_to_set (C := gset string) (toggledLikedBy u l))).
Proof.
  intros ->. unfold toggledLikes, toggledLikedBy.
  destruct (bool_decide (u ∈ l)) eqn:Hin.
  - apply bool_decide_eq_true in Hin.
    assert (Hset : list_to_set (C := gset string) (filter (fun id => id ≠ u) l)
                   = list_to_set l ∖ {[u]}).
    { apply set_eq. intros v.
      rewrite elem_of_difference, !elem_of_list_to_set, list_elem_of_filter,
        elem_of_singleton. tauto. }
    rewrite Hset, size_difference, size_singleton.
    + assert (0 < size (list_to_set (C := gset string) l))%nat; [|lia].
      assert (size (list_to_set (C := gset string) l) ≠ 0)%nat; [|lia].
      apply size_non_empty_iff. intros He.
      assert (Hu : u ∈ list_to_set (C := gset string) l)
        by (apply elem_of_list_to_set; exact Hin).
      rewrite He in Hu. apply not_elem_of_empty in Hu. exact Hu.
    + intros v Hv. apply elem_of_singleton in Hv as ->.
      apply elem_of_list_to_set. exact Hin.
  - apply bool_decide_eq_false in Hin.
    rewrite list_to_set_snoc_L, size_union, size_singleton; [lia|].
    intros v Hv1 Hv2. apply elem_of_singleton in Hv2 as ->.
    apply elem_of_list_to_set in Hv1. contradiction.
Qed.

Lemma toggled_twice u (l : list string) (n : Z) :
  n = Z.of_nat (size (list_to_set (C := gset string) l)) ->
  toggledLikes u (toggledLikedBy u l) (toggledLikes u l n) = n
  /\ list_to_set (C := gset string) (toggledLikedBy u (toggledLikedBy u l))
     = list_to_set l.
Proof.
  intros Hn. unfold toggledLikes, toggledLikedBy.
  destruct (bool_decide (u ∈ l)) eqn:Hin.
  - apply bool_decide_eq_true in Hin.
    assert (Hout : u ∉ filter (fun id => id ≠ u) l).
    { rewrite list_elem_of_filter. tauto. }
    rewrite (bool_decide_eq_false_2 _ Hout). split.
    + assert (0 < size (list_to_set (C := gset string) l))%nat; [|lia].
      assert (size (list_to_set (C := gset string) l) ≠ 0)%nat; [|lia].
      apply size_non_empty_iff. intros He.
      assert (Hu : u ∈ list_to_set (C := gset string) l)
        by (apply elem_of_list_to_set; exact Hin).
      rewrite He in Hu. apply not_elem_of_empty in Hu. exact Hu.
    + apply set_eq. intros v.
      rewrite !elem_of_list_to_set, elem_of_app, list_elem_of_filter,
        list_elem_of_singleton.
      destruct (decide (v = u)) as [-> | Hne]; tauto.
  - apply bool_decide_eq_false in Hin.
    assert (Hmem : u ∈ (l ++ [u])%list).
    { rewrite elem_of_app, list_elem_of_singleton. tauto. }
    rewrite (bool_decide_eq_true_2 _ Hmem). split; [lia|].
    apply set_eq. intros v.
    rewrite !elem_of_list_to_set, list_elem_of_filter, elem_of_app,
      list_elem_of_singleton.
    destruct (decide (v = u)) as [-> | Hne]; tauto.
Qed.

Lemma toggleApplies_stable a a' :
  Article.title a' = Article.title a ->
  Article.status a' = Article.status a ->
  toggleApplies a' = toggleApplies a.
Proof.
  intros Ht Hs. unfold toggleApplies, Schema.validPath; simpl.
  rewrite Ht, Hs. reflexivity.
Qed.

Lemma toggled_NoDup u (l : list string) : NoDup l -> NoDup (toggledLikedBy u l).
Proof.
  intros Hl. unfold toggledLikedBy.
  destruct (bool_decide (u ∈ l)) eqn:Hin.
  - apply NoDup_filter, Hl.
  - apply bool_decide_eq_false in Hin.
    apply NoDup_app. split; [exact Hl|]. split; [|apply NoDup_singleton].
    intros x Hx Hxu. apply list_elem_of_singleton in Hxu as ->. contradiction.
Qed.

Lemma toggles_consistent id ops : forall db a,
  articles db !! id = Some a ->
  likesConsistent a ->
  exists a', articles (toggles id ops db) !! id = Some a'
             /\ likesConsistent a'
             /\ (NoDup (Article.likedBy a) -> NoDup (Article.likedBy a')).
Proof.
  induction ops as [|[u now] ops IH]; intros db a Ha Hc; simpl.
  - exists a. auto.
  - pose proof (toggleLike_article id u now db a Ha) as Hstep.
    destruct (toggleApplies a).
    + destruct Hstep as (a' & Ha' & Hl & Hn & _ & _).
      destruct (IH _ a' Ha') as (a'' & Ha'' & Hc'' & Hd'').
      { unfold likesConsistent, cardinality, likers. rewrite Hl, Hn.
        apply toggled_consistent. exact Hc. }
      exists a''. split; [exact Ha''|]. split; [exact Hc''|].
      intros Hd. apply Hd''. rewrite Hl. apply toggled_NoDup, Hd.
    + rewrite Hstep. apply (IH _ a Ha Hc).
Qed.

End Likes.

(** C1. Starting from an article whose [likes] equals the number of
    distinct ids in [likedBy], the equality holds again after every toggle
    of every run of authenticated toggle requests on it, and when the array
    starts without a repeated id it stays so, [likes] being its length; two
    toggles in a row by the same user give back the original [likes] and
    the original set of likers. *)
Theorem toggle_like_keeps_count (db : DB) (id : string) (a : Article.t)
    (ops : list (string * Z)) :
  articles db !! id = Some a ->
  likesConsistent a ->
  (forall ran, ran `prefix_of` ops ->
     exists a', articles (toggles id ran db) !! id = Some a'
                /\ likesConsistent a'
                /\ (NoDup (Article.likedBy a) ->
                    NoDup (Article.likedBy a')
                    /\ Article.likes a'
                       = Z.of_nat (length (Article.likedBy a'))))
  /\ (forall u t1 t2,
        exists a2, articles (toggles id [(u, t1); (u, t2)] db) !! id = Some a2
                   /\ Article.likes a2 = Article.likes a
                   /\ likers a2 = likers a).
Proof.
  intros Ha Hc. split.
  - intros ran _.
    destruct (toggles_consistent id ran db a Ha Hc) as (a' & Ha' & Hc' & Hd').
    exists a'. split; [exact Ha'|]. split; [exact Hc'|].
    intros Hd. specialize (Hd' Hd). split; [exact Hd'|].
    rewrite Hc'. unfold cardinality, likers.
    rewrite (size_list_to_set _ Hd'). reflexivity.
  - intros u t1 t2. simpl.
    pose proof (toggleLike_article id u t1 db a Ha) as H1.
    destruct (toggleApplies a) eqn:Happ.
    + destruct H1 as (a1 & Ha1 & Hl1 & Hn1 & Ht1 & Hs1).
      pose proof (toggleLike_article id u t2 _ a1 Ha1) as H2.
      rewrite (toggleApplies_stable a a1 Ht1 Hs1), Happ in H2.
      destruct H2 as (a2 & Ha2 & Hl2 & Hn2 & _ & _).
      exists a2. split; [exact Ha2|].
      destruct (toggled_twice u (Article.likedBy a) (Article.likes a) Hc)
        as [Hn Hl].
      unfold likers. rewrite Hl2, Hn2, Hl1, Hn1. split; assumption.
    + rewrite H1.
      pose proof (toggleLike_article id u t2 db a Ha) as H2.
      rewrite Happ in H2. rewrite H2.
      exists a. auto.
Qed.

Lemma toggle_like_keeps_count_witness :
  (forall ran, ran `prefix_of` [("reader2", 3000%Z); ("reader1", 4000%Z)] ->
     exists a', articles (toggles "a1" ran sampleDB) !! "a1" = Some a'
                /\ likesConsistent a'
                /\ (NoDup (Article.likedBy sampleArticle) ->
                    NoDup (Article.likedBy a')
                    /\ Article.likes a'
                       = Z.of_nat (length (Article.likedBy a'))))
  /\ (forall u t1 t2,
        exists a2,
          articles (toggles "a1" [(u, t1); (u, t2)] sampleDB) !! "a1" = Some a2
          /\ Article.likes a2 = Article.likes sampleArticle
          /\ likers a2 = likers sampleArticle).
Proof.
  apply (toggle_like_keeps_count sampleDB "a1" sampleArticle).
  - reflexivity.
  - reflexivity.
Defined.

(** ** Views *)

Section Views.

Import Document Model PublicController.

Lemma countView_spec now a :
  countView now a
  = if Schema.validPath a "title" then Some (viewed now a) else None.
Proof.
  unfold countView, save, Document.set, load, pathsToValidate.
  cbn [doc isNew modifiedPaths].
  assert (Hne : bool_decide (Article.views a = (Article.views a + 1)%Z) = false)
    by (apply bool_decide_eq_false; lia).
  rewrite Hne. cbn [app].
  unfold Schema.validPaths, Schema.requiredPaths. cbn [app forallb].
  change (Schema.validPath (Article.set_views (Article.views a + 1) a) "title")
    with (Schema.validPath a "title").
  change (Schema.validPath (Article.set_views (Article.views a + 1) a) "author")
    with true.
  change (Schema.validPath (Article.set_views (Article.views a + 1) a) "views")
    with true.
  rewrite !andb_true_r.
  destruct (Schema.validPath a "title"); [|reflexivity].
  rewrite preSave_untracked by reflexivity.
  reflexivity.
Qed.

Lemma findPublished_Some id db a :
  Store.findPublished id db = Some a ->
  articles db !! id = Some a /\ Article.status a = "published".
Proof.
  unfold Store.findPublished. destruct (articles db !! id) as [b|]; [|discriminate].
  destruct (Article.status b =? "published") eqn:E; [|discriminate].
  intros [= ->]. apply String.eqb_eq in E. auto.
Qed.

Lemma findPublishedBySlug_Some slug db id a :
  Store.findPublishedBySlug slug db = Some (id, a) ->
  articles db !! id = Some a
  /\ Article.slug a = Some (Schema.castLower slug)
  /\ Article.status a = "published".
Proof.
  unfold Store.findPublishedBySlug. intros H.
  apply find_some in H as [Hin Hp]. cbn [snd] in Hp.
  apply andb_true_iff in Hp as [Hs Hst].
  apply bool_decide_eq_true in Hs. apply String.eqb_eq in Hst.
  apply list_elem_of_In, elem_of_map_to_list in Hin. auto.
Qed.

End Views.

(** C10, as amended. A successful public fetch of one published article,
    by id or by slug, stores the article found with [views] one higher and
    [updatedAt] set to the time of the save, every other path as it was, and
    touches no other document; a fetch that does not succeed, in particular
    one that finds no published article, leaves the store as it is. *)
Theorem public_fetch_counts_one_view (db : DB) (now : Z) :
  (forall id,
     let r := PublicController.getPublicArticleById id now db in
     (success (fst r) = true ->
      exists a, Store.findPublished id db = Some a
                /\ snd r = Store.putArticle id (viewed now a) db)
     /\ (success (fst r) = false -> snd r = db))
  /\ (forall slug,
     let r := PublicController.getPublicArticle slug now db in
     (success (fst r) = true ->
      exists id a, Store.findPublishedBySlug slug db = Some (id, a)
                   /\ snd r = Store.putArticle id (viewed now a) db)
     /\ (success (fst r) = false -> snd r = db))
  /\ (forall a,
     Article.views (viewed now a) = (Article.views a + 1)%Z
     /\ Article.updatedAt (viewed now a) = now
     /\ restKept a (viewed now a)).
Proof.
  split; [|split].
  - intros id. cbv zeta. unfold PublicController.getPublicArticleById.
    destruct (Store.findPublished id db) as [a|]; [|split; [discriminate|reflexivity]].
    rewrite countView_spec.
    destruct (Schema.validPath a "title"); cbn [fst snd success ok failure].
    + split; [|discriminate]. intros _. exists a. split; reflexivity.
    + split; [discriminate|reflexivity].
  - intros slug. cbv zeta. unfold PublicController.getPublicArticle.
    destruct (Store.findPublishedBySlug slug db) as [[id a]|];
      [|split; [discriminate|reflexivity]].
    rewrite countView_spec.
    destruct (Schema.validPath a "title"); cbn [fst snd success ok failure].
    + split; [|discriminate]. intros _. exists id, a. split; reflexivity.
    + split; [discriminate|reflexivity].
  - intros a. repeat split.
Qed.

Lemma public_fetch_counts_one_view_witness :
  exists a, Store.findPublished "a1" sampleDB = Some a
            /\ snd (PublicController.getPublicArticleById "a1" 5000 sampleDB)
               = Store.putArticle "a1" (viewed 5000 a) sampleDB.
Proof.
  apply (proj1 (proj1 (public_fetch_counts_one_view sampleDB 5000) "a1")).
  reflexivity.
Defined.

(** C10 as stated fails: the save behind the fetch also moves [updatedAt]. *)
Lemma public_fetch_moves_updatedAt :
  let r := PublicController.getPublicArticleById "a1" 5000 sampleDB in
  success (fst r) = true
  /\ Article.updatedAt <$> articles sampleDB !! "a1" = Some 2000%Z
  /\ Article.updatedAt <$> articles (snd r) !! "a1" = Some 5000%Z.
Proof. vm_compute. repeat split. Qed.

(** ** Lifecycle *)

Section Lifecycle.

Import Document Model ArticleController.

Lemma isModified_outside (P : string -> Prop) p d :
  Forall P (modifiedPaths d) -> ~ P p -> isModified p d = false.
Proof.
  intros HP Hp. unfold isModified. apply bool_decide_eq_false. intros Hin.
  rewrite Forall_forall in HP. apply Hp, HP, Hin.
Qed.

(** The chain does nothing but refresh the timestamp when no hook
    condition holds. *)
Lemma preSave_inert now d :
  isModified "title" d = false ->
  contentModified d = false ->
  isModified "status" d
  && (Article.status (doc d) =? "published")
  && negb (bool_decide (is_Some (Article.publishedAt (doc d)))) = false ->
  preSave now d = timestamps now d.
Proof.
  intros H1 H3 H2. unfold preSave.
  pose proof (timestamps_step now d) as Hs.
  assert (E1 : preSaveSlug (timestamps now d) = timestamps now d).
  { unfold preSaveSlug. rewrite (hookStep_isModified _ _ _ Hs), H1.
    reflexivity. }
  rewrite E1.
  assert (E2 : preSavePublishedAt now (timestamps now d) = timestamps now d).
  { unfold preSavePublishedAt. rewrite (hookStep_isModified _ _ _ Hs).
    destruct Hs as (_ & _ & K). destruct K as (_ & _ & _ & _ & _ & Ks & _).
    destruct (timestamps_derived now d) as (_ & _ & _ & Kp).
    rewrite Ks, Kp, H2. reflexivity. }
  rewrite E2.
  assert (E3 : preSaveReadTime (timestamps now d) = timestamps now d).
  { unfold preSaveReadTime. rewrite (contentModified_step _ _ Hs), H3.
    reflexivity. }
  rewrite E3.
  unfold preSaveExcerpt. rewrite (contentModified_step _ _ Hs), H3.
  reflexivity.
Qed.

Lemma validPaths_lifecycle a a' (ps : list string) :
  Article.title a' = Article.title a ->
  Schema.inEnum (Article.status a') Schema.statusEnum = true ->
  Forall lifecyclePath ps ->
  Schema.validPaths a' (Schema.requiredPaths ++ ps) = Schema.validPath a "title".
Proof.
  intros Ht Hst Hps. unfold Schema.validPaths, Schema.requiredPaths.
  rewrite forallb_app.
  assert (Hrest : forallb (Schema.validPath a') ps = true).
  { apply forallb_forall. intros p Hp.
    rewrite Forall_forall in Hps.
    destruct (Hps p) as [-> | ->];
      [apply list_elem_of_In; exact Hp|exact Hst|reflexivity]. }
  rewrite Hrest, andb_true_r.
  cbn [forallb].
  change (Schema.validPath a' "author") with true. rewrite !andb_true_r.
  change (Schema.validPath a' "title")
    with (JS.truthy (Article.title a')
          && Schema.maxlength 200 (Some (Article.title a'))).
  rewrite Ht. reflexivity.
Qed.

Lemma lifecycle_quiet d :
  Forall lifecyclePath (modifiedPaths d) ->
  isModified "title" d = false /\ contentModified d = false.
Proof.
  intros H. unfold contentModified.
  rewrite !(isModified_outside lifecyclePath _ d H);
    [auto| | |]; intros [E | E]; discriminate E.
Qed.

Lemma findOwned_Some id u db a :
  Store.findOwned id u db = Some a ->
  articles db !! id = Some a /\ Article.author a = u.
Proof.
  unfold Store.findOwned. destruct (articles db !! id) as [b|]; [|discriminate].
  destruct (Article.author b =? u) eqn:E; [|discriminate].
  intros [= ->]. apply String.eqb_eq in E. auto.
Qed.

Lemma timestamps_doc now d :
  exists stamp, doc (timestamps now d) = Article.set_updatedAt stamp (doc d).
Proof.
  unfold timestamps. destruct (isNew d || _).
  - exists now. reflexivity.
  - exists (Article.updatedAt (doc d)). destruct (doc d). reflexivity.
Qed.

(** A save whose modified paths are lifecycle paths, with a status of the
    enumeration and no publish time left to set. *)
Lemma save_lifecycle now d a :
  isNew d = false ->
  Forall lifecyclePath (modifiedPaths d) ->
  Article.title (doc d) = Article.title a ->
  Schema.inEnum (Article.status (doc d)) Schema.statusEnum = true ->
  (Article.status (doc d) =? "published")
  && negb (bool_decide (is_Some (Article.publishedAt (doc d)))) = false ->
  Schema.validPath a "title" = true ->
  exists stamp, save now d = Some (Article.set_updatedAt stamp (doc d)).
Proof.
  intros Hnew Hps Ht Hst Hpub Hv.
  unfold save, pathsToValidate. rewrite Hnew.
  rewrite (validPaths_lifecycle a _ _ Ht Hst Hps), Hv.
  destruct (lifecycle_quiet d Hps) as [Q1 Q2].
  rewrite preSave_inert; [| exact Q1 | exact Q2 |].
  - destruct (timestamps_doc now d) as [stamp E]. exists stamp.
    rewrite E. reflexivity.
  - rewrite <- andb_assoc, Hpub. apply andb_false_r.
Qed.

Lemma save_invalid_title now d a :
  isNew d = false ->
  Forall lifecyclePath (modifiedPaths d) ->
  Article.title (doc d) = Article.title a ->
  Schema.inEnum (Article.status (doc d)) Schema.statusEnum = true ->
  Schema.validPath a "title" = false ->
  save now d = None.
Proof.
  intros Hnew Hps Ht Hst Hv.
  unfold save, pathsToValidate. rewrite Hnew.
  rewrite (validPaths_lifecycle a _ _ Ht Hst Hps), Hv. reflexivity.
Qed.

Lemma publish_document now a :
  (let article :=
     Document.set "status" Article.status Article.set_status "published"
       (load a) in
   if negb (bool_decide (is_Some (Article.publishedAt (doc article))))
   then Document.set "publishedAt" Article.publishedAt
          Article.set_publishedAt (Some now) article
   else article)
  = {| doc := Article.set_publishedAt
                (Some (default now (Article.publishedAt a)))
                (Article.set_status "published" a);
       isNew := false;
       modifiedPaths :=
         (if bool_decide (Article.status a = "published") then []
          else ["status"])
         ++ match Article.publishedAt a with
            | Some _ => []
            | None => ["publishedAt"]
            end |}.
Proof.
  destruct a as [? ? ? ? ? ? ? st ? ? pa ? ? ? ? ? ? ? ? ? ?].
  unfold Document.set, load. cbn [doc isNew modifiedPaths Article.status
    Article.publishedAt Article.set_status Article.set_publishedAt].
  destruct pa as [t|]; cbn.
  - rewrite app_nil_r. reflexivity.
  - destruct (bool_decide (st = "published")); reflexivity.
Qed.

Lemma publishArticle_found id u now db a :
  Store.findOwned id u db = Some a ->
  Schema.validPath a "title" = true ->
  exists stamp,
    publishArticle id u now db
    = (ok 200 (ArticlePayload (published now stamp a)
                 (Some "Article published successfully")),
       Store.putArticle id (published now stamp a) db).
Proof.
  intros Hf Hv. unfold publishArticle. rewrite Hf.
  cbv zeta. pose proof (publish_document now a) as Hd. cbv zeta in Hd.
  rewrite Hd. clear Hd.
  match goal with
  | |- context [save now ?d] =>
      destruct (save_lifecycle now d a) as [stamp E]
  end.
  - reflexivity.
  - cbn [modifiedPaths].
    destruct (bool_decide _); destruct (Article.publishedAt a); cbn [app];
      repeat (match goal with
              | |- Forall _ (_ :: _) => constructor; [unfold lifecyclePath; auto|]
              | |- Forall _ [] => constructor
              end).
  - reflexivity.
  - reflexivity.
  - reflexivity.
  - exact Hv.
  - rewrite E. exists stamp. reflexivity.
Qed.


End Lifecycle.



(** The category check of the create chain runs only when the key is
    present: a body asking for [published] with no [category] key is stored
    as published, one with an empty category is rejected, and a draft
    without a category is accepted. *)
Example create_published_without_category :
  let r := ArticleController.createArticle
             (titledBody "Hello, World!" (Some "published") None)
             "author1" "n1" 1000 emptyDB in
  statusCode (fst r) = 201%nat
  /\ Article.status <$> articles (snd r) !! "n1" = Some "published"
  /\ Article.category <$> articles (snd r) !! "n1" = Some None.
Proof. vm_compute. repeat split. Qed.

Example create_published_empty_category :
  ArticleController.createArticle
    (titledBody "Hello, World!" (Some "published") (Some ""))
    "author1" "n1" 1000 emptyDB
  = ({| statusCode := 400; success := false;
        payload := FailureDetails "Validation failed"
                     ["Category is required for published articles"] |},
     emptyDB).
Proof. vm_compute. reflexivity. Qed.

Example create_draft_without_category :
  let r := ArticleController.createArticle
             (titledBody "Hello, World!" None None)
             "author1" "n1" 1000 emptyDB in
  statusCode (fst r) = 201%nat
  /\ Article.status <$> articles (snd r) !! "n1" = Some "draft"
  /\ Article.category <$> articles (snd r) !! "n1" = Some None.
Proof. vm_compute. repeat split. Qed.



(** ** The update path and the publish time *)

Section UpdateLifecycle.

Import ArticleController.

Lemma updateArticleValidation_status req :
  Request.status (Validation.updateArticleValidation req).1 = Request.status req.
Proof.
  unfold Validation.updateArticleValidation.
  destruct (Request.title req); reflexivity.
Qed.

(** The article found at [id] after an update request: the one before, or
    the one before with the update applied. *)
Lemma updateArticle_article unset req id u now db a :
  articles db !! id = Some a ->
  let req' := (Validation.updateArticleValidation req).1 in
  let r := updateArticle unset req id u now db in
  (snd r = db /\ success (fst r) = false)
  \/ (snd r
      = Store.putArticle id
          (applyUpdate unset (buildUpdateData req' a now) now a) db
      /\ success (fst r) = true).
Proof.
  intros Ha. cbv zeta. unfold updateArticle.
  destruct (Validation.updateArticleValidation req) as [req' errors].
  cbn [fst]. destruct errors; [|left; split; reflexivity].
  destruct (Store.findOwned id u db) as [b|] eqn:Hf;
    [|left; split; reflexivity].
  apply findOwned_Some in Hf as [Hb _].
  rewrite Ha in Hb. injection Hb as <-.
  unfold findByIdAndUpdate. rewrite Ha.
  destruct (negb _); [left; split; reflexivity|].
  destruct (_ && _); [left; split; reflexivity|].
  right. split; reflexivity.
Qed.

Lemma update_published_keeps_publishedAt unset req a now t :
  Request.status req = Some "published" ->
  Article.publishedAt a = Some t ->
  Article.publishedAt (applyUpdate unset (buildUpdateData req a now) now a)
  = Some t.
Proof.
  intros Hs Hp. unfold applyUpdate, buildUpdateData.
  cbn [Article.publishedAt u_publishedAt]. rewrite Hs, Hp. reflexivity.
Qed.

(** What the update path does with [publishedAt] on the way back to
    draft: the key is assigned [undefined], and the outcome is the
    persistence layer's. *)
Lemma update_draft_publishedAt unset req a now :
  Request.status req = Some "draft" ->
  Article.publishedAt (applyUpdate unset (buildUpdateData req a now) now a)
  = if unset then None else Article.publishedAt a.
Proof.
  intros Hs. unfold applyUpdate, buildUpdateData.
  cbn [Article.publishedAt u_publishedAt]. rewrite Hs. reflexivity.
Qed.

End UpdateLifecycle.

(** C8. Publishing an article whose [publishedAt] is set leaves
    [publishedAt] as it is, through the publish handler and through an
    update request that asks for the status [published]; the publish handler
    sets [publishedAt] to the time of the request only when it was not
    set. *)
Theorem republish_keeps_publishedAt (db : DB) (id u : string) (now t : Z)
    (a : Article.t) :
  articles db !! id = Some a ->
  Article.status a = "published" ->
  Article.publishedAt a = Some t ->
  (exists a',
      articles (snd (ArticleController.publishArticle id u now db)) !! id
      = Some a'
      /\ Article.publishedAt a' = Some t)
  /\ (forall unset req,
        Request.status req = Some "published" ->
        exists a',
          articles (snd (ArticleController.updateArticle unset req id u now db))
            !! id = Some a'
          /\ Article.publishedAt a' = Some t).
Proof.
  intros Ha _ Hp. split.
  - unfold ArticleController.publishArticle.
    destruct (Store.findOwned id u db) as [b|] eqn:Hf; [|exists a; auto].
    pose proof (findOwned_Some _ _ _ _ Hf) as [Hb _].
    rewrite Ha in Hb. injection Hb as <-.
    destruct (Schema.validPath a "title") eqn:Hv.
    + destruct (publishArticle_found id u now db a Hf Hv) as [stamp E].
      unfold ArticleController.publishArticle in E. rewrite Hf in E.
      rewrite E. exists (published now stamp a). split.
      * cbn [snd]. unfold Store.putArticle, set_articles. cbn [articles].
        apply lookup_insert_eq.
      * unfold published. cbn [Article.publishedAt Article.set_updatedAt
          Article.set_publishedAt]. rewrite Hp. reflexivity.
    + pose proof (publish_document now a) as Hd. cbv zeta in Hd.
      cbv zeta. rewrite Hd. clear Hd.
      rewrite (save_invalid_title now _ a); [exists a; auto|..]; try reflexivity;
        [|exact Hv].
      cbn [Document.modifiedPaths].
      destruct (bool_decide _); destruct (Article.publishedAt a); cbn [app];
        repeat (match goal with
                | |- Forall _ (_ :: _) =>
                    constructor; [unfold lifecyclePath; auto|]
                | |- Forall _ [] => constructor
                end).
  - intros unset req Hs.
    destruct (updateArticle_article unset req id u now db a Ha)
      as [[E _] | [E _]]; rewrite E.
    + exists a. auto.
    + eexists. split.
      * unfold Store.putArticle, set_articles. cbn [articles].
        apply lookup_insert_eq.
      * apply update_published_keeps_publishedAt; [|exact Hp].
        rewrite updateArticleValidation_status. exact Hs.
Qed.

Lemma republish_keeps_publishedAt_witness :
  (exists a',
      articles (snd (ArticleController.publishArticle "a1" "author1" 5000
                       sampleDB)) !! "a1" = Some a'
      /\ Article.publishedAt a' = Some 2000%Z)
  /\ (forall unset req,
        Request.status req = Some "published" ->
        exists a',
          articles (snd (ArticleController.updateArticle unset req "a1"
                           "author1" 5000 sampleDB)) !! "a1" = Some a'
          /\ Article.publishedAt a' = Some 2000%Z).
Proof.
  apply (republish_keeps_publishedAt sampleDB "a1" "author1" 5000 2000
           sampleArticle).
  - reflexivity.
  - reflexivity.
  - reflexivity.
Defined.

(** The first publication stamps the article with the time of the
    request. *)
Example first_publish_sets_publishedAt :
  Article.publishedAt
    <$> articles (snd (ArticleController.publishArticle "d1" "author1" 2000
                         draftDB)) !! "d1"
  = Some (Some 2000%Z).
Proof. vm_compute. reflexivity. Qed.

(** ** Engagement on articles that are not published *)

(** C9, as amended. For an id that does not resolve to a published
    article, be it that the driver cannot cast the string, that no article
    has the id or that the article is not published, the authenticated
    toggle, the anonymous like and the save each report an error and leave
    the store as it is; the error is 404 when the id can be cast and 500
    when it cannot. The unsave handler does not look the article up: for
    any id it leaves every article as it is and, when it answers a known
    user with a success, has stored the saved list without the id. *)
Theorem engagement_needs_published_except_unsave
    (castId : string -> option string) (db : DB) (id u : string) (now : Z) :
  castId id ≫= (fun key => Store.findPublished key db) = None ->
  let code := match castId id with Some _ => 404%nat | None => 500%nat end in
  (let r := Handler.toggleLikeArticle castId id u now db in
   success (fst r) = false /\ statusCode (fst r) = code /\ snd r = db)
  /\ (let r := Handler.likeArticle castId id now db in
      success (fst r) = false /\ statusCode (fst r) = code /\ snd r = db)
  /\ (let r := Handler.saveArticle castId id u db in
      success (fst r) = false /\ statusCode (fst r) = code /\ snd r = db)
  /\ articles (snd (AuthController.unsaveArticle id u db)) = articles db
  /\ (forall user,
        users db !! u = Some user ->
        let r := AuthController.unsaveArticle id u db in
        success (fst r) = true ->
        User.savedArticles <$> users (snd r) !! u
        = Some (filter (fun articleId => articleId ≠ id)
                  (User.savedArticles user))).
Proof.
  intros Hf. cbv zeta.
  unfold Handler.toggleLikeArticle, Handler.likeArticle, Handler.saveArticle.
  assert (Hunsave :
            articles (snd (AuthController.unsaveArticle id u db)) = articles db
            /\ (forall user,
                  users db !! u = Some user ->
                  success (fst (AuthController.unsaveArticle id u db)) = true ->
                  User.savedArticles
                    <$> users (snd (AuthController.unsaveArticle id u db))
                          !! u
                  = Some (filter (fun articleId => articleId ≠ id)
                            (User.savedArticles user)))).
  { unfold AuthController.unsaveArticle. split.
    - destruct (users db !! u); reflexivity.
    - intros user Hu _. rewrite Hu. cbn [fst snd success ok].
      unfold Store.putUser, set_users. cbn [users].
      rewrite lookup_insert_eq. reflexivity. }
  destruct (castId id) as [key|]; cbn in Hf.
  - unfold AuthController.toggleLikeArticle, PublicController.likeArticle.
    rewrite Hf. cbn [fst snd success statusCode failure].
    do 3 (split; [repeat split|]). exact Hunsave.
  - cbn [fst snd success statusCode failure].
    do 3 (split; [repeat split|]). exact Hunsave.
Qed.

Lemma engagement_needs_published_except_unsave_witness :
  (let r := Handler.toggleLikeArticle (fun s => Some s) "d1" "reader1" 3000
              draftDB in
   success (fst r) = false /\ statusCode (fst r) = 404%nat /\ snd r = draftDB)
  /\ (let r := Handler.likeArticle (fun s => Some s) "d1" 3000 draftDB in
      success (fst r) = false /\ statusCode (fst r) = 404%nat
      /\ snd r = draftDB)
  /\ (let r := Handler.saveArticle (fun s => Some s) "d1" "reader1" draftDB in
      success (fst r) = false /\ statusCode (fst r) = 404%nat
      /\ snd r = draftDB)
  /\ articles (snd (AuthController.unsaveArticle "d1" "reader1" draftDB))
     = articles draftDB
  /\ (let r := AuthController.unsaveArticle "d1" "reader1" draftDB in
      User.savedArticles <$> users (snd r) !! "reader1"
      = Some (filter (fun articleId => articleId ≠ "d1")
                (User.savedArticles reader1))).
Proof.
  destruct (engagement_needs_published_except_unsave (fun s => Some s)
              draftDB "d1" "reader1" 3000 eq_refl)
    as (Htoggle & Hlike & Hsave & Harticles & Hunsave).
  split; [exact Htoggle|]. split; [exact Hlike|]. split; [exact Hsave|].
  split; [exact Harticles|].
  exact (Hunsave reader1 eq_refl eq_refl).
Defined.

(** C9 as stated fails for unsave: the id of a draft is removed from the
    reader's saved list, and the answer is a success. *)
Lemma unsave_of_a_draft_succeeds :
  let r := AuthController.unsaveArticle "d1" "reader1" draftDB in
  Store.findPublished "d1" draftDB = None
  /\ User.savedArticles <$> users draftDB !! "reader1" = Some ["d1"]
  /\ success (fst r) = true
  /\ statusCode (fst r) = 200%nat
  /\ User.savedArticles <$> users (snd r) !! "reader1" = Some [].
Proof. vm_compute. repeat split. Qed.

(** ** The slug *)

Section Slug.

Import JS Model.

Ltac by_cases_on_char c :=
  destruct c as [[] [] [] [] [] [] [] []]; vm_compute; congruence.

Lemma slugChar_not_space c :
  slugChar c = true -> isSpace c = false -> slugOut c = true.
Proof. by_cases_on_char c. Qed.

Lemma slugOut_not_space c : slugOut c = true -> isSpace c = false.
Proof. by_cases_on_char c. Qed.

Lemma slugOut_lower c : slugOut c = true -> lowerChar c = c.
Proof. by_cases_on_char c. Qed.

Lemma slugOut_slugChar c : slugOut c = true -> slugChar c = true.
Proof. by_cases_on_char c. Qed.

Lemma isHyphen_eq c : isHyphen c = true -> c = "-"%char.
Proof. by_cases_on_char c. Qed.

Lemma allChars_removeOutside p s : allChars p (removeOutside p s) = true.
Proof.
  induction s as [|c r IH]; [reflexivity|]. cbn [removeOutside].
  destruct (p c) eqn:E; [|exact IH]. cbn [allChars]. rewrite E. exact IH.
Qed.

Lemma allChars_replaceRuns (p q cls : ascii -> bool) r s :
  (forall c, p c = true -> cls c = false -> q c = true) ->
  q r = true ->
  allChars p s = true ->
  forall b, allChars q (replaceRuns cls r b s) = true.
Proof.
  intros Hpq Hr. induction s as [|c t IH]; intros Hs b; [reflexivity|].
  cbn [allChars] in Hs. apply andb_true_iff in Hs as [Hc Ht].
  cbn [replaceRuns]. destruct (cls c) eqn:E.
  - destruct b; [apply IH, Ht|]. cbn [allChars]. rewrite Hr. apply IH, Ht.
  - cbn [allChars]. rewrite (Hpq c Hc E). apply IH, Ht.
Qed.

Lemma replaceRuns_outside (cls : ascii -> bool) r s :
  allChars (fun c => negb (cls c)) s = true ->
  forall b, replaceRuns cls r b s = s.
Proof.
  induction s as [|c t IH]; intros Hs b; [reflexivity|].
  cbn [allChars] in Hs. apply andb_true_iff in Hs as [Hc Ht].
  apply negb_true_iff in Hc. cbn [replaceRuns]. rewrite Hc.
  f_equal. apply IH, Ht.
Qed.

Lemma allChars_impl (p q : ascii -> bool) s :
  (forall c, p c = true -> q c = true) ->
  allChars p s = true -> allChars q s = true.
Proof.
  intros Hpq. induction s as [|c t IH]; [reflexivity|]. cbn [allChars].
  intros H. apply andb_true_iff in H as [Hc Ht].
  rewrite (Hpq c Hc). apply IH, Ht.
Qed.

Lemma noAdjacent_replaceRuns s :
  forall b, noAdjacent isHyphen b (replaceRuns isHyphen "-" b s) = true.
Proof.
  induction s as [|c t IH]; intros b; [reflexivity|].
  cbn [replaceRuns]. destruct (isHyphen c) eqn:E.
  - destruct b; [apply IH|]. cbn [noAdjacent].
    change (isHyphen "-") with true. cbn [negb andb]. apply IH.
  - cbn [noAdjacent]. rewrite E. apply IH.
Qed.

Lemma replaceRuns_noAdjacent s :
  forall b, noAdjacent isHyphen b s = true ->
            replaceRuns isHyphen "-" b s = s.
Proof.
  induction s as [|c t IH]; intros b H; [reflexivity|].
  cbn [noAdjacent] in H. cbn [replaceRuns]. destruct (isHyphen c) eqn:E.
  - apply andb_true_iff in H as [Hb Ht]. apply negb_true_iff in Hb. subst b.
    rewrite (IH true Ht), (isHyphen_eq c E). reflexivity.
  - rewrite (IH false H). reflexivity.
Qed.

Lemma removeOutside_inside p s :
  allChars p s = true -> removeOutside p s = s.
Proof.
  induction s as [|c t IH]; [reflexivity|]. cbn [allChars removeOutside].
  intros H. apply andb_true_iff in H as [Hc Ht].
  rewrite Hc, (IH Ht). reflexivity.
Qed.

Lemma toLowerCase_slugOut s :
  allChars slugOut s = true -> toLowerCase s = s.
Proof.
  induction s as [|c t IH]; [reflexivity|]. cbn [allChars toLowerCase].
  intros H. apply andb_true_iff in H as [Hc Ht].
  rewrite (slugOut_lower c Hc), (IH Ht). reflexivity.
Qed.

Lemma trimEnd_no_space s :
  allChars (fun c => negb (isSpace c)) s = true -> trimEnd s = s.
Proof.
  induction s as [|c t IH]; [reflexivity|]. cbn [allChars trimEnd].
  intros H. apply andb_true_iff in H as [Hc Ht].
  apply negb_true_iff in Hc. rewrite (IH Ht), Hc.
  destruct t; reflexivity.
Qed.

Lemma trim_no_space s :
  allChars (fun c => negb (isSpace c)) s = true -> trim s = s.
Proof.
  intros H. unfold trim.
  assert (E : trimStart s = s).
  { destruct s as [|c t]; [reflexivity|]. cbn [allChars] in H.
    apply andb_true_iff in H as [Hc _]. apply negb_true_iff in Hc.
    cbn [trimStart]. rewrite Hc. reflexivity. }
  rewrite E. apply trimEnd_no_space, H.
Qed.

Lemma slugOut_no_space s :
  allChars slugOut s = true ->
  allChars (fun c => negb (isSpace c)) s = true.
Proof.
  apply allChars_impl. intros c Hc. rewrite (slugOut_not_space c Hc).
  reflexivity.
Qed.

(** What the slug expression computes: the [trim] at its end does
    nothing. *)
Lemma slugify_unfold title :
  slugify title
  = replaceRuns isHyphen "-" false
      (replaceRuns isSpace "-" false
         (removeOutside slugChar (toLowerCase title)))
  /\ allChars slugOut (slugify title) = true.
Proof.
  unfold slugify.
  assert (H : allChars slugOut
                (replaceRuns isHyphen "-" false
                   (replaceRuns isSpace "-" false
                      (removeOutside slugChar (toLowerCase title)))) = true).
  { apply (allChars_replaceRuns slugOut slugOut); [auto|reflexivity|].
    apply (allChars_replaceRuns slugChar slugOut);
      [apply slugChar_not_space|reflexivity|].
    apply allChars_removeOutside. }
  rewrite (trim_no_space _ (slugOut_no_space _ H)). split; [reflexivity|exact H].
Qed.

(** The derived slug is made of [[a-z0-9-]] only. *)
Lemma slugify_chars title : allChars slugOut (slugify title) = true.
Proof. apply slugify_unfold. Qed.

(** It has no two hyphens in a row. *)
Lemma slugify_no_double_hyphen title :
  noAdjacent isHyphen false (slugify title) = true.
Proof.
  rewrite (proj1 (slugify_unfold title)). apply noAdjacent_replaceRuns.
Qed.

(** It is a fixed point of the derivation. *)
Lemma slugify_idempotent title : slugify (slugify title) = slugify title.
Proof.
  pose proof (slugify_chars title) as Hc.
  pose proof (slugify_no_double_hyphen title) as Hd.
  rewrite (proj1 (slugify_unfold (slugify title))).
  rewrite (toLowerCase_slugOut _ Hc).
  rewrite (removeOutside_inside slugChar);
    [|apply (allChars_impl slugOut); [apply slugOut_slugChar|exact Hc]].
  rewrite (replaceRuns_outside isSpace); [|apply slugOut_no_space, Hc].
  apply replaceRuns_noAdjacent, Hd.
Qed.

(** The setters of the [slug] path leave a derived slug as it is. *)
Lemma castLower_slugify title :
  Schema.castLower (slugify title) = slugify title.
Proof.
  unfold Schema.castLower.
  rewrite (trim_no_space _ (slugOut_no_space _ (slugify_chars title))).
  apply toLowerCase_slugOut, slugify_chars.
Qed.

End Slug.

(** C2. The derivation leaves a hyphen at either end of the slug: its
    last step is [trim('-')], and [trim] removes white space only. The title
    [Hello !] is stored with the slug [hello-] by a create and by an update,
    and the title [- hello] gives [-hello]. *)
Theorem slug_keeps_outer_hyphens :
  Model.slugify "Hello !" = "hello-"
  /\ lastChar (Model.slugify "Hello !") = Some "-"%char
  /\ Model.slugify "- hello" = "-hello"
  /\ firstChar (Model.slugify "- hello") = Some "-"%char
  /\ Article.slug
       <$> articles (snd (ArticleController.createArticle
                            (titledBody "Hello !" None None)
                            "author1" "n1" 1000 emptyDB)) !! "n1"
     = Some (Some "hello-")
  /\ (forall unset,
        Article.slug
          <$> articles (snd (ArticleController.updateArticle unset
                               (titledBody "Hello !" None None)
                               "d1" "author1" 3000 draftDB)) !! "d1"
        = Some (Some "hello-")).
Proof.
  repeat split; vm_compute; reflexivity.
Qed.

(** ** Read time *)

Section ReadTime.

Import JS ArticleController.

Lemma ceilDiv_spec n d :
  (0 < d)%Z ->
  ((ceilDiv n d - 1) * d < n <= ceilDiv n d * d)%Z.
Proof.
  intros Hd. unfold ceilDiv.
  pose proof (Z.div_mod (n + d - 1) d ltac:(lia)) as E.
  pose proof (Z.mod_pos_bound (n + d - 1) d Hd) as B.
  nia.
Qed.

Lemma ceilDiv_zero d : (0 < d)%Z -> ceilDiv 0 d = 0%Z.
Proof.
  intros Hd. unfold ceilDiv. apply Z.div_small. lia.
Qed.

Lemma splitSpaces_cons b s : exists w ws, splitSpaces b s = w :: ws.
Proof.
  revert b. induction s as [|c r IH]; intros b; cbn [splitSpaces].
  - eauto.
  - destruct (isSpace c).
    + destruct b; [apply IH|eauto].
    + destruct (IH false) as (w & ws & ->). eauto.
Qed.

Lemma splitSpaces_word c r :
  isSpace c = false ->
  forall b, length (splitSpaces b (String c r)) = length (splitSpaces false r).
Proof.
  intros Hc b. cbn [splitSpaces]. rewrite Hc.
  destruct (splitSpaces_cons false r) as (w & ws & ->). reflexivity.
Qed.

Lemma trimEnd_word c r :
  isSpace c = false -> trimEnd (String c r) = String c (trimEnd r).
Proof.
  intros Hc. cbn [trimEnd]. rewrite Hc. destruct (trimEnd r); reflexivity.
Qed.

Lemma trimEnd_empty_words r :
  trimEnd r = EmptyString -> forall b, countWords b r = 0%nat.
Proof.
  induction r as [|c t IH]; intros H b; [reflexivity|].
  cbn [trimEnd] in H. destruct (trimEnd t) eqn:Et; [|discriminate].
  destruct (isSpace c) eqn:Ec; [|discriminate].
  cbn [countWords]. rewrite Ec. apply IH. reflexivity.
Qed.

(** The pieces of a text trimmed at its end, counted from inside a token
    and from inside a run of white space. *)
Lemma split_trimEnd r :
  length (splitSpaces false (trimEnd r)) = S (countWords true r)
  /\ (trimEnd r <> EmptyString ->
      length (splitSpaces true (trimEnd r)) = countWords false r).
Proof.
  induction r as [|c t [IHw IHs]].
  - split; [reflexivity|]. intros H. contradiction H. reflexivity.
  - destruct (isSpace c) eqn:Ec.
    + cbn [countWords]. rewrite Ec. cbn [trimEnd]. rewrite Ec.
      destruct (trimEnd t) as [|c' t'] eqn:Et.
      * split; [|intros H; contradiction H; reflexivity].
        rewrite (trimEnd_empty_words t Et). reflexivity.
      * assert (Hne : String c' t' <> EmptyString) by discriminate.
        specialize (IHs Hne). cbn [splitSpaces]. rewrite Ec.
        split; [|intros _]; cbn [length]; rewrite <- IHs; reflexivity.
    + rewrite (trimEnd_word c t Ec), !(splitSpaces_word c _ Ec).
      cbn [countWords]. rewrite Ec. split; [|intros _]; rewrite IHw; reflexivity.
Qed.

Lemma countWords_trimStart s : countWords false (trimStart s) = countWords false s.
Proof.
  induction s as [|c r IH]; [reflexivity|]. cbn [trimStart].
  destruct (isSpace c) eqn:Ec; [|reflexivity].
  cbn [countWords]. rewrite Ec. exact IH.
Qed.

Lemma trimStart_head s c r : trimStart s = String c r -> isSpace c = false.
Proof.
  induction s as [|d t IH]; [discriminate|]. cbn [trimStart].
  destruct (isSpace d) eqn:Ed; [exact IH|]. intros [= <- _]. exact Ed.
Qed.

(** The word count of [updateArticle] is the number of tokens. *)
Lemma wordCount_words text : wordCount text = words text.
Proof.
  unfold wordCount, words, split_ws, trim.
  rewrite <- (countWords_trimStart text).
  destruct (trimStart text) as [|c r] eqn:E; [reflexivity|].
  pose proof (trimStart_head _ _ _ E) as Hc.
  rewrite (trimEnd_word c r Hc). cbn [truthy].
  rewrite (splitSpaces_word c _ Hc), (proj1 (split_trimEnd r)).
  cbn [countWords]. rewrite Hc. reflexivity.
Qed.

(** The read time an update stores is the ceiling of the token count over
    200, and 0 for a text without tokens. *)
Lemma update_readTime_ceiling text :
  let W := Z.of_nat (words text) in
  ((readTimeFor text - 1) * 200 < W <= readTimeFor text * 200)%Z
  /\ (words text = 0%nat -> readTimeFor text = 0%Z).
Proof.
  cbv zeta. unfold readTimeFor. rewrite wordCount_words. split.
  - apply ceilDiv_spec. lia.
  - intros ->. reflexivity.
Qed.

(** The hook counts the pieces of [split], of which there is always at
    least one: the read time it stores is never 0. *)
Lemma hook_readTime_positive a : (1 <= Model.readTimeOf a)%Z.
Proof.
  unfold Model.readTimeOf, split_ws.
  destruct (splitSpaces_cons false (Model.textContent a)) as (w & ws & ->).
  cbn [length].
  pose proof (ceilDiv_spec (Z.of_nat (S (length ws))) 200 ltac:(lia)). lia.
Qed.

End ReadTime.

(** C3. The save hook counts the pieces [split(/\s+/)] returns, the empty
    ones included: an article created without any text is stored with read
    time 1 although its text has no token, and one created with a single
    editor paragraph of 200 words is stored with read time 2, the ceiling
    of 201/200. *)
Theorem create_readTime_counts_empty_pieces :
  (let r := ArticleController.createArticle
              (titledBody "Hello, World!" None None)
              "author1" "n1" 1000 emptyDB in
   Article.readTime <$> articles (snd r) !! "n1" = Some 1%Z
   /\ (Model.textContent <$> articles (snd r) !! "n1") = Some ""
   /\ words "" = 0%nat)
  /\ (let r := ArticleController.createArticle
                 (paragraphBody "Two hundred" (manyWords 200))
                 "author1" "n1" 1000 emptyDB in
      Article.readTime <$> articles (snd r) !! "n1" = Some 2%Z
      /\ words (manyWords 200) = 200%nat
      /\ JS.ceilDiv 200 200 = 1%Z).
Proof. vm_compute. repeat split. Qed.

(** The same two contents sent as an update are stored with read times 0
    and 1. *)
Example update_readTime_examples :
  (forall unset,
     Article.readTime
       <$> articles (snd (ArticleController.updateArticle unset
                            (blocksBody []) "d1" "author1" 3000 draftDB))
           !! "d1"
     = Some 0%Z)
  /\ (forall unset,
        Article.readTime
          <$> articles (snd (ArticleController.updateArticle unset
                               (paragraphBody "Two hundred" (manyWords 200))
                               "d1" "author1" 3000 draftDB)) !! "d1"
        = Some 1%Z).
Proof. split; intros unset; vm_compute; reflexivity. Qed.

(** ** The excerpt *)

Section Excerpt.

Import JS.

Lemma strlen_app (s t : string) :
  String.length (s ++ t) = (String.length s + String.length t)%nat.
Proof.
  induction s as [|c r IH]; [reflexivity|].
  change (S (String.length (r ++ t))
          = S (String.length r + String.length t)).
  rewrite IH. reflexivity.
Qed.

Lemma substring0_length n s :
  String.length (substring0 n s) = Nat.min n (String.length s).
Proof.
  unfold substring0. revert s.
  induction n as [|n IH]; intros [|c r]; cbn; try reflexivity.
  rewrite IH. reflexivity.
Qed.

(** [substring(0, n)] is the first [n] characters. *)
Lemma substring0_take n s :
  list_ascii_of_string (substring0 n s) = take n (list_ascii_of_string s).
Proof.
  unfold substring0. revert s.
  induction n as [|n IH]; intros [|c r]; cbn; try reflexivity.
  rewrite IH. reflexivity.
Qed.

(** The excerpt of a candidate on the save path: its first 200 characters
    and three dots, so at most 203 characters. *)
Lemma excerptOf_length cand : (String.length (Model.excerptOf cand) <= 203)%nat.
Proof.
  unfold Model.excerptOf. rewrite strlen_app, substring0_length.
  change (String.length "...") with 3%nat. lia.
Qed.

(** The same on the update path, where an empty candidate gives the empty
    excerpt. *)
Lemma excerptFor_spec cand :
  (JS.truthy cand = true ->
   ArticleController.excerptFor cand = substring0 200 cand ++ "..."
   /\ (String.length (ArticleController.excerptFor cand) <= 203)%nat)
  /\ (cand = "" -> ArticleController.excerptFor cand = "").
Proof.
  unfold ArticleController.excerptFor. split.
  - intros ->. split; [reflexivity|]. apply excerptOf_length.
  - intros ->. reflexivity.
Qed.

(** The excerpt hook writes the excerpt of a non-empty candidate and
    writes nothing for an empty one. *)
Lemma preSaveExcerpt_spec d :
  Model.contentModified d = true ->
  Article.excerpt (Document.doc (Model.preSaveExcerpt d))
  = if JS.truthy (Model.excerptText (Document.doc d))
    then Some (Model.excerptOf (Model.excerptText (Document.doc d)))
    else Article.excerpt (Document.doc d).
Proof.
  intros H. unfold Model.preSaveExcerpt. rewrite H.
  destruct (JS.truthy _); reflexivity.
Qed.

End Excerpt.

(** C4. The save hook writes no excerpt when the candidate is empty: an
    article created without text is stored without an excerpt, and a save
    of an article whose content lost its text keeps the excerpt of the
    earlier content. The update handler stores the empty string for the
    same content. *)
Theorem save_without_text_writes_no_excerpt :
  Article.excerpt
    <$> articles (snd (ArticleController.createArticle
                         (titledBody "Hello, World!" None None)
                         "author1" "n1" 1000 emptyDB)) !! "n1"
  = Some None
  /\ Article.excerpt
       <$> Model.save 5000
             {| Document.doc := imageOnlyArticle; Document.isNew := false;
                Document.modifiedPaths := ["editorData"] |}
     = Some (Some "An earlier text...")
  /\ (forall unset,
        Article.excerpt
          <$> articles (snd (ArticleController.updateArticle unset
                               (blocksBody []) "d1" "author1" 3000 draftDB))
              !! "d1"
        = Some (Some "")).
Proof. repeat split; vm_compute; reflexivity. Qed.

(** ** The excerpt candidate *)

Section Candidate.

Import JS.










End Candidate.




(** An update that asks for [published] without a [category] key is
    accepted as well, for an article that has no category. *)
Example update_published_without_category :
  forall unset,
    let r := ArticleController.updateArticle unset (statusBody "published")
               "d1" "author1" 2000 draftDB in
    statusCode (fst r) = 200%nat
    /\ Article.status <$> articles (snd r) !! "d1" = Some "published"
    /\ Article.category <$> articles (snd r) !! "d1" = Some None
    /\ Article.publishedAt <$> articles (snd r) !! "d1" = Some (Some 2000%Z).
Proof. intros unset. vm_compute. repeat split. Qed.

(** An update back to [draft] assigns [undefined] to [publishedAt]; the
    stored value follows the persistence layer. *)
Example update_to_draft_examples :
  Article.publishedAt
    <$> articles (snd (ArticleController.updateArticle true
                         (statusBody "draft") "a1" "author1" 5000 sampleDB))
        !! "a1"
  = Some None
  /\ Article.publishedAt
       <$> articles (snd (ArticleController.updateArticle false
                            (statusBody "draft") "a1" "author1" 5000 sampleDB))
           !! "a1"
     = Some (Some 2000%Z).
Proof. vm_compute. repeat split. Qed.

(** The two scenarios of the derived fields on the update path: a title
    gives its slug, and 250 words in one legacy text block give the first
    200 characters with the dots and a read time of 2. *)
Example derived_fields_scenarios :
  Model.slugify "Hello, World!" = "hello-world"
  /\ (forall unset,
        let r := ArticleController.updateArticle unset
                   (blocksBody [ {| ContentBlock.type := "text";
                                    ContentBlock.content := manyWords 250;
                                    ContentBlock.alt := "";
                                    ContentBlock.order := 0 |} ])
                   "d1" "author1" 3000 draftDB in
        Article.excerpt <$> articles (snd r) !! "d1"
        = Some (Some (JS.substring0 200 (manyWords 250) ++ "..."))
        /\ Article.readTime <$> articles (snd r) !! "d1" = Some 2%Z).
Proof. split; [reflexivity|]. intros unset. vm_compute. repeat split. Qed.

(** * Further properties of the handlers *)

(** ** The slug, for every title *)

(** X1. Whatever the title, the slug of the save hook and of the update
    handler is made of the characters [a-z], [0-9] and [-] only, and no two
    hyphens follow each other in it. *)
Theorem slug_alphabet_and_single_hyphens (title : string) :
  allChars slugOut (Model.slugify title) = true
  /\ noAdjacent JS.isHyphen false (Model.slugify title) = true.
Proof.
  split; [apply slugify_chars|apply slugify_no_double_hyphen].
Qed.

(** X2. A string of the slug alphabet without double hyphens is its own
    slug; so the slug of a slug is the slug. *)
Theorem slug_of_slug (s : string) :
  allChars slugOut s = true ->
  noAdjacent JS.isHyphen false s = true ->
  Model.slugify s = s
  /\ forall title, Model.slugify (Model.slugify title) = Model.slugify title.
Proof.
  intros Hc Hd. split; [|apply slugify_idempotent].
  rewrite (proj1 (slugify_unfold s)).
  rewrite (toLowerCase_slugOut _ Hc).
  rewrite (removeOutside_inside Model.slugChar);
    [|apply (allChars_impl slugOut); [apply slugOut_slugChar|exact Hc]].
  rewrite (replaceRuns_outside JS.isSpace); [|apply slugOut_no_space, Hc].
  apply replaceRuns_noAdjacent, Hd.
Qed.

Lemma slug_of_slug_witness :
  Model.slugify "hello-world-2" = "hello-world-2"
  /\ forall title, Model.slugify (Model.slugify title) = Model.slugify title.
Proof.
  apply (slug_of_slug "hello-world-2"); reflexivity.
Defined.

Lemma lowerChar_idempotent c : JS.lowerChar (JS.lowerChar c) = JS.lowerChar c.
Proof. destruct c as [[] [] [] [] [] [] [] []]; vm_compute; reflexivity. Qed.

Lemma toLowerCase_idempotent s :
  JS.toLowerCase (JS.toLowerCase s) = JS.toLowerCase s.
Proof.
  induction s as [|c r IH]; [reflexivity|]. cbn [JS.toLowerCase].
  rewrite lowerChar_idempotent, IH. reflexivity.
Qed.

(** X3. The slug does not see the case of the title: a title and its
    lower-case form have the same slug, so they collide on the unique
    index. *)
Theorem slug_ignores_case (title : string) :
  Model.slugify (JS.toLowerCase title) = Model.slugify title.
Proof.
  unfold Model.slugify. rewrite toLowerCase_idempotent. reflexivity.
Qed.

(** ** Derived fields on the update path *)

Section UpdateDerived.

Import JS ArticleController.

Lemma countWords_app_space a : forall w b,
  countWords w (a ++ " " ++ b) = (countWords w a + countWords false b)%nat.
Proof.
  induction a as [|c r IH]; intros w b.
  - reflexivity.
  - change (String c r ++ " " ++ b) with (String c (r ++ " " ++ b)).
    cbn [countWords]. destruct (isSpace c); rewrite IH; lia.
Qed.

Lemma words_join texts : words (join " " texts) = sumWords texts.
Proof.
  unfold words, join. induction texts as [|t rest IH]; [reflexivity|].
  destruct rest as [|t' rest].
  - cbn [String.concat sumWords foldr]. unfold words. lia.
  - change (String.concat " " (t :: t' :: rest))
      with (t ++ " " ++ String.concat " " (t' :: rest)).
    rewrite countWords_app_space, IH. reflexivity.
Qed.

Lemma sumWords_app l k : sumWords (l ++ k) = (sumWords l + sumWords k)%nat.
Proof.
  unfold sumWords. induction l as [|t l IH]; [reflexivity|].
  cbn [app foldr]. rewrite IH. lia.
Qed.

Lemma editor_texts (l : list EditorBlock.t) :
  map Model.textOf (List.filter hasStringText l)
  = omap (fun b =>
            if (EditorBlock.type b =? "paragraph")
               || (EditorBlock.type b =? "header")
            then EditorBlock.text (EditorBlock.data b)
            else None) l.
Proof.
  induction l as [|b l IH]; [reflexivity|].
  change (List.filter hasStringText (b :: l))
    with (if hasStringText b then b :: List.filter hasStringText l
          else List.filter hasStringText l).
  match goal with
  | |- _ = omap ?f (b :: l) =>
      change (omap f (b :: l))
        with (match f b with Some t => t :: omap f l | None => omap f l end)
  end.
  cbv beta. rewrite <- IH.
  unfold hasStringText at 1, Model.isParagraphOrHeader.
  destruct ((EditorBlock.type b =? "paragraph")
            || (EditorBlock.type b =? "header")); cbn [andb]; [|reflexivity].
  destruct (EditorBlock.text (EditorBlock.data b)) as [t|] eqn:Et.
  - rewrite bool_decide_eq_true_2 by eauto. cbn [map].
    unfold Model.textOf at 1. rewrite Et. reflexivity.
  - rewrite bool_decide_eq_false_2 by (intros [x Hx]; discriminate Hx).
    reflexivity.
Qed.

(** The text an update measures has the words of the texts of the
    request, block by block. *)
Lemma fullText_words contentBlocks editorData :
  words (fullText contentBlocks editorData)
  = sumWords (requestTexts contentBlocks editorData).
Proof.
  unfold fullText, requestTexts. rewrite sumWords_app.
  change (fun b => ContentBlock.type b =? "text") with Model.isTextBlock.
  assert (Hl : words
                 match populated contentBlocks with
                 | Some blocks =>
                     "" ++ " "
                     ++ join " "
                          (map ContentBlock.content
                             (List.filter Model.isTextBlock blocks))
                 | None => ""
                 end
               = sumWords
                   (map ContentBlock.content
                      (List.filter Model.isTextBlock (default [] contentBlocks)))).
  { destruct contentBlocks as [[|b bs]|]; try reflexivity.
    cbn [populated from_option id].
    unfold words. rewrite countWords_app_space.
    apply words_join. }
  assert (He : populated (edBlocksOf editorData)
               = match editorBlocks editorData with
                 | [] => None
                 | b :: bs => Some (b :: bs)
                 end).
  { destruct editorData as [[[[|b bs]|]]|]; reflexivity. }
  rewrite He. rewrite <- editor_texts.
  destruct (editorBlocks editorData) as [|b bs].
  - rewrite Hl. cbn. lia.
  - unfold words in *. rewrite countWords_app_space, Hl.
    f_equal. apply words_join.
Qed.

Lemma updateArticleValidation_content req :
  Request.contentBlocks (Validation.updateArticleValidation req).1
  = Request.contentBlocks req
  /\ Request.editorData (Validation.updateArticleValidation req).1
     = Request.editorData req.
Proof.
  unfold Validation.updateArticleValidation.
  destruct (Request.title req); split; reflexivity.
Qed.

(** The derived fields of the article a successful update with content
    stores. *)
Lemma update_derived unset req id u now db a :
  articles db !! id = Some a ->
  contentGiven req = true ->
  success (fst (updateArticle unset req id u now db)) = true ->
  exists a',
    articles (snd (updateArticle unset req id u now db)) !! id = Some a'
    /\ Article.readTime a'
       = readTimeFor (fullText (Request.contentBlocks req)
                        (Request.editorData req))
    /\ Article.excerpt a'
       = Some (excerptFor (excerptText (Request.contentBlocks req)
                             (Request.editorData req))).
Proof.
  intros Ha Hc Hs.
  destruct (updateArticle_article unset req id u now db a Ha)
    as [[_ Hf] | [E _]]; [rewrite Hf in Hs; discriminate Hs|].
  rewrite E. eexists. split.
  { unfold Store.putArticle, set_articles. cbn [articles].
    apply lookup_insert_eq. }
  destruct (updateArticleValidation_content req) as [E1 E2].
  unfold applyUpdate, buildUpdateData.
  cbn [Article.readTime Article.excerpt u_readTime u_excerpt].
  unfold contentGiven in *. rewrite E1, E2, Hc. split; reflexivity.
Qed.

End UpdateDerived.

(** X4. A successful update that carries content stores as read time the
    ceiling of W/200, W being the number of white-space-separated words of
    the request's legacy text blocks and of its paragraphs and headers; it
    is the one integer n with (n-1)*200 < W <= n*200, so 0 for no word. *)
Theorem update_readTime_is_ceiling (unset : bool) (req : Request.body)
    (id u : string) (now : Z) (db : DB) (a : Article.t) :
  articles db !! id = Some a ->
  ArticleController.contentGiven req = true ->
  success (fst (ArticleController.updateArticle unset req id u now db)) = true ->
  exists a',
    articles (snd (ArticleController.updateArticle unset req id u now db)) !! id
    = Some a'
    /\ let W := Z.of_nat (sumWords (requestTexts (Request.contentBlocks req)
                                      (Request.editorData req))) in
       ((Article.readTime a' - 1) * 200 < W <= Article.readTime a' * 200)%Z.
Proof.
  intros Ha Hc Hs.
  destruct (update_derived unset req id u now db a Ha Hc Hs)
    as (a' & Ha' & Hr & _).
  exists a'. split; [exact Ha'|]. cbv zeta.
  rewrite Hr, <- fullText_words.
  apply update_readTime_ceiling.
Qed.

Lemma update_readTime_is_ceiling_witness :
  exists a',
    articles (snd (ArticleController.updateArticle false
                     (textBody "Hello, World!" (manyWords 250))
                     "d1" "author1" 3000 draftDB)) !! "d1"
    = Some a'
    /\ let W := Z.of_nat (sumWords (requestTexts
                                      (Request.contentBlocks
                                         (textBody "Hello, World!" (manyWords 250)))
                                      (Request.editorData
                                         (textBody "Hello, World!" (manyWords 250))))) in
       ((Article.readTime a' - 1) * 200 < W <= Article.readTime a' * 200)%Z.
Proof.
  apply (update_readTime_is_ceiling false
           (textBody "Hello, World!" (manyWords 250)) "d1" "author1" 3000
           draftDB draftArticle).
  - reflexivity.
  - reflexivity.
  - vm_compute. reflexivity.
Defined.

(** X5. A successful update that carries content stores an excerpt of at
    most 203 characters: the empty string when the candidate of the request
    is empty, and otherwise the first 200 characters of the candidate
    followed by three dots. *)
Theorem update_excerpt_shape (unset : bool) (req : Request.body)
    (id u : string) (now : Z) (db : DB) (a : Article.t) :
  articles db !! id = Some a ->
  ArticleController.contentGiven req = true ->
  success (fst (ArticleController.updateArticle unset req id u now db)) = true ->
  exists a' e,
    articles (snd (ArticleController.updateArticle unset req id u now db)) !! id
    = Some a'
    /\ Article.excerpt a' = Some e
    /\ (String.length e <= 203)%nat
    /\ let cand := ArticleController.excerptText (Request.contentBlocks req)
                     (Request.editorData req) in
       (cand = "" -> e = "")
       /\ (cand <> "" ->
           list_ascii_of_string e
           = (take 200 (list_ascii_of_string cand)
              ++ list_ascii_of_string "...")%list).
Proof.
  intros Ha Hc Hs.
  destruct (update_derived unset req id u now db a Ha Hc Hs)
    as (a' & Ha' & _ & He).
  exists a', (ArticleController.excerptFor
                (ArticleController.excerptText (Request.contentBlocks req)
                   (Request.editorData req))).
  split; [exact Ha'|]. split; [exact He|]. cbv zeta.
  set (cand := ArticleController.excerptText _ _).
  destruct cand as [|c r] eqn:Ec.
  - split; [cbn; lia|]. split; [reflexivity|]. intros H. contradiction H.
    reflexivity.
  - split.
    + apply (proj1 (excerptFor_spec (String c r))). reflexivity.
    + split; [discriminate|]. intros _.
      unfold ArticleController.excerptFor. cbn [JS.truthy].
      rewrite <- substring0_take.
      generalize (JS.substring0 200 (String c r)). intros s.
      induction s as [|x s IH]; [reflexivity|].
      change (String x s ++ "...") with (String x (s ++ "...")).
      cbn [list_ascii_of_string app]. rewrite IH. reflexivity.
Qed.

Lemma update_excerpt_shape_witness :
  exists a' e,
    articles (snd (ArticleController.updateArticle false
                     (textBody "Hello, World!" (manyWords 250))
                     "d1" "author1" 3000 draftDB)) !! "d1"
    = Some a'
    /\ Article.excerpt a' = Some e
    /\ (String.length e <= 203)%nat
    /\ let cand := ArticleController.excerptText
                     (Request.contentBlocks
                        (textBody "Hello, World!" (manyWords 250)))
                     (Request.editorData
                        (textBody "Hello, World!" (manyWords 250))) in
       (cand = "" -> e = "")
       /\ (cand <> "" ->
           list_ascii_of_string e
           = (take 200 (list_ascii_of_string cand)
              ++ list_ascii_of_string "...")%list).
Proof.
  apply (update_excerpt_shape false
           (textBody "Hello, World!" (manyWords 250)) "d1" "author1" 3000
           draftDB draftArticle).
  - reflexivity.
  - reflexivity.
  - vm_compute. reflexivity.
Defined.

(** ** The validators of the schema, path by path *)

Lemma validPaths_all a :
  Schema.validPaths a Schema.allPaths
  = (JS.truthy (Article.title a)
     && Schema.maxlength 200 (Some (Article.title a)))
    && (forallb Schema.validBlock (Article.contentBlocks a)
        && (Schema.maxlength 500 (Article.excerpt a)
            && (match Article.category a with
                | Some c => Schema.inEnum c Schema.categoryEnum
                | None => true
                end
                && (Schema.inEnum (Article.status a) Schema.statusEnum
                    && (Schema.maxlength 60 (Article.seoTitle a)
                        && Schema.maxlength 160 (Article.seoDescription a)))))).
Proof.
  unfold Schema.validPaths, Schema.allPaths. cbn [forallb].
  change (Schema.validPath a "slug") with true.
  change (Schema.validPath a "editorData") with true.
  change (Schema.validPath a "tags") with true.
  change (Schema.validPath a "author") with true.
  change (Schema.validPath a "featuredImage") with true.
  change (Schema.validPath a "publishedAt") with true.
  change (Schema.validPath a "views") with true.
  change (Schema.validPath a "likes") with true.
  change (Schema.validPath a "likedBy") with true.
  change (Schema.validPath a "readTime") with true.
  change (Schema.validPath a "isFeatured") with true.
  change (Schema.validPath a "allowComments") with true.
  cbn [andb]. rewrite andb_true_r. reflexivity.
Qed.

Lemma validArticle_title a :
  validArticle a -> Schema.validPath a "title" = true.
Proof.
  unfold validArticle. rewrite validPaths_all. intros H.
  apply andb_true_iff in H as [H _]. exact H.
Qed.

(** ** Saved articles *)

Section Saved.

Import AuthController.

Lemma filter_other_after_snoc (l : list string) id :
  id ∉ l -> filter (fun x => x ≠ id) (l ++ [id])%list = l.
Proof.
  intros H. rewrite filter_app.
  assert (E : filter (fun x => x ≠ id) [id] = []).
  { rewrite filter_cons, decide_False by (intros N; apply N; reflexivity).
    reflexivity. }
  rewrite E, app_nil_r.
  induction l as [|x l IH]; [reflexivity|].
  rewrite filter_cons. apply not_elem_of_cons in H as [Hx Hl].
  rewrite decide_True by (intros ->; apply Hx; reflexivity).
  rewrite (IH Hl). reflexivity.
Qed.

Lemma saveArticle_found id u db a user :
  Store.findPublished id db = Some a ->
  users db !! u = Some user ->
  saveArticle id u db
  = (ok 200
       (SavedPayload true (bool_decide (id ∈ User.savedArticles user))
          (if bool_decide (id ∈ User.savedArticles user)
           then "Article already saved" else "Article saved successfully")),
     if bool_decide (id ∈ User.savedArticles user) then db
     else Store.putUser u
            (User.set_savedArticles (User.savedArticles user ++ [id])%list
               user) db).
Proof.
  intros Hf Hu. unfold saveArticle. rewrite Hf, Hu.
  destruct (bool_decide (id ∈ User.savedArticles user)); reflexivity.
Qed.

Lemma unsaveArticle_found id u db user :
  users db !! u = Some user ->
  unsaveArticle id u db
  = (ok 200
       (SavedPayload false (bool_decide (id ∈ User.savedArticles user))
          (if bool_decide (id ∈ User.savedArticles user)
           then "Article removed from saved articles"
           else "Article was not saved")),
     Store.putUser u
       (User.set_savedArticles
          (filter (fun x => x ≠ id) (User.savedArticles user)) user) db).
Proof. intros Hu. unfold unsaveArticle. rewrite Hu. reflexivity. Qed.

Lemma filter_other_twice (l : list string) id :
  filter (fun x => x ≠ id) (filter (fun x => x ≠ id) l)
  = filter (fun x => x ≠ id) l.
Proof.
  induction l as [|x l IH]; [reflexivity|].
  rewrite filter_cons. destruct (decide (x ≠ id)) as [Hx | Hx].
  - rewrite filter_cons, decide_True by exact Hx. rewrite IH. reflexivity.
  - exact IH.
Qed.

Lemma putUser_lookup u user db : users (Store.putUser u user db) !! u = Some user.
Proof. unfold Store.putUser, set_users. cbn [users]. apply lookup_insert_eq. Qed.

End Saved.

(** X6. A save of a published article that succeeds appends the id of
    the article, in the spelling of the store, to the saved list of the
    requesting user unless the list holds the id as the request spells it;
    the answer says whether it did. The articles, the other users and the
    name, email, role and active flag of the user stay as they are. When the
    request spells the id as the store does, the list gains no repeated id,
    and a second save answers "already saved" and writes nothing. *)
Theorem save_article_once (castId : string -> option string) (db : DB)
    (id key u : string) (a : Article.t) (user : User.t) :
  castId id = Some key ->
  Store.findPublished key db = Some a ->
  users db !! u = Some user ->
  let r := Handler.saveArticle castId id u db in
  let before := bool_decide (id ∈ User.savedArticles user) in
  success (fst r) = true ->
  fst r
  = ok 200 (SavedPayload true before
              (if before then "Article already saved"
               else "Article saved successfully"))
  /\ articles (snd r) = articles db
  /\ (forall v, v <> u -> users (snd r) !! v = users db !! v)
  /\ (exists user',
        users (snd r) !! u = Some user'
        /\ User.savedArticles user'
           = (if before then User.savedArticles user
              else User.savedArticles user ++ [key])%list
        /\ User.name user' = User.name user
        /\ User.email user' = User.email user
        /\ User.role user' = User.role user
        /\ User.isActive user' = User.isActive user
        /\ (id = key ->
            NoDup (User.savedArticles user) ->
            NoDup (User.savedArticles user')))
  /\ (id = key ->
      Handler.saveArticle castId id u (snd r)
      = (ok 200 (SavedPayload true true "Article already saved"), snd r)).
Proof.
  intros Hc Hf Hu. cbv zeta. intros _.
  unfold Handler.saveArticle. rewrite Hc, Hf, Hu.
  destruct (bool_decide (id ∈ User.savedArticles user)) eqn:Hin;
    cbn [negb fst snd].
  - apply bool_decide_eq_true in Hin.
    split; [reflexivity|]. split; [reflexivity|]. split; [reflexivity|]. split.
    + exists user. split; [exact Hu|]. repeat split; auto.
    + intros _. rewrite Hf, Hu, (bool_decide_eq_true_2 _ Hin). reflexivity.
  - apply bool_decide_eq_false in Hin.
    split; [reflexivity|]. split; [reflexivity|]. split.
    { intros v Hv. unfold Store.putUser, set_users. cbn [users].
      apply lookup_insert_ne. congruence. }
    split.
    + eexists. split; [apply putUser_lookup|].
      cbn [User.savedArticles User.set_savedArticles User.name User.email
             User.role User.isActive].
      repeat (split; [reflexivity|]).
      intros <- Hd. apply NoDup_app. split; [exact Hd|].
      split; [|apply NoDup_singleton].
      intros x Hx Hx'. apply list_elem_of_singleton in Hx' as ->.
      contradiction.
    + intros <-.
      assert (Hf' : Store.findPublished id
                      (Store.putUser u
                         (User.set_savedArticles
                            (User.savedArticles user ++ [id])%list user) db)
                    = Some a) by exact Hf.
      rewrite Hf', putUser_lookup.
      cbn [User.savedArticles User.set_savedArticles].
      rewrite bool_decide_eq_true_2
        by (rewrite elem_of_app, list_elem_of_singleton; auto).
      reflexivity.
Qed.

Lemma save_article_once_witness :
  let r := Handler.saveArticle (fun s => Some s) "a1" "reader1" readerDB in
  let before := bool_decide ("a1" ∈ User.savedArticles reader1) in
  fst r
  = ok 200 (SavedPayload true before
              (if before then "Article already saved"
               else "Article saved successfully"))
  /\ articles (snd r) = articles readerDB
  /\ (forall v, v <> "reader1" -> users (snd r) !! v = users readerDB !! v)
  /\ (exists user',
        users (snd r) !! "reader1" = Some user'
        /\ User.savedArticles user'
           = (if before then User.savedArticles reader1
              else User.savedArticles reader1 ++ ["a1"])%list
        /\ User.name user' = User.name reader1
        /\ User.email user' = User.email reader1
        /\ User.role user' = User.role reader1
        /\ User.isActive user' = User.isActive reader1
        /\ ("a1" = "a1" ->
            NoDup (User.savedArticles reader1) ->
            NoDup (User.savedArticles user')))
  /\ ("a1" = "a1" ->
      Handler.saveArticle (fun s => Some s) "a1" "reader1" (snd r)
      = (ok 200 (SavedPayload true true "Article already saved"), snd r)).
Proof.
  apply (save_article_once (fun s => Some s) readerDB "a1" "a1" "reader1"
           sampleArticle reader1).
  - reflexivity.
  - reflexivity.
  - reflexivity.
  - reflexivity.
Defined.

(** X7. An unsave that succeeds takes out of the saved list of the user
    every entry equal to the id as the request spells it and keeps the other
    entries in their order; the answer says whether there was such an entry.
    The articles, the other users and the name, email, role and active flag
    of the user stay as they are. A second unsave leaves the list as the
    first left it, and an unsave right after the save of an article that was
    not in the list, the id spelled as the store spells it and both
    succeeding, gives back the list from before the save. *)
Theorem unsave_article_removes (db : DB) (id u : string) (user : User.t) :
  users db !! u = Some user ->
  let r := AuthController.unsaveArticle id u db in
  let saved (db' : DB) := User.savedArticles <$> (users db' !! u) in
  success (fst r) = true ->
  payload (fst r)
  = SavedPayload false (bool_decide (id ∈ User.savedArticles user))
      (if bool_decide (id ∈ User.savedArticles user)
       then "Article removed from saved articles" else "Article was not saved")
  /\ articles (snd r) = articles db
  /\ (forall v, v <> u -> users (snd r) !! v = users db !! v)
  /\ (exists user',
        users (snd r) !! u = Some user'
        /\ User.savedArticles user'
           = filter (fun x => x ≠ id) (User.savedArticles user)
        /\ (id ∉ User.savedArticles user')
        /\ User.name user' = User.name user
        /\ User.email user' = User.email user
        /\ User.role user' = User.role user
        /\ User.isActive user' = User.isActive user)
  /\ saved (snd (AuthController.unsaveArticle id u (snd r))) = saved (snd r)
  /\ (forall castId a,
        castId id = Some id ->
        Store.findPublished id db = Some a ->
        id ∉ User.savedArticles user ->
        let first := Handler.saveArticle castId id u db in
        let second := AuthController.unsaveArticle id u (snd first) in
        success (fst first) = true ->
        success (fst second) = true ->
        saved (snd second) = saved db).
Proof.
  intros Hu. cbv zeta. intros _.
  rewrite (unsaveArticle_found id u db user Hu).
  cbn [fst snd payload ok]. split; [reflexivity|]. split; [reflexivity|].
  split.
  { intros v Hv. unfold Store.putUser, set_users. cbn [users].
    apply lookup_insert_ne. congruence. }
  split.
  { eexists. split; [apply putUser_lookup|].
    cbn [User.savedArticles User.set_savedArticles User.name User.email
           User.role User.isActive].
    split; [reflexivity|]. split; [rewrite list_elem_of_filter; tauto|].
    repeat split. }
  split.
  - rewrite (unsaveArticle_found id u _ _ (putUser_lookup _ _ _)).
    cbn [snd User.savedArticles User.set_savedArticles].
    rewrite !putUser_lookup.
    cbn [fmap option_fmap option_map User.savedArticles
           User.set_savedArticles].
    rewrite filter_other_twice. reflexivity.
  - intros castId a Hc Hf Hnot _ _.
    unfold Handler.saveArticle. rewrite Hc, Hf, Hu.
    rewrite (bool_decide_eq_false_2 _ Hnot). cbn [negb snd].
    rewrite (unsaveArticle_found id u _ _ (putUser_lookup _ _ _)).
    cbn [snd User.savedArticles User.set_savedArticles].
    rewrite putUser_lookup.
    cbn [fmap option_fmap option_map User.savedArticles
           User.set_savedArticles].
    rewrite (filter_other_after_snoc _ _ Hnot). reflexivity.
Qed.

Lemma unsave_article_removes_witness :
  let r := AuthController.unsaveArticle "d1" "reader1" draftDB in
  let saved (db' : DB) := User.savedArticles <$> (users db' !! "reader1") in
  payload (fst r)
  = SavedPayload false (bool_decide ("d1" ∈ User.savedArticles reader1))
      (if bool_decide ("d1" ∈ User.savedArticles reader1)
       then "Article removed from saved articles" else "Article was not saved")
  /\ articles (snd r) = articles draftDB
  /\ (forall v, v <> "reader1" -> users (snd r) !! v = users draftDB !! v)
  /\ (exists user',
        users (snd r) !! "reader1" = Some user'
        /\ User.savedArticles user'
           = filter (fun x => x ≠ "d1") (User.savedArticles reader1)
        /\ ("d1" ∉ User.savedArticles user')
        /\ User.name user' = User.name reader1
        /\ User.email user' = User.email reader1
        /\ User.role user' = User.role reader1
        /\ User.isActive user' = User.isActive reader1)
  /\ saved (snd (AuthController.unsaveArticle "d1" "reader1" (snd r)))
     = saved (snd r)
  /\ (forall castId a,
        castId "d1" = Some "d1" ->
        Store.findPublished "d1" draftDB = Some a ->
        "d1" ∉ User.savedArticles reader1 ->
        let first := Handler.saveArticle castId "d1" "reader1" draftDB in
        let second :=
          AuthController.unsaveArticle "d1" "reader1" (snd first) in
        success (fst first) = true ->
        success (fst second) = true ->
        saved (snd second) = saved draftDB).
Proof.
  apply (unsave_article_removes draftDB "d1" "reader1" reader1).
  - reflexivity.
  - reflexivity.
Defined.

(** ** Likes: the anonymous like and the answer of the toggle *)

Section LikeAnswers.

Import Document Model PublicController AuthController.

Lemma likeArticle_found id now db a :
  Store.findPublished id db = Some a ->
  Schema.validPath a "title" = true ->
  likeArticle id now db
  = (ok 200 (LikesPayload (Article.likes a + 1) None "Article liked successfully"),
     Store.putArticle id (likedOnce now a) db).
Proof.
  intros Hf Hv. unfold likeArticle. rewrite Hf.
  unfold save, Document.set, load, pathsToValidate.
  cbn [doc isNew modifiedPaths].
  assert (Hne : bool_decide (Article.likes a = (Article.likes a + 1)%Z) = false)
    by (apply bool_decide_eq_false; lia).
  rewrite Hne. cbn [app].
  unfold Schema.validPaths, Schema.requiredPaths. cbn [app forallb].
  change (Schema.validPath (Article.set_likes (Article.likes a + 1) a) "title")
    with (Schema.validPath a "title").
  change (Schema.validPath (Article.set_likes (Article.likes a + 1) a) "author")
    with true.
  change (Schema.validPath (Article.set_likes (Article.likes a + 1) a) "likes")
    with true.
  rewrite Hv. cbn [andb].
  rewrite preSave_untracked by reflexivity.
  reflexivity.
Qed.

Lemma toggleLike_found id u now db a :
  Store.findPublished id db = Some a ->
  Schema.validPath a "title" = true ->
  exists a',
    toggleLikeArticle id u now db
    = (ok 200
         (LikesPayload (Article.likes a')
            (Some (negb (bool_decide (u ∈ Article.likedBy a))))
            (if bool_decide (u ∈ Article.likedBy a)
             then "Article unliked successfully"
             else "Article liked successfully")),
       Store.putArticle id a' db)
    /\ Article.likedBy a' = toggledLikedBy u (Article.likedBy a)
    /\ Article.likes a' = toggledLikes u (Article.likedBy a) (Article.likes a)
    /\ Article.status a' = Article.status a.
Proof.
  intros Hf Hv. unfold toggleLikeArticle. rewrite Hf.
  destruct (toggle_fields u a) as (Hl & Hn & Ht & Hs & Hnew & Hps).
  unfold save, pathsToValidate. rewrite Hnew.
  rewrite (validPaths_engagement a _ _ Ht Hps), Hv.
  eexists. split; [reflexivity|].
  destruct (preSave_kept now (toggle u (load a)))
    as (_ & _ & _ & _ & _ & Ks & _ & _ & _ & Kl & Kb & _).
  rewrite Kb, Kl, Ks. auto.
Qed.

Lemma toggled_membership u (l : list string) :
  bool_decide (u ∈ toggledLikedBy u l) = negb (bool_decide (u ∈ l)).
Proof.
  unfold toggledLikedBy. destruct (bool_decide (u ∈ l)) eqn:E; cbn [negb].
  - apply bool_decide_eq_false. rewrite list_elem_of_filter. tauto.
  - apply bool_decide_eq_true. rewrite elem_of_app, list_elem_of_singleton.
    auto.
Qed.

End LikeAnswers.

(** X8. The anonymous like adds one to [likes] and never touches
    [likedBy]: on a published article that passes the schema it answers
    with the new count, and an article whose count matched its likers has a
    count one above them afterwards. *)
Theorem anonymous_like_adds_one (db : DB) (id : string) (now : Z)
    (a : Article.t) :
  Store.findPublished id db = Some a ->
  validArticle a ->
  PublicController.likeArticle id now db
  = (ok 200 (LikesPayload (Article.likes a + 1) None "Article liked successfully"),
     Store.putArticle id (likedOnce now a) db)
  /\ Article.likes (likedOnce now a) = (Article.likes a + 1)%Z
  /\ Article.likedBy (likedOnce now a) = Article.likedBy a
  /\ Article.views (likedOnce now a) = Article.views a
  /\ (likesConsistent a ->
      Article.likes (likedOnce now a) = (cardinality (likedOnce now a) + 1)%Z).
Proof.
  intros Hf Hv. apply validArticle_title in Hv.
  split; [apply likeArticle_found; assumption|].
  repeat split. intros Hc. unfold likesConsistent, cardinality, likers in *.
  cbn [likedOnce Article.likes Article.likedBy Article.set_updatedAt
       Article.set_likes]. rewrite Hc. reflexivity.
Qed.

Lemma anonymous_like_adds_one_witness :
  PublicController.likeArticle "a1" 5000 sampleDB
  = (ok 200 (LikesPayload (Article.likes sampleArticle + 1) None
               "Article liked successfully"),
     Store.putArticle "a1" (likedOnce 5000 sampleArticle) sampleDB)
  /\ Article.likes (likedOnce 5000 sampleArticle)
     = (Article.likes sampleArticle + 1)%Z
  /\ Article.likedBy (likedOnce 5000 sampleArticle)
     = Article.likedBy sampleArticle
  /\ Article.views (likedOnce 5000 sampleArticle) = Article.views sampleArticle
  /\ (likesConsistent sampleArticle ->
      Article.likes (likedOnce 5000 sampleArticle)
      = (cardinality (likedOnce 5000 sampleArticle) + 1)%Z).
Proof.
  apply (anonymous_like_adds_one sampleDB "a1" 5000 sampleArticle).
  - reflexivity.
  - reflexivity.
Defined.

(** X9. The answer of a toggle tells the truth about the stored article:
    on a published article that passes the schema, its [likes] is the
    stored count and its [liked] says whether the user is among the likers
    afterwards. The stored count is not negative after an unlike, nor after
    a like of an article whose count was not negative. *)
Theorem toggle_answer_matches_store (db : DB) (id u : string) (now : Z)
    (a : Article.t) :
  Store.findPublished id db = Some a ->
  validArticle a ->
  let r := AuthController.toggleLikeArticle id u now db in
  exists a' message,
    articles (snd r) !! id = Some a'
    /\ fst r
       = ok 200 (LikesPayload (Article.likes a')
                   (Some (bool_decide (u ∈ Article.likedBy a'))) message)
    /\ (u ∈ Article.likedBy a -> (0 <= Article.likes a')%Z)
    /\ ((0 <= Article.likes a)%Z -> (0 <= Article.likes a')%Z).
Proof.
  intros Hf Hv. apply validArticle_title in Hv. cbv zeta.
  destruct (toggleLike_found id u now db a Hf Hv) as (a' & E & Hl & Hn & _).
  rewrite E. exists a'. eexists. cbn [fst snd]. split.
  { unfold Store.putArticle, set_articles. cbn [articles].
    apply lookup_insert_eq. }
  split.
  { rewrite Hl, toggled_membership. reflexivity. }
  rewrite Hn. unfold toggledLikes. split.
  - intros Hin. rewrite (bool_decide_eq_true_2 _ Hin). lia.
  - intros H0. destruct (bool_decide _); lia.
Qed.

Lemma toggle_answer_matches_store_witness :
  let r := AuthController.toggleLikeArticle "a1" "reader1" 5000 sampleDB in
  exists a' message,
    articles (snd r) !! "a1" = Some a'
    /\ fst r
       = ok 200 (LikesPayload (Article.likes a')
                   (Some (bool_decide ("reader1" ∈ Article.likedBy a'))) message)
    /\ ("reader1" ∈ Article.likedBy sampleArticle -> (0 <= Article.likes a')%Z)
    /\ ((0 <= Article.likes sampleArticle)%Z -> (0 <= Article.likes a')%Z).
Proof.
  apply (toggle_answer_matches_store sampleDB "a1" "reader1" 5000 sampleArticle).
  - reflexivity.
  - reflexivity.
Defined.

(** ** The status list *)

Section Status.

Import AuthController.




Lemma NoDup_fst_filter {A : Type} (p : string * A -> bool)
    (l : list (string * A)) :
  NoDup (l.*1) -> NoDup ((List.filter p l).*1).
Proof.
  induction l as [|x l IH]; intros H; [constructor|].
  cbn [fmap list_fmap] in H. apply NoDup_cons in H as [Hx Hl].
  cbn [List.filter]. destruct (p x); [|apply IH, Hl].
  cbn [fmap list_fmap]. apply NoDup_cons. split; [|apply IH, Hl].
  intros Hin. apply Hx.
  apply list_elem_of_fmap in Hin as (y & -> & Hy).
  apply list_elem_of_In, filter_In in Hy as [Hy _].
  apply list_elem_of_fmap. exists y. split; [reflexivity|].
  apply list_elem_of_In, Hy.
Qed.

(** The documents of a map selected by one key. *)
Lemma filter_one_key {A : Type} (p : A -> bool) id a
    (l : list (string * A)) :
  NoDup (l.*1) -> (id, a) ∈ l ->
  List.filter (fun ia => bool_decide (fst ia ∈ [id]) && p (snd ia)) l
  = if p a then [(id, a)] else [].
Proof.
  induction l as [|[i x] l IH]; intros Hd Hin; [inversion Hin|].
  cbn [fmap list_fmap] in Hd. apply NoDup_cons in Hd as [Hi Hd].
  cbn [List.filter fst snd].
  apply elem_of_cons in Hin as [Heq | Hin].
  - injection Heq as <- <-.
    rewrite bool_decide_eq_true_2 by (apply list_elem_of_singleton; reflexivity).
    cbn [andb].
    assert (Hrest : List.filter
                      (fun ia => bool_decide (fst ia ∈ [id]) && p (snd ia)) l
                    = []).
    { clear IH Hd. induction l as [|[j y] l IHl]; [reflexivity|].
      cbn [List.filter fst snd].
      rewrite bool_decide_eq_false_2.
      - cbn [andb]. apply IHl. intros H. apply Hi.
        cbn [fmap list_fmap]. apply elem_of_cons. auto.
      - rewrite list_elem_of_singleton. intros ->. apply Hi.
        cbn [fmap list_fmap fst]. apply elem_of_cons. auto. }
    rewrite Hrest. destruct (p a); reflexivity.
  - rewrite bool_decide_eq_false_2.
    + cbn [andb]. apply IH; assumption.
    + rewrite list_elem_of_singleton. intros ->. apply Hi.
      apply list_elem_of_fmap. exists (id, a). auto.
Qed.

Lemma status_of_one isObjectId id u db a user :
  isObjectId id = true ->
  users db !! u = Some user ->
  articles db !! id = Some a ->
  getArticlesStatus isObjectId (Some (QArray [id])) u db
  = Reply.Accepted 200
      (if Article.status a =? "published"
       then [ {| articleId := id;
                 liked := bool_decide (u ∈ Article.likedBy a);
                 saved := bool_decide (id ∈ User.savedArticles user) |} ]
       else []).
Proof.
  intros Hid Hu Ha. unfold getArticlesStatus. cbn [negb].
  rewrite Hu. cbn [forallb]. rewrite Hid. cbn [andb negb].
  rewrite (filter_one_key (fun x => Article.status x =? "published") id a).
  - destruct (Article.status a =? "published"); reflexivity.
  - apply NoDup_fst_map_to_list.
  - apply elem_of_map_to_list, Ha.
Qed.

End Status.



(** X11. The status list agrees with the engagement handlers. For a
    published article that passes the schema, asked for by its id in the
    spelling of the store: right after a toggle the [liked] of the status
    list is the [liked] the toggle answered, right after a save that
    succeeded its [saved] is true, and right after an unsave that succeeded
    it is false. *)
Theorem status_follows_engagement (isObjectId : string -> bool)
    (castId : string -> option string)
    (id u : string) (now : Z) (db : DB) (a : Article.t) (user : User.t) :
  castId id = Some id ->
  Store.findPublished id db = Some a ->
  validArticle a ->
  users db !! u = Some user ->
  isObjectId id = true ->
  (exists likes liked message,
      payload (fst (Handler.toggleLikeArticle castId id u now db))
      = LikesPayload likes (Some liked) message
      /\ AuthController.getArticlesStatus isObjectId
           (Some (AuthController.QArray [id])) u
           (snd (Handler.toggleLikeArticle castId id u now db))
         = Reply.Accepted 200
             [ {| AuthController.articleId := id;
                  AuthController.liked := liked;
                  AuthController.saved :=
                    bool_decide (id ∈ User.savedArticles user) |} ])
  /\ (success (fst (Handler.saveArticle castId id u db)) = true ->
      AuthController.getArticlesStatus isObjectId
        (Some (AuthController.QArray [id])) u
        (snd (Handler.saveArticle castId id u db))
      = Reply.Accepted 200
          [ {| AuthController.articleId := id;
               AuthController.liked := bool_decide (u ∈ Article.likedBy a);
               AuthController.saved := true |} ])
  /\ (success (fst (AuthController.unsaveArticle id u db)) = true ->
      AuthController.getArticlesStatus isObjectId
        (Some (AuthController.QArray [id])) u
        (snd (AuthController.unsaveArticle id u db))
      = Reply.Accepted 200
          [ {| AuthController.articleId := id;
               AuthController.liked := bool_decide (u ∈ Article.likedBy a);
               AuthController.saved := false |} ]).
Proof.
  intros Hc Hf Hv Hu Hid. apply validArticle_title in Hv.
  pose proof (findPublished_Some _ _ _ Hf) as [Ha Hst].
  assert (Etoggle : Handler.toggleLikeArticle castId id u now db
                    = AuthController.toggleLikeArticle id u now db).
  { unfold Handler.toggleLikeArticle. rewrite Hc. reflexivity. }
  assert (Esave : Handler.saveArticle castId id u db
                  = AuthController.saveArticle id u db).
  { unfold Handler.saveArticle, AuthController.saveArticle.
    rewrite Hc. reflexivity. }
  rewrite Etoggle, Esave.
  split; [|split].
  - destruct (toggleLike_found id u now db a Hf Hv)
      as (a' & E & Hl & Hn & Hst').
    rewrite E. cbn [fst snd payload ok]. do 3 eexists. split; [reflexivity|].
    assert (Ha' : articles (Store.putArticle id a' db) !! id = Some a').
    { unfold Store.putArticle, set_articles. cbn [articles].
      apply lookup_insert_eq. }
    rewrite (status_of_one isObjectId id u (Store.putArticle id a' db) a' user
               Hid Hu Ha').
    rewrite Hst', Hst. cbn. rewrite Hl, toggled_membership. reflexivity.
  - intros _. rewrite (saveArticle_found id u db a user Hf Hu). cbn [snd].
    destruct (bool_decide (id ∈ User.savedArticles user)) eqn:Hin.
    + rewrite (status_of_one isObjectId id u db a user Hid Hu Ha).
      rewrite Hst, Hin. reflexivity.
    + rewrite (status_of_one isObjectId id u (Store.putUser u _ db) a _ Hid
                 (putUser_lookup _ _ _) Ha).
      rewrite Hst. cbn [User.savedArticles User.set_savedArticles].
      rewrite (bool_decide_eq_true_2 (id ∈ (User.savedArticles user ++ [id])%list))
        by (rewrite elem_of_app, list_elem_of_singleton; auto).
      reflexivity.
  - intros _. rewrite (unsaveArticle_found id u db user Hu). cbn [snd].
    rewrite (status_of_one isObjectId id u (Store.putUser u _ db) a _ Hid
               (putUser_lookup _ _ _) Ha).
    rewrite Hst. cbn [User.savedArticles User.set_savedArticles].
    rewrite (bool_decide_eq_false_2
               (id ∈ filter (fun x => x ≠ id) (User.savedArticles user)))
      by (rewrite list_elem_of_filter; tauto).
    reflexivity.
Qed.

Lemma status_follows_engagement_witness :
  (exists likes liked message,
      payload (fst (Handler.toggleLikeArticle (fun s => Some s) "a1"
                      "reader1" 5000 readerDB))
      = LikesPayload likes (Some liked) message
      /\ AuthController.getArticlesStatus (fun _ => true)
           (Some (AuthController.QArray ["a1"])) "reader1"
           (snd (Handler.toggleLikeArticle (fun s => Some s) "a1" "reader1"
                   5000 readerDB))
         = Reply.Accepted 200
             [ {| AuthController.articleId := "a1";
                  AuthController.liked := liked;
                  AuthController.saved :=
                    bool_decide ("a1" ∈ User.savedArticles reader1) |} ])
  /\ AuthController.getArticlesStatus (fun _ => true)
       (Some (AuthController.QArray ["a1"])) "reader1"
       (snd (Handler.saveArticle (fun s => Some s) "a1" "reader1" readerDB))
     = Reply.Accepted 200
         [ {| AuthController.articleId := "a1";
              AuthController.liked :=
                bool_decide ("reader1" ∈ Article.likedBy sampleArticle);
              AuthController.saved := true |} ]
  /\ AuthController.getArticlesStatus (fun _ => true)
       (Some (AuthController.QArray ["a1"])) "reader1"
       (snd (AuthController.unsaveArticle "a1" "reader1" readerDB))
     = Reply.Accepted 200
         [ {| AuthController.articleId := "a1";
              AuthController.liked :=
                bool_decide ("reader1" ∈ Article.likedBy sampleArticle);
              AuthController.saved := false |} ].
Proof.
  destruct (status_follows_engagement (fun _ => true) (fun s => Some s) "a1"
              "reader1" 5000 readerDB sampleArticle reader1
              eq_refl eq_refl eq_refl eq_refl eq_refl)
    as (Htoggle & Hsave & Hunsave).
  split; [exact Htoggle|].
  split; [exact (Hsave eq_refl)|exact (Hunsave eq_refl)].
Defined.

(** ** The pre-save chain, field by field *)

Section SaveFields.

Import Document Model.

Lemma timestamps_fields now d :
  timestamps now d
  = {| doc := stamped (isNew d) (modifiedPaths d) now (doc d);
       isNew := isNew d; modifiedPaths := modifiedPaths d |}.
Proof.
  destruct d as [a n m]. unfold timestamps, stamped, update.
  cbn [doc isNew modifiedPaths]. destruct (n || _); reflexivity.
Qed.

Lemma preSaveSlug_fields d :
  preSaveSlug d
  = {| doc := slugged (modifiedPaths d) (doc d);
       isNew := isNew d; modifiedPaths := modifiedPaths d |}.
Proof.
  destruct d as [a n m]. unfold preSaveSlug, slugged, update, isModified.
  cbn [doc isNew modifiedPaths]. destruct (bool_decide _); reflexivity.
Qed.

Lemma preSavePublishedAt_fields now d :
  preSavePublishedAt now d
  = {| doc := dated (modifiedPaths d) now (doc d);
       isNew := isNew d; modifiedPaths := modifiedPaths d |}.
Proof.
  destruct d as [a n m]. unfold preSavePublishedAt, dated, update, isModified.
  cbn [doc isNew modifiedPaths]. destruct (_ && _); reflexivity.
Qed.

Lemma preSaveReadTime_fields d :
  preSaveReadTime d
  = {| doc := timed (modifiedPaths d) (doc d);
       isNew := isNew d; modifiedPaths := modifiedPaths d |}.
Proof.
  destruct d as [a n m].
  unfold preSaveReadTime, timed, update, contentModified, contentTouched,
    isModified.
  cbn [doc isNew modifiedPaths]. destruct (_ || _); reflexivity.
Qed.

Lemma preSaveExcerpt_fields d :
  preSaveExcerpt d
  = {| doc := excerpted (modifiedPaths d) (doc d);
       isNew := isNew d; modifiedPaths := modifiedPaths d |}.
Proof.
  destruct d as [a n m].
  unfold preSaveExcerpt, excerpted, update, contentModified, contentTouched,
    isModified.
  cbn [doc isNew modifiedPaths].
  destruct (_ || _); [|reflexivity]. cbn [andb].
  destruct (JS.truthy _); reflexivity.
Qed.

(** The document after the chain. *)
Lemma preSave_fields now d :
  doc (preSave now d) = afterHooks (isNew d) (modifiedPaths d) now (doc d).
Proof.
  unfold preSave, afterHooks.
  rewrite timestamps_fields, preSaveSlug_fields, preSavePublishedAt_fields,
    preSaveReadTime_fields, preSaveExcerpt_fields.
  reflexivity.
Qed.

Lemma save_fields now d :
  save now d
  = if Schema.validPaths (doc d) (pathsToValidate d)
    then Some (afterHooks (isNew d) (modifiedPaths d) now (doc d))
    else None.
Proof. unfold save. rewrite preSave_fields. reflexivity. Qed.

End SaveFields.

(** ** Creating, publishing and deleting *)

Section Authoring.

Import JS Document Model ArticleController.

Lemma trimEnd_idempotent s : trimEnd (trimEnd s) = trimEnd s.
Proof.
  induction s as [|c r IH]; [reflexivity|]. cbn [trimEnd].
  destruct (trimEnd r) as [|c' t'] eqn:E.
  - destruct (isSpace c) eqn:Ec; [reflexivity|]. cbn [trimEnd]. rewrite Ec.
    reflexivity.
  - change (trimEnd (String c (String c' t')))
      with (match trimEnd (String c' t') with
            | EmptyString =>
                if isSpace c then EmptyString else String c EmptyString
            | t => String c t
            end).
    rewrite IH. reflexivity.
Qed.

Lemma trim_idempotent s : trim (trim s) = trim s.
Proof.
  unfold trim.
  assert (E : trimStart (trimEnd (trimStart s)) = trimEnd (trimStart s)).
  { destruct (trimStart s) as [|c r] eqn:Es; [reflexivity|].
    pose proof (trimStart_head _ _ _ Es) as Hc.
    cbn [trimEnd]. destruct (trimEnd r); [rewrite Hc|];
      cbn [trimStart]; rewrite Hc; reflexivity. }
  rewrite E. apply trimEnd_idempotent.
Qed.

Lemma afterHooks_kept n m now a : keptBySave a (afterHooks n m now a).
Proof.
  unfold afterHooks, excerpted, timed, dated, slugged, stamped.
  repeat match goal with
         | |- context [if ?b then _ else _] => destruct b
         end; repeat split.
Qed.

Lemma afterHooks_slug n m now a :
  Article.slug (afterHooks n m now a)
  = if bool_decide ("title" ∈ m)
    then Some (Schema.castLower (slugify (Article.title a)))
    else Article.slug a.
Proof.
  unfold afterHooks, excerpted, timed, dated, slugged, stamped.
  repeat match goal with
         | |- context [if ?b then _ else _] => destruct b
         end; reflexivity.
Qed.

Lemma afterHooks_publishedAt n m now a :
  Article.publishedAt (afterHooks n m now a)
  = if bool_decide ("status" ∈ m)
       && (Article.status a =? "published")
       && negb (bool_decide (is_Some (Article.publishedAt a)))
    then Some now else Article.publishedAt a.
Proof.
  unfold afterHooks.
  set (x := slugged m (stamped n m now a)).
  assert (Hx : Article.status x = Article.status a
               /\ Article.publishedAt x = Article.publishedAt a).
  { unfold x, slugged, stamped.
    destruct (n || _); destruct (bool_decide _); split; reflexivity. }
  destruct Hx as [Hs Hp].
  assert (Hd : Article.publishedAt (excerpted m (timed m (dated m now x)))
               = Article.publishedAt (dated m now x)).
  { unfold excerpted, timed.
    destruct (contentTouched m); cbn [andb]; [|reflexivity].
    destruct (truthy _); reflexivity. }
  rewrite Hd. unfold dated. rewrite Hs, Hp.
  destruct (_ && _); [reflexivity|exact Hp].
Qed.

Lemma afterHooks_updatedAt n m now a :
  Article.updatedAt (afterHooks n m now a)
  = if n || negb (bool_decide (m = [])) then now else Article.updatedAt a.
Proof.
  unfold afterHooks, excerpted, timed, dated, slugged, stamped.
  repeat match goal with
         | |- context [if ?b then _ else _] => destruct b
         end; reflexivity.
Qed.

Lemma afterHooks_untouched n m now a :
  bool_decide ("title" ∈ m) = false ->
  bool_decide ("status" ∈ m) = false ->
  contentTouched m = false ->
  afterHooks n m now a = stamped n m now a.
Proof.
  intros H1 H2 H3. unfold afterHooks, excerpted, timed, dated, slugged.
  rewrite H1, H2, H3. reflexivity.
Qed.

Lemma newDocument_paths req u now :
  let m := modifiedPaths (newDocument req u now) in
  "status" ∈ m /\ "contentBlocks" ∈ m
  /\ (is_Some (Request.title req) -> "title" ∈ m).
Proof.
  cbv zeta. unfold newDocument. cbn [modifiedPaths].
  repeat split.
  - rewrite !elem_of_app. right. right. left.
    rewrite !elem_of_cons. auto.
  - rewrite !elem_of_app. right. right. left.
    rewrite !elem_of_cons. auto.
  - intros [t Ht]. rewrite Ht. rewrite !elem_of_app. left.
    rewrite elem_of_cons. auto.
Qed.

(** The two outcomes of a create request. *)
Lemma createArticle_cases req u newId now db :
  let req' := (Validation.createArticleValidation req).1 in
  let r := createArticle req u newId now db in
  (success (fst r) = false /\ snd r = db)
  \/ (success (fst r) = true
      /\ statusCode (fst r) = 201%nat
      /\ payload (fst r)
         = ArticlePayload (created req' u now)
             (Some (if default "draft" (Request.status req') =? "published"
                    then "Article published successfully"
                    else "Article saved as draft"))
      /\ snd r = Store.putArticle newId (created req' u now) db
      /\ (Validation.createArticleValidation req).2 = []
      /\ Schema.validPaths (doc (newDocument req' u now)) Schema.allPaths = true
      /\ Store.slugTaken newId (Article.slug (created req' u now)) db = false).
Proof.
  cbv zeta. unfold createArticle.
  destruct (Validation.createArticleValidation req) as [req' errors].
  cbn [fst snd]. destruct errors; [|left; split; reflexivity].
  rewrite save_fields.
  change (pathsToValidate (newDocument req' u now)) with Schema.allPaths.
  destruct (Schema.validPaths _ _) eqn:Hv; [|left; split; reflexivity].
  change (afterHooks (isNew (newDocument req' u now))
            (modifiedPaths (newDocument req' u now)) now
            (doc (newDocument req' u now)))
    with (created req' u now).
  destruct (Store.slugTaken _ _ _) eqn:Hs; [left; split; reflexivity|].
  right. cbn [fst snd success statusCode payload ok]. repeat split.
Qed.

Lemma createArticleValidation_fields req :
  let req' := (Validation.createArticleValidation req).1 in
  Request.title req' = Some (trim (default "" (Request.title req)))
  /\ Request.status req' = Request.status req.
Proof. split; reflexivity. Qed.

Lemma createArticleValidation_title req :
  (Validation.createArticleValidation req).2 = [] ->
  let t := trim (default "" (Request.title req)) in
  (1 <= String.length t <= 200)%nat
  /\ match Request.status req with
     | Some s => Schema.inEnum s Schema.statusEnum = true
     | None => True
     end.
Proof.
  unfold Validation.createArticleValidation. cbn [snd]. intros H.
  apply app_eq_nil in H as [Ht Hc].
  unfold Validation.commonErrors in Hc.
  apply app_eq_nil in Hc as [_ Hc]. apply app_eq_nil in Hc as [Hs _].
  split.
  - unfold Validation.lengthBetween in Ht.
    destruct (_ && _) eqn:E; [|discriminate].
    apply andb_true_iff in E as [E1 E2].
    apply Nat.leb_le in E1. apply Nat.leb_le in E2. lia.
  - unfold Validation.statusErrors in Hs.
    destruct (Request.status req) as [s|]; [|exact I].
    destruct (Schema.inEnum s Schema.statusEnum); [reflexivity|discriminate].
Qed.

(** The fields of a created article. *)
Lemma created_fields req u now t :
  Request.title req = Some t ->
  let a := created req u now in
  Article.title a = trim t
  /\ Article.slug a = Some (slugify (trim t))
  /\ Article.status a = default "draft" (Request.status req)
  /\ Article.publishedAt a
     = (if default "draft" (Request.status req) =? "published"
        then Some now else None)
  /\ Article.author a = u
  /\ Article.views a = 0%Z /\ Article.likes a = 0%Z
  /\ Article.likedBy a = []
  /\ Article.createdAt a = now /\ Article.updatedAt a = now.
Proof.
  intros Ht. cbv zeta. unfold created.
  destruct (newDocument_paths req u now) as (Hs & Hc & Hti).
  specialize (Hti (ex_intro _ t Ht)).
  destruct (afterHooks_kept true (modifiedPaths (newDocument req u now)) now
              (doc (newDocument req u now)))
    as (Kt & _ & _ & _ & _ & Ks & Ka & _ & Kv & Kl & Kb & _ & _ & _ & _ & Kc).
  rewrite Kt, Ks, Ka, Kv, Kl, Kb, Kc.
  rewrite afterHooks_slug, afterHooks_publishedAt, afterHooks_updatedAt.
  rewrite (bool_decide_eq_true_2 _ Hti), (bool_decide_eq_true_2 _ Hs).
  unfold newDocument. cbn [doc Article.title Article.status Article.author
    Article.views Article.likes Article.likedBy Article.createdAt
    Article.publishedAt orb andb negb].
  rewrite Ht. cbn [from_option default id].
  unfold Schema.castTitle. rewrite castLower_slugify.
  rewrite andb_true_r. repeat split.
Qed.

Lemma slugTaken_false id s db :
  Store.slugTaken id (Some s) db = false ->
  forall id' b, articles db !! id' = Some b -> id' <> id ->
                Article.slug b <> Some s.
Proof.
  unfold Store.slugTaken. intros H id' b Hb Hne Hs.
  assert (Hex : existsb
            (fun ia => negb (fst ia =? id)
                       && bool_decide (Article.slug (snd ia) = Some s))
            (map_to_list (articles db)) = true).
  { apply existsb_exists. exists (id', b). split.
    - apply list_elem_of_In, elem_of_map_to_list. exact Hb.
    - cbn [fst snd]. apply andb_true_iff. split.
      + apply negb_true_iff, String.eqb_neq. exact Hne.
      + apply bool_decide_eq_true. exact Hs. }
  congruence.
Qed.

Lemma slugTaken_true id s db id' b :
  articles db !! id' = Some b -> id' <> id -> Article.slug b = Some s ->
  Store.slugTaken id (Some s) db = true.
Proof.
  intros Hb Hne Hs. destruct (Store.slugTaken id (Some s) db) eqn:E;
    [reflexivity|].
  exfalso. exact (slugTaken_false id s db E id' b Hb Hne Hs).
Qed.

Lemma putArticle_lookup id a db : articles (Store.putArticle id a db) !! id = Some a.
Proof. unfold Store.putArticle, set_articles. cbn [articles]. apply lookup_insert_eq. Qed.

Lemma putArticle_other id a db id' :
  id' <> id -> articles (Store.putArticle id a db) !! id' = articles db !! id'.
Proof.
  intros H. unfold Store.putArticle, set_articles. cbn [articles].
  apply lookup_insert_ne. congruence.
Qed.

Lemma putArticle_users id a db : users (Store.putArticle id a db) = users db.
Proof. reflexivity. Qed.

End Authoring.

(** X12. A create request that succeeds answers 201 and stores, under the
    new id and beside everything that was there, an article of the
    requesting user with the trimmed title, the slug of that title, zeroed
    counters and no likers, both timestamps at the time of the request, the
    status asked for (a draft when none is), a publish time exactly when
    that status is [published], and a slug no other article holds; a
    request that does not succeed leaves the store as it is. *)
Theorem create_article_result (req : Request.body) (u newId : string)
    (now : Z) (db : DB) :
  let r := ArticleController.createArticle req u newId now db in
  (success (fst r) = true ->
   statusCode (fst r) = 201%nat
   /\ users (snd r) = users db
   /\ (forall id, id <> newId -> articles (snd r) !! id = articles db !! id)
   /\ exists a,
       articles (snd r) !! newId = Some a
       /\ payload (fst r)
          = ArticlePayload a
              (Some (if default "draft" (Request.status req) =? "published"
                     then "Article published successfully"
                     else "Article saved as draft"))
       /\ Article.title a = JS.trim (default "" (Request.title req))
       /\ (1 <= String.length (Article.title a) <= 200)%nat
       /\ Article.slug a = Some (Model.slugify (Article.title a))
       /\ Article.status a = default "draft" (Request.status req)
       /\ Schema.inEnum (Article.status a) Schema.statusEnum = true
       /\ Article.publishedAt a
          = (if Article.status a =? "published" then Some now else None)
       /\ Article.author a = u
       /\ Article.views a = 0%Z /\ Article.likes a = 0%Z
       /\ Article.likedBy a = []
       /\ Article.createdAt a = now /\ Article.updatedAt a = now
       /\ (forall id b, articles db !! id = Some b -> id <> newId ->
                        Article.slug b <> Article.slug a))
  /\ (success (fst r) = false -> snd r = db).
Proof.
  cbv zeta.
  destruct (createArticle_cases req u newId now db)
    as [[Hf E] | (Hs & Hc & Hp & E & Hv & _ & Hn)].
  - split; [rewrite Hf; discriminate|intros _; exact E].
  - split; [|rewrite Hs; discriminate]. intros _.
    destruct (createArticleValidation_fields req) as [Ht Hst].
    destruct (createArticleValidation_title req Hv) as [Hlen Hen].
    destruct (created_fields _ u now _ Ht)
      as (Kt & Ksl & Kst & Kp & Ka & Kv & Kl & Kb & Kc & Ku).
    rewrite trim_idempotent in Kt, Ksl.
    rewrite E. split; [exact Hc|]. split; [reflexivity|].
    split; [intros id Hid; apply putArticle_other; exact Hid|].
    eexists. split; [apply putArticle_lookup|].
    rewrite Hp, Hst, Kt, Ksl, Kst, Kp, Ka, Kv, Kl, Kb, Kc, Ku, Hst.
    repeat split; try lia.
    + destruct (Request.status req) as [s|]; [exact Hen|reflexivity].
    + intros id b Hb Hid. rewrite Ksl in Hn.
      exact (slugTaken_false _ _ _ Hn id b Hb Hid).
Qed.

Lemma create_article_result_witness :
  exists a,
    articles (snd (ArticleController.createArticle noteBody "author1" "n1"
                     3000 sampleDB)) !! "n1" = Some a
    /\ Article.slug a = Some "field-notes"
    /\ Article.status a = "draft"
    /\ Article.publishedAt a = None.
Proof.
  destruct (proj1 (create_article_result noteBody "author1" "n1" 3000 sampleDB)
              eq_refl)
    as (_ & _ & _ & a & Ha & _ & Ht & _ & Hs & Hst & _ & Hp & _).
  exists a. split; [exact Ha|]. rewrite Hs, Hp, Hst, Ht.
  repeat split.
Defined.

(** ** Publishing twice, deleting, and whose articles a request can reach *)

Section Ownership.

Import Document Model ArticleController.

Lemma findOwned_intro id u db a :
  articles db !! id = Some a -> Article.author a = u ->
  Store.findOwned id u db = Some a.
Proof.
  intros Ha Hu. unfold Store.findOwned. rewrite Ha.
  rewrite (proj2 (String.eqb_eq _ _) Hu). reflexivity.
Qed.

Lemma findOwned_other id u db a :
  articles db !! id = Some a -> Article.author a <> u ->
  Store.findOwned id u db = None.
Proof.
  intros Ha Hu. unfold Store.findOwned. rewrite Ha.
  rewrite (proj2 (String.eqb_neq _ _) Hu). reflexivity.
Qed.

Lemma findOwned_missing id u db :
  articles db !! id = None -> Store.findOwned id u db = None.
Proof. intros Ha. unfold Store.findOwned. rewrite Ha. reflexivity. Qed.

Lemma stamped_lifecycle m now a :
  stamped false m now a
  = Article.set_updatedAt
      (if bool_decide (m = []) then Article.updatedAt a else now) a.
Proof.
  unfold stamped. cbn [orb]. destruct (bool_decide (m = [])); cbn [negb];
    [destruct a|]; reflexivity.
Qed.

Lemma lifecycle_untouched (m : list string) :
  Forall lifecyclePath m ->
  bool_decide ("title" ∈ m) = false /\ contentTouched m = false.
Proof.
  intros H. rewrite Forall_forall in H. unfold contentTouched.
  assert (Hn : forall p, ~ lifecyclePath p -> bool_decide (p ∈ m) = false).
  { intros p Hp. apply bool_decide_eq_false. intros Hin. exact (Hp (H p Hin)). }
  rewrite !Hn; [auto| | |]; intros [E | E]; discriminate E.
Qed.

(** The save of a lifecycle change, with the timestamp it writes. *)
Lemma save_lifecycle_exact now d a :
  isNew d = false ->
  Forall lifecyclePath (modifiedPaths d) ->
  Article.title (doc d) = Article.title a ->
  Schema.inEnum (Article.status (doc d)) Schema.statusEnum = true ->
  (Article.status (doc d) =? "published")
  && negb (bool_decide (is_Some (Article.publishedAt (doc d)))) = false ->
  save now d
  = if Schema.validPath a "title"
    then Some (Article.set_updatedAt
                 (if bool_decide (modifiedPaths d = [])
                  then Article.updatedAt (doc d) else now) (doc d))
    else None.
Proof.
  intros Hnew Hps Ht Hst Hpub. rewrite save_fields.
  unfold pathsToValidate. rewrite Hnew.
  rewrite (validPaths_lifecycle a _ _ Ht Hst Hps).
  destruct (Schema.validPath a "title"); [|reflexivity].
  destruct (lifecycle_untouched _ Hps) as [Q1 Q2].
  unfold afterHooks, excerpted, timed, slugged. rewrite Q1, Q2. cbn [andb].
  unfold dated.
  assert (Hs : Article.status (stamped false (modifiedPaths d) now (doc d))
               = Article.status (doc d)
               /\ Article.publishedAt
                    (stamped false (modifiedPaths d) now (doc d))
                  = Article.publishedAt (doc d)).
  { rewrite stamped_lifecycle. split; reflexivity. }
  destruct Hs as [-> ->]. rewrite <- andb_assoc, Hpub, andb_false_r.
  rewrite stamped_lifecycle. reflexivity.
Qed.

Lemma publish_paths_lifecycle (a : Article.t) :
  Forall lifecyclePath
    ((if bool_decide (Article.status a = "published") then []
      else ["status"])
     ++ match Article.publishedAt a with
        | Some _ => []
        | None => ["publishedAt"]
        end)%list.
Proof.
  destruct (bool_decide _); destruct (Article.publishedAt a); cbn [app];
    repeat (match goal with
            | |- Forall _ (_ :: _) => constructor; [unfold lifecyclePath; auto|]
            | |- Forall _ [] => constructor
            end).
Qed.

(** The publish handler on an article of the requester. *)
Lemma publishArticle_exact id u now db a :
  Store.findOwned id u db = Some a ->
  publishArticle id u now db
  = if Schema.validPath a "title"
    then
      let a' :=
        published now
          (if bool_decide (Article.status a = "published")
              && bool_decide (is_Some (Article.publishedAt a))
           then Article.updatedAt a else now) a in
      (ok 200 (ArticlePayload a' (Some "Article published successfully")),
       Store.putArticle id a' db)
    else (failure 500 "Server error publishing article", db).
Proof.
  intros Hf. unfold publishArticle. rewrite Hf.
  cbv zeta. pose proof (publish_document now a) as Hd. cbv zeta in Hd.
  rewrite Hd. clear Hd.
  rewrite (save_lifecycle_exact now _ a);
    [| reflexivity | apply publish_paths_lifecycle | reflexivity
     | reflexivity | reflexivity ].
  destruct (Schema.validPath a "title"); [|reflexivity].
  cbn [modifiedPaths doc]. unfold published.
  assert (E : bool_decide
                (((if bool_decide (Article.status a = "published") then []
                   else ["status"])
                  ++ match Article.publishedAt a with
                     | Some _ => []
                     | None => ["publishedAt"]
                     end)%list = [])
              = bool_decide (Article.status a = "published")
                && bool_decide (is_Some (Article.publishedAt a))).
  { destruct (bool_decide (Article.status a = "published"));
      destruct (Article.publishedAt a) as [t|]; cbn [app andb];
      reflexivity. }
  rewrite E. reflexivity.
Qed.

(** The unpublish handler on an article of the requester. *)
Lemma unpublishArticle_exact id u now db a :
  Store.findOwned id u db = Some a ->
  unpublishArticle id u now db
  = if Schema.validPath a "title"
    then
      let a' :=
        unpublished
          (if bool_decide (Article.status a = "draft")
           then Article.updatedAt a else now) a in
      (ok 200 (ArticlePayload a' (Some "Article unpublished successfully")),
       Store.putArticle id a' db)
    else (failure 500 "Server error unpublishing article", db).
Proof.
  intros Hf. unfold unpublishArticle. rewrite Hf. cbv zeta.
  rewrite (save_lifecycle_exact now _ a);
    [| reflexivity
     | unfold Document.set, load; cbn [modifiedPaths doc];
       destruct (bool_decide _); cbn [app]; repeat constructor
     | reflexivity | reflexivity | reflexivity ].
  destruct (Schema.validPath a "title"); [|reflexivity].
  unfold Document.set, load. cbn [modifiedPaths doc]. unfold unpublished.
  destruct (bool_decide (Article.status a = "draft")); reflexivity.
Qed.

Lemma published_settled now a t :
  Article.status a = "published" -> Article.publishedAt a = Some t ->
  published now (Article.updatedAt a) a = a.
Proof.
  destruct a. cbn [Article.status Article.publishedAt]. intros -> ->.
  reflexivity.
Qed.

Lemma unpublished_settled a :
  Article.status a = "draft" -> unpublished (Article.updatedAt a) a = a.
Proof. destruct a. cbn [Article.status]. intros ->. reflexivity. Qed.

Lemma putArticle_twice id a b db :
  Store.putArticle id a (Store.putArticle id b db) = Store.putArticle id a db.
Proof.
  unfold Store.putArticle, set_articles. cbn [articles users].
  rewrite insert_insert_eq. reflexivity.
Qed.

(** Each authoring handler changes at most the document it names. *)
Lemma publishArticle_others id u now db id' :
  id' <> id ->
  articles (snd (publishArticle id u now db)) !! id' = articles db !! id'.
Proof.
  intros Hne. unfold publishArticle.
  destruct (Store.findOwned id u db); [|reflexivity].
  cbv zeta. destruct (save _ _); [|reflexivity].
  apply putArticle_other, Hne.
Qed.

Lemma unpublishArticle_others id u now db id' :
  id' <> id ->
  articles (snd (unpublishArticle id u now db)) !! id' = articles db !! id'.
Proof.
  intros Hne. unfold unpublishArticle.
  destruct (Store.findOwned id u db); [|reflexivity].
  cbv zeta. destruct (save _ _); [|reflexivity].
  apply putArticle_other, Hne.
Qed.

Lemma updateArticle_others unset req id u now db id' :
  id' <> id ->
  articles (snd (updateArticle unset req id u now db)) !! id'
  = articles db !! id'.
Proof.
  intros Hne. unfold updateArticle.
  destruct (Validation.updateArticleValidation req) as [req' errors].
  destruct errors; [|reflexivity].
  destruct (Store.findOwned id u db); [|reflexivity].
  unfold findByIdAndUpdate.
  destruct (articles db !! id); [|reflexivity].
  destruct (negb _); [reflexivity|].
  destruct (_ && _); [reflexivity|].
  apply putArticle_other, Hne.
Qed.

Lemma deleteArticle_others id u db id' :
  id' <> id ->
  articles (snd (deleteArticle id u db)) !! id' = articles db !! id'.
Proof.
  intros Hne. unfold deleteArticle.
  destruct (Store.findOwned id u db); [|reflexivity].
  cbn [snd]. unfold Store.deleteArticle, set_articles. cbn [articles].
  apply lookup_delete_ne. congruence.
Qed.

Lemma updateArticle_unowned unset req id u now db :
  Store.findOwned id u db = None ->
  snd (updateArticle unset req id u now db) = db
  /\ success (fst (updateArticle unset req id u now db)) = false.
Proof.
  intros Hf. unfold updateArticle.
  destruct (Validation.updateArticleValidation req) as [req' errors].
  destruct errors; [|split; reflexivity].
  rewrite Hf. split; reflexivity.
Qed.

End Ownership.

(** X13. Publishing is idempotent on the store, and so is unpublishing:
    the same request made again, at whatever time, stores nothing new, not
    even a timestamp. *)
Theorem publish_twice_stores_once (id u : string) (t1 t2 : Z) (db : DB) :
  snd (ArticleController.publishArticle id u t2
         (snd (ArticleController.publishArticle id u t1 db)))
  = snd (ArticleController.publishArticle id u t1 db)
  /\ snd (ArticleController.unpublishArticle id u t2
            (snd (ArticleController.unpublishArticle id u t1 db)))
     = snd (ArticleController.unpublishArticle id u t1 db).
Proof.
  split.
  - destruct (Store.findOwned id u db) as [a|] eqn:Hf.
    + rewrite (publishArticle_exact id u t1 db a Hf).
      destruct (Schema.validPath a "title") eqn:Hv; cbv zeta; cbn [snd].
      * set (a1 := published t1 _ a).
        pose proof (findOwned_Some _ _ _ _ Hf) as [Ha Hu].
        assert (Hf1 : Store.findOwned id u (Store.putArticle id a1 db)
                      = Some a1).
        { apply findOwned_intro; [apply putArticle_lookup|exact Hu]. }
        rewrite (publishArticle_exact id u t2 _ a1 Hf1).
        change (Schema.validPath a1 "title") with (Schema.validPath a "title").
        rewrite Hv. cbv zeta. cbn [snd].
        change (Article.status a1) with "published".
        change (Article.publishedAt a1)
          with (Some (default t1 (Article.publishedAt a))).
        rewrite (bool_decide_eq_true_2 ("published" = "published") eq_refl).
        rewrite (bool_decide_eq_true_2 (is_Some (Some _)))
          by (eexists; reflexivity).
        cbn [andb].
        rewrite (published_settled t2 a1 (default t1 (Article.publishedAt a)))
          by reflexivity.
        apply putArticle_twice.
      * rewrite (publishArticle_exact id u t2 db a Hf), Hv. reflexivity.
    + assert (E : ArticleController.publishArticle id u t1 db
                  = (failure 404 "Article not found", db)).
      { unfold ArticleController.publishArticle. rewrite Hf. reflexivity. }
      rewrite E. cbn [snd].
      unfold ArticleController.publishArticle. rewrite Hf. reflexivity.
  - destruct (Store.findOwned id u db) as [a|] eqn:Hf.
    + rewrite (unpublishArticle_exact id u t1 db a Hf).
      destruct (Schema.validPath a "title") eqn:Hv; cbv zeta; cbn [snd].
      * set (a1 := unpublished _ a).
        pose proof (findOwned_Some _ _ _ _ Hf) as [Ha Hu].
        assert (Hf1 : Store.findOwned id u (Store.putArticle id a1 db)
                      = Some a1).
        { apply findOwned_intro; [apply putArticle_lookup|exact Hu]. }
        rewrite (unpublishArticle_exact id u t2 _ a1 Hf1).
        change (Schema.validPath a1 "title") with (Schema.validPath a "title").
        rewrite Hv. cbv zeta. cbn [snd].
        change (Article.status a1) with "draft".
        rewrite (bool_decide_eq_true_2 ("draft" = "draft") eq_refl).
        rewrite (unpublished_settled a1) by reflexivity.
        apply putArticle_twice.
      * rewrite (unpublishArticle_exact id u t2 db a Hf), Hv. reflexivity.
    + assert (E : ArticleController.unpublishArticle id u t1 db
                  = (failure 404 "Article not found", db)).
      { unfold ArticleController.unpublishArticle. rewrite Hf. reflexivity. }
      rewrite E. cbn [snd].
      unfold ArticleController.unpublishArticle. rewrite Hf. reflexivity.
Qed.

(** X14. The authoring handlers reach only the requester's own articles:
    whatever article a request to update, publish, unpublish or delete
    names, an article of another author is afterwards what it was before,
    and a request that names one is refused without a change to the
    store. *)
Theorem authoring_spares_other_authors (unset : bool) (req : Request.body)
    (id u : string) (now : Z) (db : DB) (id' : string) (a : Article.t) :
  articles db !! id' = Some a ->
  Article.author a <> u ->
  (articles (snd (ArticleController.updateArticle unset req id u now db)) !! id'
   = Some a
   /\ articles (snd (ArticleController.publishArticle id u now db)) !! id'
      = Some a
   /\ articles (snd (ArticleController.unpublishArticle id u now db)) !! id'
      = Some a
   /\ articles (snd (ArticleController.deleteArticle id u db)) !! id' = Some a)
  /\ (id' = id ->
      success (fst (ArticleController.updateArticle unset req id u now db))
      = false
      /\ snd (ArticleController.updateArticle unset req id u now db) = db
      /\ ArticleController.publishArticle id u now db
         = (failure 404 "Article not found", db)
      /\ ArticleController.unpublishArticle id u now db
         = (failure 404 "Article not found", db)
      /\ ArticleController.deleteArticle id u db
         = (Reply.Rejected 404 "Article not found", db)
      /\ ArticleController.getArticle id u db
         = Reply.Rejected 404 "Article not found").
Proof.
  intros Ha Hu.
  assert (Hown : id' = id -> Store.findOwned id u db = None).
  { intros <-. exact (findOwned_other _ _ _ _ Ha Hu). }
  split.
  - destruct (decide (id' = id)) as [E | Hne].
    + specialize (Hown E). subst id'.
      destruct (updateArticle_unowned unset req id u now db Hown) as [-> _].
      unfold ArticleController.publishArticle,
        ArticleController.unpublishArticle, ArticleController.deleteArticle.
      rewrite Hown. cbn [snd]. auto.
    + rewrite updateArticle_others, publishArticle_others,
        unpublishArticle_others, deleteArticle_others by exact Hne.
      auto.
  - intros E. specialize (Hown E).
    destruct (updateArticle_unowned unset req id u now db Hown) as [-> ->].
    unfold ArticleController.publishArticle,
      ArticleController.unpublishArticle, ArticleController.deleteArticle,
      ArticleController.getArticle.
    rewrite Hown. repeat split.
Qed.

Lemma authoring_spares_other_authors_witness :
  articles (snd (ArticleController.deleteArticle "a1" "reader1" sampleDB))
    !! "a1" = Some sampleArticle.
Proof.
  apply (proj1 (authoring_spares_other_authors false emptyBody "a1" "reader1"
                  5000 sampleDB "a1" sampleArticle eq_refl
                  ltac:(discriminate))).
Defined.

(** X15. Deleting takes the article out of the collection and touches
    nothing else: the owner's request answers 200, the other articles and
    every user stay as they were (a reader who had saved the article still
    has its id in the saved list), and from then on the article is not
    found by its owner, by the public fetch, by either like route or by the
    save route. *)
Theorem delete_article_removes (id u : string) (now : Z) (db : DB)
    (a : Article.t) :
  Store.findOwned id u db = Some a ->
  let r := ArticleController.deleteArticle id u db in
  fst r = Reply.Accepted 200 "Article deleted successfully"
  /\ articles (snd r) !! id = None
  /\ (forall id', id' <> id -> articles (snd r) !! id' = articles db !! id')
  /\ users (snd r) = users db
  /\ ArticleController.getArticle id u (snd r)
     = Reply.Rejected 404 "Article not found"
  /\ forall v,
      PublicController.getPublicArticleById id now (snd r)
      = (failure 404 "Article not found or not published", snd r)
      /\ PublicController.likeArticle id now (snd r)
         = (failure 404 "Article not found", snd r)
      /\ AuthController.toggleLikeArticle id v now (snd r)
         = (failure 404 "Article not found", snd r)
      /\ AuthController.saveArticle id v (snd r)
         = (failure 404 "Article not found or not published", snd r).
Proof.
  intros Hf. cbv zeta. unfold ArticleController.deleteArticle. rewrite Hf.
  cbn [fst snd].
  assert (Hgone : articles (Store.deleteArticle id db) !! id = None).
  { unfold Store.deleteArticle, set_articles. cbn [articles].
    apply lookup_delete_eq. }
  split; [reflexivity|]. split; [exact Hgone|].
  split.
  { intros id' Hne. unfold Store.deleteArticle, set_articles. cbn [articles].
    apply lookup_delete_ne. congruence. }
  split; [reflexivity|].
  assert (Hp : Store.findPublished id (Store.deleteArticle id db) = None).
  { unfold Store.findPublished. rewrite Hgone. reflexivity. }
  split.
  { unfold ArticleController.getArticle.
    rewrite (findOwned_missing _ _ _ Hgone). reflexivity. }
  intros v.
  unfold PublicController.getPublicArticleById, PublicController.likeArticle,
    AuthController.toggleLikeArticle, AuthController.saveArticle.
  rewrite Hp. repeat split.
Qed.

Lemma delete_article_removes_witness :
  articles (snd (ArticleController.deleteArticle "a1" "author1" readerDB))
    !! "a1" = None.
Proof.
  apply (delete_article_removes "a1" "author1" 5000 readerDB sampleArticle
           eq_refl).
Defined.

(** ** What an update request can change *)

Section UpdateFrame.

Import JS Document Model ArticleController.

Lemma updateArticleValidation_fields req :
  let req' := (Validation.updateArticleValidation req).1 in
  Request.title req' = trim <$> Request.title req
  /\ Request.contentBlocks req' = Request.contentBlocks req
  /\ Request.editorData req' = Request.editorData req
  /\ Request.category req' = Request.category req
  /\ Request.tags req' = Request.tags req
  /\ Request.status req' = Request.status req
  /\ Request.featuredImage req' = Request.featuredImage req
  /\ Request.seoTitle req' = Request.seoTitle req
  /\ Request.seoDescription req' = Request.seoDescription req
  /\ Request.isFeatured req' = Request.isFeatured req
  /\ Request.allowComments req' = Request.allowComments req.
Proof.
  cbv zeta. unfold Validation.updateArticleValidation.
  destruct (Request.title req) eqn:E; cbn [fst]; [|rewrite E];
    repeat split.
Qed.

(** The two outcomes of an update request for a stored article. *)
Lemma updateArticle_cases unset req id u now db a :
  articles db !! id = Some a ->
  let req' := (Validation.updateArticleValidation req).1 in
  let ud := buildUpdateData req' a now in
  let a' := applyUpdate unset ud now a in
  let r := updateArticle unset req id u now db in
  (success (fst r) = false /\ snd r = db)
  \/ (success (fst r) = true
      /\ fst r = ok 200 (ArticlePayload a' (Some "Article updated successfully"))
      /\ snd r = Store.putArticle id a' db
      /\ Article.author a = u
      /\ (Validation.updateArticleValidation req).2 = []
      /\ Schema.validPaths a' (updatedPaths ud) = true
      /\ (is_Some (Request.title req) ->
          Store.slugTaken id (Article.slug a') db = false)).
Proof.
  intros Ha. cbv zeta. unfold updateArticle.
  pose proof (updateArticleValidation_fields req) as (Ht & _). cbv zeta in Ht.
  destruct (Validation.updateArticleValidation req) as [req' errors].
  cbn [fst snd] in *. destruct errors; [|left; split; reflexivity].
  destruct (Store.findOwned id u db) as [b|] eqn:Hf;
    [|left; split; reflexivity].
  apply findOwned_Some in Hf as [Hb Hu].
  rewrite Ha in Hb. injection Hb as <-.
  unfold findByIdAndUpdate. rewrite Ha. cbv zeta.
  destruct (Schema.validPaths _ _) eqn:Hv; cbn [negb];
    [|left; split; reflexivity].
  destruct (_ && _) eqn:Hs; [left; split; reflexivity|].
  right. cbn [fst snd success ok]. repeat split; try assumption.
  intros [t Et]. rewrite Et in Ht. cbn in Ht.
  apply andb_false_iff in Hs as [Hs | Hs]; [|exact Hs].
  apply bool_decide_eq_false in Hs. exfalso. apply Hs.
  unfold buildUpdateData. cbn [u_slug]. rewrite Ht. cbn. eauto.
Qed.

End UpdateFrame.

(** X16. What an update can and cannot change. A successful update is the
    owner's; it leaves the author, the creation time, the view count, the
    like count and the likers of the article as they were and sets
    [updatedAt] to the time of the request; a body without a title keeps
    title and slug, and one with a title stores the trimmed title with its
    slug, which no other article holds; a body without a status keeps
    status and publish time; a body without content keeps the blocks, the
    editor document, the excerpt and the read time. Other articles and the
    users are untouched, and a request that fails changes nothing. *)
Theorem update_article_frame (unset : bool) (req : Request.body)
    (id u : string) (now : Z) (db : DB) (a : Article.t) :
  articles db !! id = Some a ->
  let r := ArticleController.updateArticle unset req id u now db in
  (success (fst r) = true ->
   exists a',
     articles (snd r) !! id = Some a'
     /\ payload (fst r)
        = ArticlePayload a' (Some "Article updated successfully")
     /\ Article.author a = u
     /\ Article.author a' = Article.author a
     /\ Article.createdAt a' = Article.createdAt a
     /\ Article.views a' = Article.views a
     /\ Article.likes a' = Article.likes a
     /\ Article.likedBy a' = Article.likedBy a
     /\ Article.updatedAt a' = now
     /\ match Request.title req with
        | None =>
            Article.title a' = Article.title a
            /\ Article.slug a' = Article.slug a
        | Some t =>
            Article.title a' = JS.trim t
            /\ Article.slug a' = Some (Model.slugify (JS.trim t))
            /\ forall id' b, articles db !! id' = Some b -> id' <> id ->
                             Article.slug b <> Article.slug a'
        end
     /\ (Request.status req = None ->
         Article.status a' = Article.status a
         /\ Article.publishedAt a' = Article.publishedAt a)
     /\ (Request.contentBlocks req = None -> Request.editorData req = None ->
         Article.contentBlocks a' = Article.contentBlocks a
         /\ Article.editorData a' = Article.editorData a
         /\ Article.excerpt a' = Article.excerpt a
         /\ Article.readTime a' = Article.readTime a))
  /\ (success (fst r) = false -> snd r = db)
  /\ users (snd r) = users db
  /\ forall id', id' <> id -> articles (snd r) !! id' = articles db !! id'.
Proof.
  intros Ha. cbv zeta.
  split; [|split; [|split]].
  - intros Hok.
    destruct (updateArticle_cases unset req id u now db a Ha)
      as [[Hf _] | (_ & Hr & E & Hu & _ & _ & Hslug)];
      [congruence|].
    cbv zeta in Hr, E, Hslug.
    destruct (updateArticleValidation_fields req)
      as (Ht & Hcb & Hed & _ & _ & Hst & _).
    cbv zeta in Ht, Hcb, Hed, Hst.
    rewrite E, Hr. eexists. split; [apply putArticle_lookup|].
    split; [reflexivity|].
    split; [exact Hu|].
    do 6 (split; [reflexivity|]).
    split; [|split].
    + unfold ArticleController.applyUpdate, ArticleController.buildUpdateData.
      cbn [Article.title Article.slug ArticleController.u_title
             ArticleController.u_slug].
      unfold ArticleController.applyUpdate, ArticleController.buildUpdateData
        in Hslug.
      cbn [Article.slug ArticleController.u_slug] in Hslug.
      rewrite Ht in *. destruct (Request.title req) as [t|]; cbn in *.
      * unfold Schema.castTitle. rewrite trim_idempotent, castLower_slugify.
        rewrite castLower_slugify in Hslug.
        split; [reflexivity|]. split; [reflexivity|].
        intros id' b Hb Hne.
        exact (slugTaken_false _ _ _ (Hslug (ex_intro _ t eq_refl))
                 id' b Hb Hne).
      * split; reflexivity.
    + intros Hn.
      unfold ArticleController.applyUpdate, ArticleController.buildUpdateData.
      cbn [Article.status Article.publishedAt ArticleController.u_status
             ArticleController.u_publishedAt].
      rewrite Hst, Hn. split; reflexivity.
    + intros Hc He.
      unfold ArticleController.applyUpdate, ArticleController.buildUpdateData,
        ArticleController.contentGiven.
      cbn [Article.contentBlocks Article.editorData Article.excerpt
             Article.readTime ArticleController.u_contentBlocks
             ArticleController.u_editorData ArticleController.u_excerpt
             ArticleController.u_readTime].
      rewrite Hcb, Hed, Hc, He. repeat split.
  - intros Hfail.
    destruct (updateArticle_cases unset req id u now db a Ha)
      as [[_ E] | (Hs & _)]; [exact E|congruence].
  - destruct (updateArticle_cases unset req id u now db a Ha)
      as [[_ E] | (_ & _ & E & _)]; cbv zeta in E; rewrite E; reflexivity.
  - intros id' Hne. apply updateArticle_others, Hne.
Qed.

Lemma update_article_frame_witness :
  exists a',
    articles (snd (ArticleController.updateArticle false
                     (titledBody "  New Title " None None) "a1" "author1" 5000
                     sampleDB)) !! "a1" = Some a'
    /\ Article.title a' = "New Title"
    /\ Article.likes a' = 1%Z.
Proof.
  destruct (proj1 (update_article_frame false (titledBody "  New Title " None None)
                     "a1" "author1" 5000 sampleDB sampleArticle eq_refl)
              eq_refl)
    as (a' & Ha & _ & _ & _ & _ & _ & Hl & _ & _ & Ht & _).
  exists a'. split; [exact Ha|]. split; [exact (proj1 Ht)|exact Hl].
Defined.

(** ** Requests in sequence: what every handler preserves *)

Section Requests.

Import JS Document Model ArticleController PublicController AuthController.

(** Validity follows the seven validated fields. *)
Lemma validArticle_from a a' :
  Article.title a' = Article.title a ->
  Article.contentBlocks a' = Article.contentBlocks a ->
  Article.category a' = Article.category a ->
  Article.seoTitle a' = Article.seoTitle a ->
  Article.seoDescription a' = Article.seoDescription a ->
  (Schema.maxlength 500 (Article.excerpt a) = true ->
   Schema.maxlength 500 (Article.excerpt a') = true) ->
  (Schema.inEnum (Article.status a) Schema.statusEnum = true ->
   Schema.inEnum (Article.status a') Schema.statusEnum = true) ->
  validArticle a -> validArticle a'.
Proof.
  intros Ht Hc Hg Hs Hd He Hst. unfold validArticle.
  rewrite !validPaths_all, Ht, Hc, Hg, Hs, Hd. intros H.
  repeat (apply andb_true_iff in H as [?H H]).
  rewrite He, Hst by assumption.
  repeat match goal with
         | Hx : ?b = true |- context [?b] => rewrite Hx
         end.
  reflexivity.
Qed.

Lemma excerptOf_fits s : Schema.maxlength 500 (Some (excerptOf s)) = true.
Proof.
  unfold Schema.maxlength. apply Nat.leb_le.
  pose proof (excerptOf_length s). lia.
Qed.

Lemma afterHooks_excerpt_fits n m now a :
  Schema.maxlength 500 (Article.excerpt a) = true ->
  Schema.maxlength 500 (Article.excerpt (afterHooks n m now a)) = true.
Proof.
  intros H. unfold afterHooks, excerpted.
  destruct (_ && _); [apply excerptOf_fits|].
  unfold timed, dated, slugged, stamped.
  repeat match goal with
         | |- context [if ?b then _ else _] => destruct b
         end; exact H.
Qed.

Lemma afterHooks_valid n m now a :
  validArticle a -> validArticle (afterHooks n m now a).
Proof.
  destruct (afterHooks_kept n m now a)
    as (Kt & Kc & _ & Kg & _ & Ks & _ & _ & _ & _ & _ & Kst & Ksd & _).
  apply validArticle_from; try assumption.
  - apply afterHooks_excerpt_fits.
  - rewrite Ks. auto.
Qed.

Lemma quiet_refl a : quiet a a.
Proof. unfold quiet. repeat split; auto; lia. Qed.

Lemma quiet_afterHooks n m now a :
  bool_decide ("title" ∈ m) = false -> quiet a (afterHooks n m now a).
Proof.
  intros Hm.
  destruct (afterHooks_kept n m now a)
    as (Kt & _ & _ & _ & _ & _ & Ka & _ & Kv & Kl & _ & _ & _ & _ & _ & Kc).
  unfold quiet. rewrite Kt, Ka, Kv, Kl, Kc, afterHooks_slug, Hm.
  repeat split; auto; try lia. apply afterHooks_valid.
Qed.

Lemma quiet_published now stamp a : quiet a (published now stamp a).
Proof.
  unfold quiet. repeat split; auto; try (cbn; lia).
  apply validArticle_from; auto.
Qed.

Lemma quiet_unpublished stamp a : quiet a (unpublished stamp a).
Proof.
  unfold quiet. repeat split; auto; try (cbn; lia).
  apply validArticle_from; auto.
Qed.

Lemma quiet_viewed now a : quiet a (viewed now a).
Proof.
  unfold quiet. repeat split; auto; try (cbn; lia).
Qed.

Lemma quiet_likedOnce now a : quiet a (likedOnce now a).
Proof.
  unfold quiet. repeat split; auto; try (cbn; lia).
Qed.

Lemma quiet_toggled u stamp a : quiet a (toggled u stamp a).
Proof.
  unfold quiet. repeat split; auto; try (cbn; lia).
  intros H. cbn. unfold toggledLikes. destruct (bool_decide _); lia.
Qed.

Lemma quietly_refl db : quietly db db.
Proof.
  intros id. destruct (articles db !! id) as [a|]; [|reflexivity].
  exists a. split; [reflexivity|apply quiet_refl].
Qed.

Lemma quietly_same db db' : articles db' = articles db -> quietly db db'.
Proof. intros E id. rewrite E. apply quietly_refl. Qed.

Lemma quietly_put db id a a' :
  articles db !! id = Some a -> quiet a a' ->
  quietly db (Store.putArticle id a' db).
Proof.
  intros Ha Hq id'. destruct (decide (id' = id)) as [-> | Hne].
  - rewrite Ha, putArticle_lookup. eauto.
  - rewrite putArticle_other by exact Hne.
    destruct (articles db !! id') as [b|]; [|reflexivity].
    exists b. split; [reflexivity|apply quiet_refl].
Qed.

Lemma quiet_trans a b c : quiet a b -> quiet b c -> quiet a c.
Proof.
  unfold quiet. intros (A1 & A2 & A3 & A4 & A5 & A6 & A7)
    (B1 & B2 & B3 & B4 & B5 & B6 & B7).
  repeat split; try congruence; try lia; auto.
Qed.

End Requests.

(** ** The shape of what each handler stores *)

Section Shapes.

Import JS Document Model ArticleController PublicController AuthController.

Lemma likeArticle_exact id now db a :
  Store.findPublished id db = Some a ->
  likeArticle id now db
  = if Schema.validPath a "title"
    then (ok 200 (LikesPayload (Article.likes a + 1) None
                    "Article liked successfully"),
          Store.putArticle id (likedOnce now a) db)
    else (failure 500 "Server error liking article", db).
Proof.
  intros Hf. unfold likeArticle. rewrite Hf.
  unfold save, Document.set, load, pathsToValidate.
  cbn [doc isNew modifiedPaths].
  assert (Hne : bool_decide (Article.likes a = (Article.likes a + 1)%Z) = false)
    by (apply bool_decide_eq_false; lia).
  rewrite Hne. cbn [app].
  unfold Schema.validPaths, Schema.requiredPaths. cbn [app forallb].
  change (Schema.validPath (Article.set_likes (Article.likes a + 1) a) "title")
    with (Schema.validPath a "title").
  change (Schema.validPath (Article.set_likes (Article.likes a + 1) a) "author")
    with true.
  change (Schema.validPath (Article.set_likes (Article.likes a + 1) a) "likes")
    with true.
  destruct (Schema.validPath a "title"); [|reflexivity]. cbn [andb].
  rewrite preSave_untracked by reflexivity.
  reflexivity.
Qed.

Lemma toggle_doc u a :
  doc (toggle u (load a))
  = Article.set_likes
      (toggledLikes u (Article.likedBy a) (Article.likes a))
      (Article.set_likedBy (toggledLikedBy u (Article.likedBy a)) a).
Proof.
  unfold toggle, toggledLikes, toggledLikedBy, Document.set, load.
  cbn [doc]. destruct (bool_decide _); reflexivity.
Qed.

Lemma engagement_untouched (m : list string) :
  Forall (fun p => p = "likedBy" \/ p = "likes") m ->
  bool_decide ("title" ∈ m) = false
  /\ bool_decide ("status" ∈ m) = false
  /\ contentTouched m = false.
Proof.
  intros H. rewrite Forall_forall in H. unfold contentTouched.
  assert (Hn : forall p, ~ (p = "likedBy" \/ p = "likes") ->
                         bool_decide (p ∈ m) = false).
  { intros p Hp. apply bool_decide_eq_false. intros Hin. exact (Hp (H p Hin)). }
  rewrite !Hn; [auto| | | |]; intros [E | E]; discriminate E.
Qed.

Lemma toggleLike_exact id u now db a :
  Store.findPublished id db = Some a ->
  exists stamp,
    toggleLikeArticle id u now db
    = if Schema.validPath a "title"
      then (ok 200
              (LikesPayload
                 (toggledLikes u (Article.likedBy a) (Article.likes a))
                 (Some (negb (bool_decide (u ∈ Article.likedBy a))))
                 (if bool_decide (u ∈ Article.likedBy a)
                  then "Article unliked successfully"
                  else "Article liked successfully")),
            Store.putArticle id (toggled u stamp a) db)
      else (failure 500 "Server error toggling like", db).
Proof.
  intros Hf. unfold toggleLikeArticle. rewrite Hf.
  destruct (toggle_fields u a) as (Hl & Hn & Ht & Hs & Hnew & Hps).
  rewrite save_fields. unfold pathsToValidate. rewrite Hnew.
  rewrite (validPaths_engagement a _ _ Ht Hps).
  exists (if bool_decide (modifiedPaths (toggle u (load a)) = [])
          then Article.updatedAt a else now).
  destruct (Schema.validPath a "title"); [|reflexivity].
  destruct (engagement_untouched _ Hps) as (Q1 & Q2 & Q3).
  rewrite (afterHooks_untouched _ _ _ _ Q1 Q2 Q3).
  rewrite stamped_lifecycle, toggle_doc. reflexivity.
Qed.

Lemma regenerate_save now a :
  save now {| doc := a; isNew := false; modifiedPaths := ["editorData"] |}
  = if Schema.validPath a "title" then Some (regenerated now a) else None.
Proof.
  rewrite save_fields. unfold pathsToValidate. cbn [isNew modifiedPaths doc].
  unfold Schema.validPaths, Schema.requiredPaths. cbn [app forallb].
  change (Schema.validPath a "author") with true.
  change (Schema.validPath a "editorData") with true.
  cbn [andb]. rewrite andb_true_r. reflexivity.
Qed.

Lemma quiet_regenerated now a : quiet a (regenerated now a).
Proof. apply quiet_afterHooks. reflexivity. Qed.

Lemma quietly_put_over db0 db id a a' :
  quietly db0 db -> articles db0 !! id = Some a -> quiet a a' ->
  quietly db0 (Store.putArticle id a' db).
Proof.
  intros Hq Ha Hqa id'. destruct (decide (id' = id)) as [-> | Hne].
  - rewrite Ha, putArticle_lookup. eauto.
  - rewrite putArticle_other by exact Hne. apply Hq.
Qed.

Lemma regenerateLoop_quietly clock l db0 :
  (forall id a, (id, a) ∈ l -> articles db0 !! id = Some a) ->
  forall n db, quietly db0 db ->
               quietly db0 (snd (regenerateLoop clock l n db)).
Proof.
  induction l as [|[id a] rest IH]; intros Hl n db Hq; [exact Hq|].
  cbn [regenerateLoop].
  assert (Hrest : forall id0 a0, (id0, a0) ∈ rest ->
                                 articles db0 !! id0 = Some a0).
  { intros id0 a0 Hin. apply Hl. apply elem_of_cons. auto. }
  destruct (Article.editorData a); [|apply IH; assumption].
  rewrite regenerate_save.
  destruct (Schema.validPath a "title"); [|exact Hq].
  apply IH; [exact Hrest|].
  apply (quietly_put_over db0 db id a); [exact Hq| |apply quiet_regenerated].
  apply Hl. apply elem_of_cons. auto.
Qed.

Lemma find_all_snapshot db id a :
  (id, a) ∈ Store.find (fun _ => true) db -> articles db !! id = Some a.
Proof.
  unfold Store.find. intros H. apply list_elem_of_In, filter_In in H as [H _].
  apply list_elem_of_In, elem_of_map_to_list in H. exact H.
Qed.

Lemma regenerateExcerpts_snd clock db :
  snd (regenerateExcerpts clock db)
  = snd (regenerateLoop clock (Store.find (fun _ => true) db) 0 db).
Proof.
  unfold regenerateExcerpts.
  destruct (regenerateLoop _ _ _ _) as [[n|] db']; reflexivity.
Qed.

(** What the update writes under and beside a new title. *)
Lemma applyUpdate_title unset req a now :
  let a' :=
    applyUpdate unset
      (buildUpdateData (Validation.updateArticleValidation req).1 a now)
      now a in
  match Request.title req with
  | Some t =>
      Article.title a' = trim t /\ Article.slug a' = Some (slugify (trim t))
  | None => Article.title a' = Article.title a /\ Article.slug a' = Article.slug a
  end.
Proof.
  cbv zeta. destruct (updateArticleValidation_fields req) as (Ht & _).
  cbv zeta in Ht.
  unfold applyUpdate, buildUpdateData.
  cbn [Article.title Article.slug u_title u_slug]. rewrite Ht.
  destruct (Request.title req) as [t|]; cbn.
  - unfold Schema.castTitle. rewrite trim_idempotent, castLower_slugify.
    split; reflexivity.
  - split; reflexivity.
Qed.

Lemma given_valid (p : string) {A : Type} (v : option A) a a' :
  forallb (Schema.validPath a')
    (match v with Some _ => [p] | None => [] end) = true ->
  (v = None -> Schema.validPath a' p = Schema.validPath a p) ->
  Schema.validPath a p = true -> Schema.validPath a' p = true.
Proof.
  destruct v; cbn [forallb]; intros H Hn Ha.
  - apply andb_true_iff in H as [H _]. exact H.
  - rewrite Hn; [exact Ha|reflexivity].
Qed.

Lemma validPaths_seven a :
  Schema.validPaths a Schema.allPaths
  = Schema.validPath a "title"
    && (Schema.validPath a "contentBlocks"
        && (Schema.validPath a "excerpt"
            && (Schema.validPath a "category"
                && (Schema.validPath a "status"
                    && (Schema.validPath a "seoTitle"
                        && Schema.validPath a "seoDescription"))))).
Proof. rewrite validPaths_all. reflexivity. Qed.

(** An update that passes [runValidators] keeps a valid article valid. *)
Lemma update_valid unset ud now a :
  validArticle a ->
  Schema.validPaths (applyUpdate unset ud now a) (updatedPaths ud) = true ->
  validArticle (applyUpdate unset ud now a).
Proof.
  unfold validArticle. rewrite !validPaths_seven. intros Hv Hu.
  unfold updatedPaths, Schema.validPaths in Hu. cbv zeta in Hu.
  rewrite !forallb_app in Hu.
  destruct ud as [ut us uc ue ug utg ust up uf uso usd ui ua uex ur].
  cbn [u_title u_slug u_contentBlocks u_editorData u_category u_tags u_status
         u_publishedAt u_featuredImage u_seoTitle u_seoDescription
         u_isFeatured u_allowComments u_excerpt u_readTime] in Hu.
  repeat (apply andb_true_iff in Hu as [?Hu Hu]).
  repeat (apply andb_true_iff in Hv as [?Hv Hv]).
  apply andb_true_iff; split;
    [|apply andb_true_iff; split;
      [|apply andb_true_iff; split;
        [|apply andb_true_iff; split;
          [|apply andb_true_iff; split;
            [|apply andb_true_iff; split]]]]].
  - apply (given_valid "title" ut a); [assumption| |assumption].
    intros ->. reflexivity.
  - apply (given_valid "contentBlocks" uc a); [assumption| |assumption].
    intros ->. reflexivity.
  - apply (given_valid "excerpt" uex a); [assumption| |assumption].
    intros ->. reflexivity.
  - apply (given_valid "category" ug a); [assumption| |assumption].
    intros ->. reflexivity.
  - apply (given_valid "status" ust a); [assumption| |assumption].
    intros ->. reflexivity.
  - apply (given_valid "seoTitle" uso a); [assumption| |assumption].
    intros ->. reflexivity.
  - apply (given_valid "seoDescription" usd a); [assumption| |assumption].
    intros ->. reflexivity.
Qed.

(** Every request leaves the collection in one of the three ways. *)
Lemma serve_shape c now db :
  wellPosed c db ->
  let db' := snd (serve c now db) in
  quietly db db' \/ writesOne db db' \/ removesOne db db'.
Proof.
  intros Hw. cbv zeta.
  destruct c as [req userId newId | unsetUndefined req id userId | id userId
                | id userId | id userId | clock | slug | id | id | id userId
                | aid userId | id userId ]; cbn [serve snd].
  - (* create *)
    destruct Hw as [Hfresh _].
    destruct (createArticle_cases req userId newId now db)
      as [[_ E] | (_ & _ & _ & E & Hv & Hvalid & Hn)].
    + rewrite E. left. apply quietly_refl.
    + right. left. rewrite E.
      destruct (createArticleValidation_fields req) as [Ht _].
      destruct (created_fields _ userId now _ Ht)
        as (Kt & Ksl & _ & _ & _ & Kv & Kl & _).
      eexists newId, _. split; [reflexivity|]. split; [split|].
      * rewrite Ksl, Kt. reflexivity.
      * rewrite Ksl in Hn. rewrite Ksl.
        intros id' b Hb Hne. exact (slugTaken_false _ _ _ Hn id' b Hb Hne).
      * rewrite Hfresh. split; [exact Kv|]. split; [exact Kl|].
        apply afterHooks_valid. exact Hvalid.
  - (* update *)
    destruct (articles db !! id) as [a|] eqn:Ha.
    + destruct (updateArticle_cases unsetUndefined req id userId now db a Ha)
        as [[_ E] | (_ & _ & E & _ & _ & Hvalid & Hslug)];
        cbv zeta in *.
      * rewrite E. left. apply quietly_refl.
      * rewrite E.
        pose proof (applyUpdate_title unsetUndefined req a now) as Ht.
        cbv zeta in Ht.
        destruct (Request.title req) as [t|] eqn:Et.
        -- right. left. destruct Ht as [Kt Ks].
           eexists id, _. split; [reflexivity|]. split; [split|].
           ++ rewrite Ks, Kt. reflexivity.
           ++ rewrite Ks in Hslug |- *. intros id' b Hb Hne.
              exact (slugTaken_false _ _ _ (Hslug (ex_intro _ t eq_refl))
                       id' b Hb Hne).
           ++ rewrite Ha. unfold rewritten.
              do 4 (split; [reflexivity|]).
              intros Hv. apply update_valid; assumption.
        -- left. destruct Ht as [Kt Ks].
           apply (quietly_put db id a); [exact Ha|].
           unfold quiet. split; [exact Kt|]. split; [exact Ks|].
           do 2 (split; [reflexivity|]).
           split; [cbn; lia|]. split; [auto|].
           intros Hv. apply update_valid; assumption.
    + destruct (updateArticle_unowned unsetUndefined req id userId now db
                  (findOwned_missing _ _ _ Ha)) as [E _].
      rewrite E. left. apply quietly_refl.
  - (* delete *)
    unfold ArticleController.deleteArticle.
    destruct (Store.findOwned id userId db); cbn [snd].
    + right. right. exists id. reflexivity.
    + left. apply quietly_refl.
  - (* publish *)
    left. destruct (Store.findOwned id userId db) as [a|] eqn:Hf.
    + rewrite (publishArticle_exact _ _ _ _ _ Hf).
      destruct (Schema.validPath a "title"); cbv zeta; cbn [snd];
        [|apply quietly_refl].
      apply (quietly_put db id a);
        [exact (proj1 (findOwned_Some _ _ _ _ Hf))|apply quiet_published].
    + unfold publishArticle. rewrite Hf. apply quietly_refl.
  - (* unpublish *)
    left. destruct (Store.findOwned id userId db) as [a|] eqn:Hf.
    + rewrite (unpublishArticle_exact _ _ _ _ _ Hf).
      destruct (Schema.validPath a "title"); cbv zeta; cbn [snd];
        [|apply quietly_refl].
      apply (quietly_put db id a);
        [exact (proj1 (findOwned_Some _ _ _ _ Hf))|apply quiet_unpublished].
    + unfold unpublishArticle. rewrite Hf. apply quietly_refl.
  - (* regenerate *)
    left. rewrite regenerateExcerpts_snd.
    apply regenerateLoop_quietly; [apply find_all_snapshot|apply quietly_refl].
  - (* fetch by slug *)
    left. unfold getPublicArticle.
    destruct (Store.findPublishedBySlug slug db) as [[id a]|] eqn:Hf;
      [|apply quietly_refl].
    rewrite countView_spec.
    destruct (Schema.validPath a "title"); cbn [snd]; [|apply quietly_refl].
    apply (quietly_put db id a);
      [exact (proj1 (findPublishedBySlug_Some _ _ _ _ Hf))|apply quiet_viewed].
  - (* fetch by id *)
    left. unfold getPublicArticleById.
    destruct (Store.findPublished id db) as [a|] eqn:Hf;
      [|apply quietly_refl].
    rewrite countView_spec.
    destruct (Schema.validPath a "title"); cbn [snd]; [|apply quietly_refl].
    apply (quietly_put db id a);
      [exact (proj1 (findPublished_Some _ _ _ Hf))|apply quiet_viewed].
  - (* anonymous like *)
    left. destruct (Store.findPublished id db) as [a|] eqn:Hf.
    + rewrite (likeArticle_exact _ _ _ _ Hf).
      destruct (Schema.validPath a "title"); cbn [snd]; [|apply quietly_refl].
      apply (quietly_put db id a);
        [exact (proj1 (findPublished_Some _ _ _ Hf))|apply quiet_likedOnce].
    + unfold likeArticle. rewrite Hf. apply quietly_refl.
  - (* toggle *)
    left. destruct (Store.findPublished id db) as [a|] eqn:Hf.
    + destruct (toggleLike_exact id userId now db a Hf) as [stamp E].
      rewrite E.
      destruct (Schema.validPath a "title"); cbn [snd]; [|apply quietly_refl].
      apply (quietly_put db id a);
        [exact (proj1 (findPublished_Some _ _ _ Hf))|apply quiet_toggled].
    + unfold toggleLikeArticle. rewrite Hf. apply quietly_refl.
  - (* save *)
    left. apply quietly_same. unfold saveArticle.
    destruct (Store.findPublished aid db); [|reflexivity].
    destruct (users db !! userId); [|reflexivity].
    destruct (negb _); reflexivity.
  - (* unsave *)
    left. apply quietly_same. unfold unsaveArticle.
    destruct (users db !! userId); reflexivity.
Qed.

End Shapes.

(** ** Invariants of the store *)

Section Invariants.

Import JS Document Model ArticleController PublicController AuthController.

Lemma quietly_back db db' id a' :
  quietly db db' -> articles db' !! id = Some a' ->
  exists a, articles db !! id = Some a /\ quiet a a'.
Proof.
  intros Hq Ha'. specialize (Hq id).
  destruct (articles db !! id) as [a|].
  - destruct Hq as (b & Hb & Hqb). rewrite Ha' in Hb. injection Hb as <-.
    eauto.
  - congruence.
Qed.

Lemma slugsAreKeys_step db db' :
  quietly db db' \/ writesOne db db' \/ removesOne db db' ->
  slugsAreKeys db -> slugsAreKeys db'.
Proof.
  intros Hshape [Hsync Huniq].
  destruct Hshape as [Hq | [(id0 & a0 & E & [Hk Hother] & _) | (id0 & E)]].
  - split.
    + intros id a' Ha'.
      destruct (quietly_back _ _ _ _ Hq Ha') as (a & Ha & Kt & Ks & _).
      rewrite Ks, Kt. exact (Hsync id a Ha).
    + intros i j a' b' Ha' Hb' Hs.
      destruct (quietly_back _ _ _ _ Hq Ha') as (a & Ha & _ & Ks & _).
      destruct (quietly_back _ _ _ _ Hq Hb') as (b & Hb & _ & Ks' & _).
      apply (Huniq i j a b Ha Hb). congruence.
  - split.
    + intros id a' Ha'. rewrite E in Ha'.
      apply lookup_insert_Some in Ha' as [[_ <-] | [_ Ha]];
        [exact Hk|exact (Hsync id a' Ha)].
    + intros i j a' b' Ha' Hb' Hs. rewrite E in Ha', Hb'.
      apply lookup_insert_Some in Ha' as [[<- <-] | [Hi Ha]];
        apply lookup_insert_Some in Hb' as [[<- <-] | [Hj Hb]].
      * reflexivity.
      * exfalso. apply (Hother j b' Hb); congruence.
      * exfalso. apply (Hother i a' Ha); congruence.
      * exact (Huniq i j a' b' Ha Hb Hs).
  - split.
    + intros id a' Ha'. rewrite E in Ha'.
      apply lookup_delete_Some in Ha' as [_ Ha]. exact (Hsync id a' Ha).
    + intros i j a' b' Ha' Hb' Hs. rewrite E in Ha', Hb'.
      apply lookup_delete_Some in Ha' as [_ Ha].
      apply lookup_delete_Some in Hb' as [_ Hb].
      exact (Huniq i j a' b' Ha Hb Hs).
Qed.

Lemma sound_step db db' :
  quietly db db' \/ writesOne db db' \/ removesOne db db' ->
  sound db -> sound db'.
Proof.
  intros Hshape Hs id a' Ha'.
  destruct Hshape as [Hq | [(id0 & a0 & E & _ & Hm) | (id0 & E)]].
  - destruct (quietly_back _ _ _ _ Hq Ha')
      as (a & Ha & _ & _ & _ & _ & Kv & Kl & Kval).
    destruct (Hs id a Ha) as (Hv & Hl & Hvi).
    split; [auto|]. split; [auto|lia].
  - rewrite E in Ha'.
    apply lookup_insert_Some in Ha' as [[_ <-] | [_ Ha]];
      [|exact (Hs id a' Ha)].
    destruct (articles db !! id0) as [a|] eqn:Ha.
    + destruct Hm as (_ & _ & Kv & Kl & Kval).
      destruct (Hs id0 a Ha) as (Hv & Hl & Hvi).
      rewrite Kv, Kl. auto.
    + destruct Hm as (Kv & Kl & Kval). rewrite Kv, Kl.
      split; [exact Kval|]. split; lia.
  - rewrite E in Ha'. apply lookup_delete_Some in Ha' as [_ Ha].
    exact (Hs id a' Ha).
Qed.

Lemma regenerateLoop_users clock l :
  forall n db, users (snd (regenerateLoop clock l n db)) = users db.
Proof.
  induction l as [|[id a] rest IH]; intros n db; [reflexivity|].
  cbn [regenerateLoop].
  destruct (Article.editorData a); [|apply IH].
  destruct (save _ _); [|reflexivity].
  rewrite IH. reflexivity.
Qed.

(** The users after a request: as before, or with one saved list
    rewritten by the save or unsave of that user. *)
Lemma serve_users c now db :
  users (snd (serve c now db)) = users db
  \/ exists id u w l,
      (c = SaveArticle id u \/ c = UnsaveArticle id u)
      /\ users db !! u = Some w
      /\ users (snd (serve c now db))
         = <[u := User.set_savedArticles l w]> (users db).
Proof.
  destruct c as [req userId newId | unsetUndefined req id userId | id userId
                | id userId | id userId | clock | slug | id | id | id userId
                | aid userId | id userId ]; cbn [serve snd].
  - left. unfold createArticle.
    destruct (Validation.createArticleValidation req) as [req' errors].
    destruct errors; [|reflexivity].
    destruct (save _ _); [|reflexivity].
    destruct (Store.slugTaken _ _ _); reflexivity.
  - left. unfold updateArticle.
    destruct (Validation.updateArticleValidation req) as [req' errors].
    destruct errors; [|reflexivity].
    destruct (Store.findOwned id userId db); [|reflexivity].
    unfold findByIdAndUpdate.
    destruct (articles db !! id); [|reflexivity].
    destruct (negb _); [reflexivity|].
    destruct (_ && _); reflexivity.
  - left. unfold ArticleController.deleteArticle.
    destruct (Store.findOwned id userId db); reflexivity.
  - left. unfold publishArticle.
    destruct (Store.findOwned id userId db); [|reflexivity].
    cbv zeta. destruct (save _ _); reflexivity.
  - left. unfold unpublishArticle.
    destruct (Store.findOwned id userId db); [|reflexivity].
    cbv zeta. destruct (save _ _); reflexivity.
  - left. rewrite regenerateExcerpts_snd. apply regenerateLoop_users.
  - left. unfold getPublicArticle.
    destruct (Store.findPublishedBySlug slug db) as [[id a]|]; [|reflexivity].
    destruct (countView now a); reflexivity.
  - left. unfold getPublicArticleById.
    destruct (Store.findPublished id db) as [a|]; [|reflexivity].
    destruct (countView now a); reflexivity.
  - left. unfold likeArticle.
    destruct (Store.findPublished id db) as [a|]; [|reflexivity].
    destruct (save _ _); reflexivity.
  - left. unfold toggleLikeArticle.
    destruct (Store.findPublished id db) as [a|]; [|reflexivity].
    destruct (save _ _); reflexivity.
  - unfold saveArticle.
    destruct (Store.findPublished aid db); [|left; reflexivity].
    destruct (users db !! userId) as [w|] eqn:Hu; [|left; reflexivity].
    destruct (negb _); [|left; reflexivity].
    right. exists aid, userId, w. eexists. split; [left; reflexivity|].
    split; [exact Hu|reflexivity].
  - unfold unsaveArticle.
    destruct (users db !! userId) as [w|] eqn:Hu; [|left; reflexivity].
    right. exists id, userId, w. eexists. split; [right; reflexivity|].
    split; [exact Hu|reflexivity].
Qed.

Lemma blogDB_keys : slugsAreKeys blogDB.
Proof.
  split.
  - intros id a Ha. unfold blogDB in Ha. cbn [articles] in Ha.
    apply lookup_singleton_Some in Ha as [_ <-]. reflexivity.
  - intros i j a b Ha Hb _. unfold blogDB in Ha, Hb. cbn [articles] in Ha, Hb.
    apply lookup_singleton_Some in Ha as [<- _].
    apply lookup_singleton_Some in Hb as [<- _]. reflexivity.
Qed.

Lemma blogDB_sound : sound blogDB.
Proof.
  intros id a Ha. unfold blogDB in Ha. cbn [articles] in Ha.
  apply lookup_singleton_Some in Ha as [_ <-].
  split; [reflexivity|]. split; cbn; lia.
Qed.

Lemma session_posed : posed session blogDB.
Proof. vm_compute. repeat split; eexists; reflexivity. Qed.

End Invariants.

(** X17. Slugs stay keys. If every article's slug is the slug of its
    title and no two articles share a slug, then this is still so after any
    sequence of requests to the writing handlers: creating, updating,
    deleting, publishing, unpublishing, regenerating excerpts, fetching,
    liking, saving. *)
Theorem slugs_stay_keys (calls : list (Call * Z)) (db : DB) :
  posed calls db -> slugsAreKeys db -> slugsAreKeys (run calls db).
Proof.
  revert db. induction calls as [|[c now] rest IH]; intros db Hp Hk;
    [exact Hk|].
  destruct Hp as [Hw Hp]. cbn [run]. apply IH; [exact Hp|].
  exact (slugsAreKeys_step _ _ (serve_shape c now db Hw) Hk).
Qed.

Lemma slugs_stay_keys_witness : slugsAreKeys (run session blogDB).
Proof.
  apply (slugs_stay_keys session blogDB session_posed blogDB_keys).
Defined.

(** X18. Soundness of the store is kept. If every article passes the
    validators of the schema and has a like count and a view count that are
    not negative, then this is still so after any sequence of requests. *)
Theorem store_stays_sound (calls : list (Call * Z)) (db : DB) :
  posed calls db -> sound db -> sound (run calls db).
Proof.
  revert db. induction calls as [|[c now] rest IH]; intros db Hp Hs;
    [exact Hs|].
  destruct Hp as [Hw Hp]. cbn [run]. apply IH; [exact Hp|].
  exact (sound_step _ _ (serve_shape c now db Hw) Hs).
Qed.

Lemma store_stays_sound_witness : sound (run session blogDB).
Proof.
  apply (store_stays_sound session blogDB session_posed blogDB_sound).
Defined.

(** X20. No request rewrites the identity of an article or takes views
    back: an article that is in the store before and after a request has
    the same author and the same creation time, and its view count has not
    gone down. *)
Theorem request_keeps_identity (c : Call) (now : Z) (db : DB) (id : string)
    (a a' : Article.t) :
  wellPosed c db ->
  articles db !! id = Some a ->
  articles (snd (serve c now db)) !! id = Some a' ->
  Article.author a' = Article.author a
  /\ Article.createdAt a' = Article.createdAt a
  /\ (Article.views a <= Article.views a')%Z.
Proof.
  intros Hw Ha Ha'.
  destruct (serve_shape c now db Hw)
    as [Hq | [(id0 & a0 & E & _ & Hm) | (id0 & E)]].
  - destruct (quietly_back _ _ _ _ Hq Ha')
      as (b & Hb & _ & _ & Ka & Kc & Kv & _).
    rewrite Ha in Hb. injection Hb as <-. auto.
  - rewrite E in Ha'.
    apply lookup_insert_Some in Ha' as [[<- <-] | [_ Hb]].
    + rewrite Ha in Hm. destruct Hm as (Ka & Kc & Kv & _).
      rewrite Ka, Kc, Kv. repeat split. lia.
    + rewrite Ha in Hb. injection Hb as <-. repeat split. lia.
  - rewrite E in Ha'. apply lookup_delete_Some in Ha' as [_ Hb].
    rewrite Ha in Hb. injection Hb as <-. repeat split. lia.
Qed.

Lemma request_keeps_identity_witness :
  Article.author (viewed 5000 sampleArticle) = "author1"
  /\ Article.createdAt (viewed 5000 sampleArticle) = 1000%Z
  /\ (0 <= Article.views (viewed 5000 sampleArticle))%Z.
Proof.
  apply (request_keeps_identity (GetPublicArticleById "a1") 5000 sampleDB "a1"
           sampleArticle (viewed 5000 sampleArticle) I eq_refl eq_refl).
Defined.

(** X21. The users are out of reach of the article handlers. No request
    adds or removes a user or changes a name, an email, a role or the
    active flag; a saved list changes only through the save or unsave
    request of that very user. *)
Theorem request_keeps_users (c : Call) (now : Z) (db : DB) (v : string) :
  match users db !! v with
  | Some w =>
      exists w',
        users (snd (serve c now db)) !! v = Some w'
        /\ User.name w' = User.name w
        /\ User.email w' = User.email w
        /\ User.role w' = User.role w
        /\ User.isActive w' = User.isActive w
        /\ (User.savedArticles w' <> User.savedArticles w ->
            exists id, c = SaveArticle id v \/ c = UnsaveArticle id v)
  | None => users (snd (serve c now db)) !! v = None
  end.
Proof.
  destruct (serve_users c now db) as [E | (id & u & w0 & l & Hc & Hu & E)];
    rewrite E.
  - destruct (users db !! v) as [w|]; [|reflexivity].
    exists w. repeat split. intros H. congruence.
  - destruct (decide (v = u)) as [-> | Hne].
    + rewrite Hu, lookup_insert_eq. eexists. split; [reflexivity|].
      repeat split. intros _. exists id. exact Hc.
    + rewrite lookup_insert_ne by congruence.
      destruct (users db !! v) as [w|]; [|reflexivity].
      exists w. repeat split. intros H. congruence.
Qed.

(** ** The list handlers *)

Section Listings.

Import JS.

Variable sortDocs :
  string -> list (string * Article.t) -> option (list (string * Article.t)).
Variable beyond :
  JS.number -> JS.number -> list (string * Article.t)
  -> option (list (string * Article.t)).
Hypothesis sortDocs_reorders : reorders sortDocs.

Lemma find_elem q db id a :
  (id, a) ∈ Store.find q db <-> articles db !! id = Some a /\ q a = true.
Proof.
  unfold Store.find. rewrite list_elem_of_In, filter_In, <- list_elem_of_In.
  rewrite elem_of_map_to_list. reflexivity.
Qed.

Lemma find_NoDup q db : NoDup ((Store.find q db).*1).
Proof.
  unfold Store.find. apply NoDup_fst_filter, NoDup_fst_map_to_list.
Qed.

Lemma sorted_elem q s db sorted id a :
  sortDocs s (Store.find q db) = Some sorted ->
  (id, a) ∈ sorted <-> articles db !! id = Some a /\ q a = true.
Proof.
  intros Hsort. rewrite (sortDocs_reorders s _ _ Hsort). apply find_elem.
Qed.

Lemma sorted_NoDup q s db sorted :
  sortDocs s (Store.find q db) = Some sorted -> NoDup (sorted.*1).
Proof.
  intros Hsort. rewrite (sortDocs_reorders s _ _ Hsort). apply find_NoDup.
Qed.


Lemma skipLimit_in_range (s l : Z) (docs : list (string * Article.t)) :
  (0 <= s <= Store.maxInt)%Z -> (0 < l <= Store.maxInt)%Z ->
  Store.skipLimit beyond (Int s) (Int l) docs
  = Some (take (Z.to_nat l) (drop (Z.to_nat s) docs)).
Proof.
  intros [Hs Hs'] [Hl Hl']. unfold Store.skipLimit.
  rewrite (proj2 (Z.leb_le 0 s) Hs), (proj2 (Z.leb_le s _) Hs'),
    (proj2 (Z.ltb_lt 0 l) Hl), (proj2 (Z.leb_le l _) Hl').
  reflexivity.
Qed.

Lemma skipLimit_sublist skip limit docs r :
  selects beyond ->
  Store.skipLimit beyond skip limit docs = Some r -> r `sublist_of` docs.
Proof.
  intros Hb. unfold Store.skipLimit.
  destruct skip as [s| |]; try apply Hb.
  destruct limit as [l| |]; try apply Hb.
  destruct ((0 <=? s)%Z && (s <=? Store.maxInt)%Z && (0 <? l)%Z
            && (l <=? Store.maxInt)%Z).
  - intros [= <-]. etransitivity; [apply sublist_take|apply sublist_drop].
  - destruct ((0 <=? s)%Z && (s <=? Store.maxInt)%Z && (l =? 0)%Z);
      [|apply Hb].
    intros [= <-]. apply sublist_drop.
Qed.

(** One page of a cursor. *)
Lemma cursor_page q s skip limit db L :
  selects beyond ->
  sortDocs s (Store.find q db) ≫= Store.skipLimit beyond skip limit = Some L ->
  NoDup (L.*1)
  /\ forall id a, (id, a) ∈ L -> articles db !! id = Some a /\ q a = true.
Proof.
  intros Hb HL.
  destruct (sortDocs s (Store.find q db)) as [sorted|] eqn:Hsort;
    [|discriminate].
  cbn [mbind option_bind] in HL.
  pose proof (skipLimit_sublist _ _ _ _ Hb HL) as Hsub.
  split.
  - eapply sublist_NoDup; [apply (sorted_NoDup q s db sorted Hsort)|].
    apply fmap_sublist, Hsub.
  - intros id a Hin. apply (sorted_elem q s db sorted id a Hsort).
    eapply elem_of_sublist; [exact Hin|exact Hsub].
Qed.

Lemma cursor_at_most skip docs L p l :
  docs ≫= Store.skipLimit beyond skip (Int l) = Some L ->
  skip = Reply.skipOf (Int p) (Int l) \/ skip = Int 0 ->
  (1 <= p)%Z -> (0 < l <= Store.maxInt)%Z ->
  ((p - 1) * l <= Store.maxInt)%Z -> (length L <= Z.to_nat l)%nat.
Proof.
  intros HL Hskip Hp Hl Hs.
  destruct docs as [sorted|]; [|discriminate].
  cbn [mbind option_bind] in HL.
  destruct Hskip as [-> | ->].
  - cbn [Reply.skipOf] in HL.
    rewrite skipLimit_in_range in HL by nia. injection HL as <-.
    rewrite length_take. lia.
  - rewrite skipLimit_in_range in HL by (unfold Store.maxInt in *; lia).
    injection HL as <-. rewrite length_take. lia.
Qed.

Lemma projected_fst l : (PublicController.projected l).*1 = l.*1.
Proof.
  unfold PublicController.projected.
  induction l as [|x l IH]; [reflexivity|].
  cbn [map fmap list_fmap fst]. f_equal. exact IH.
Qed.

Lemma projected_elem l id a' :
  (id, a') ∈ PublicController.projected l ->
  exists a, (id, a) ∈ l /\ a' = Store.withoutContentBlocks a.
Proof.
  unfold PublicController.projected. intros H.
  apply list_elem_of_In, in_map_iff in H as ([id0 a] & E & Hin).
  cbn [fst snd] in E. injection E as <- <-.
  exists a. split; [apply list_elem_of_In, Hin|reflexivity].
Qed.

Lemma projected_length l : length (PublicController.projected l) = length l.
Proof. unfold PublicController.projected. apply length_map. Qed.

(** One page of a public cursor. *)
Lemma public_page q s skip limit db (P : Article.t -> Prop) message
    (pagination : option Reply.Pagination) :
  selects beyond ->
  (forall a, q a = true -> P a) ->
  listsOnly Store.withoutContentBlocks P db
    (match sortDocs s (Store.find q db)
           ≫= Store.skipLimit beyond skip limit with
     | None => Reply.Rejected 500 message
     | Some articles =>
         Reply.Accepted 200
           {| Reply.items := PublicController.projected articles;
              Reply.pagination := pagination |}
     end).
Proof.
  intros Hb HP page.
  destruct (_ ≫= _) as [L|] eqn:HL; [|discriminate].
  intros [= <-]. cbn [Reply.items].
  destruct (cursor_page q s skip limit db L Hb HL) as (Hnd & Hel).
  rewrite projected_fst. split; [exact Hnd|].
  intros id a' Hin. apply projected_elem in Hin as (a & Hin & ->).
  destruct (Hel id a Hin) as [Ha Hq]. exists a. auto.
Qed.

Lemma public_bound q s page limit db message
    (pagination : option Reply.Pagination) :
  bounded page limit
    (match sortDocs s (Store.find q db)
           ≫= Store.skipLimit beyond (Reply.skipOf page limit) limit with
     | None => Reply.Rejected 500 message
     | Some articles =>
         Reply.Accepted 200
           {| Reply.items := PublicController.projected articles;
              Reply.pagination := pagination |}
     end).
Proof.
  intros p l -> -> Hp Hl Hs pg.
  destruct (_ ≫= _) as [L|] eqn:HL; [|discriminate].
  intros [= <-]. cbn [Reply.items]. rewrite projected_length.
  exact (cursor_at_most _ _ _ _ _ HL (or_introl eq_refl) Hp Hl Hs).
Qed.

Lemma first_bound q s limit db message
    (pagination : option Reply.Pagination) :
  bounded (Int 1) limit
    (match sortDocs s (Store.find q db)
           ≫= Store.skipLimit beyond (Int 0) limit with
     | None => Reply.Rejected 500 message
     | Some articles =>
         Reply.Accepted 200
           {| Reply.items := PublicController.projected articles;
              Reply.pagination := pagination |}
     end).
Proof.
  intros p l _ -> _ Hl _ pg.
  destruct (_ ≫= _) as [L|] eqn:HL; [|discriminate].
  intros [= <-]. cbn [Reply.items]. rewrite projected_length.
  apply (cursor_at_most _ _ _ 1 _ HL (or_intror eq_refl));
    [lia|exact Hl|unfold Store.maxInt; lia].
Qed.



End Listings.

Ltac filter_holds :=
  match goal with
  | H : bool_decide ?P = true |- ?P => exact (proj1 (bool_decide_eq_true P) H)
  | H : (?x =? ?y) = true |- ?x = ?y => exact (proj1 (String.eqb_eq x y) H)
  end.

(** X22. The public lists show published articles only. Whatever the
    order the database sorts in, and whatever it makes of a skip or a limit
    outside their natural range as long as it only leaves documents out,
    each of the five public list handlers, when it answers with a list,
    answers with no article twice, and every entry is a stored article with
    the status [published], shown without its content blocks, that passes
    the filter of the request: the category, the tag in lower case and
    trimmed, and the author whose id the parameter casts to; the featured
    flag; the time frame of the popular list; the category or the author of
    the path. For a page of 1 or more
    and a positive limit, with the limit and the number of documents to
    skip at most 2147483647, the answer has at most [limit] entries. *)
Theorem public_lists_show_published
    (sortDocs : string -> list (string * Article.t)
                -> option (list (string * Article.t)))
    (beyond : JS.number -> JS.number -> list (string * Article.t)
              -> option (list (string * Article.t)))
    (regex : string -> option (string -> bool))
    (castId : string -> option string)
    (category tag author : option string) (page limit : JS.queryNumber)
    (sort search timeframe : option string) (pathCategory authorId : string)
    (now : Z) (db : DB) :
  reorders sortDocs ->
  selects beyond ->
  (let r := PublicController.getPublicArticles sortDocs beyond regex castId
              category tag author page limit sort search db in
   listsOnly Store.withoutContentBlocks
     (fun a =>
        Article.status a = "published"
        /\ filtered category (fun c => Article.category a = Some c) True
        /\ filtered tag (fun t => Schema.castLower t ∈ Article.tags a) True
        /\ filtered author (fun u => castId u = Some (Article.author a)) True)
     db r
   /\ bounded (JS.parseInt 1 page) (JS.parseInt 10 limit) r)
  /\ (let r := PublicController.getFeaturedArticles sortDocs beyond limit db in
      listsOnly Store.withoutContentBlocks
        (fun a => Article.status a = "published"
                  /\ Article.isFeatured a = true) db r
      /\ bounded (JS.Int 1) (JS.parseInt 5 limit) r)
  /\ (let r := PublicController.getPopularArticles sortDocs beyond limit
                 timeframe now db in
      listsOnly Store.withoutContentBlocks
        (fun a => Article.status a = "published"
                  /\ PublicController.dateFilter (default "all" timeframe)
                       now a = true) db r
      /\ bounded (JS.Int 1) (JS.parseInt 5 limit) r)
  /\ (let r := PublicController.getArticlesByCategory sortDocs beyond
                 pathCategory page limit sort db in
      listsOnly Store.withoutContentBlocks
        (fun a => Article.status a = "published"
                  /\ Article.category a = Some pathCategory) db r
      /\ bounded (JS.parseInt 1 page) (JS.parseInt 10 limit) r)
  /\ (let r := PublicController.getArticlesByAuthor sortDocs beyond castId
                 authorId page limit sort db in
      listsOnly Store.withoutContentBlocks
        (fun a => Article.status a = "published"
                  /\ castId authorId = Some (Article.author a)) db r
      /\ bounded (JS.parseInt 1 page) (JS.parseInt 10 limit) r).
Proof.
  intros Hs Hb. cbv zeta. split; [|split; [|split; [|split]]].
  - unfold PublicController.getPublicArticles. cbv zeta.
    assert (Hfail : forall message,
              listsOnly Store.withoutContentBlocks
                (fun a =>
                   Article.status a = "published"
                   /\ filtered category
                        (fun c => Article.category a = Some c) True
                   /\ filtered tag
                        (fun t => Schema.castLower t ∈ Article.tags a) True
                   /\ filtered author
                        (fun u => castId u = Some (Article.author a)) True)
                db (Reply.Rejected 500 message)
              /\ bounded (JS.parseInt 1 page) (JS.parseInt 10 limit)
                   (Reply.Rejected 500 message)).
    { intros message. split; [intros pg [=]|intros ? ? _ _ _ _ _ pg [=]]. }
    assert (Hquery : forall pattern key,
              PublicController.given author ≫= castId = key ->
              (PublicController.given author = None \/ is_Some key) ->
              forall a,
                PublicController.publicQuery category tag key pattern a = true ->
                Article.status a = "published"
                /\ filtered category
                     (fun c => Article.category a = Some c) True
                /\ filtered tag
                     (fun t => Schema.castLower t ∈ Article.tags a) True
                /\ filtered author
                     (fun u => castId u = Some (Article.author a)) True).
    { intros pattern key Hkey Hgiven a Hq.
      unfold PublicController.publicQuery in Hq.
      repeat (apply andb_true_iff in Hq as [Hq ?]).
      apply String.eqb_eq in Hq. unfold filtered.
      split; [exact Hq|]. split; [|split].
      - destruct category as [c|]; [|exact I].
        destruct (JS.truthy c); [|exact I]. filter_holds.
      - destruct tag as [t|]; [|exact I].
        destruct (JS.truthy t); [|exact I]. filter_holds.
      - unfold PublicController.given in Hkey, Hgiven.
        destruct author as [u|]; [|exact I].
        destruct (JS.truthy u); [|exact I]. cbn in Hkey.
        destruct Hgiven as [Hn | [k Hk]]; [discriminate|]. subst key.
        rewrite Hk in *. f_equal. symmetry. filter_holds. }
    destruct (PublicController.given search) as [sr|]; cbn [mbind option_bind].
    + destruct (regex sr) as [test|]; [|apply Hfail].
      destruct (PublicController.given author) as [u|] eqn:Hu;
        cbn [mbind option_bind].
      * destruct (castId u) as [key|] eqn:Hk; [|apply Hfail].
        split; [|apply public_bound].
        apply (public_page sortDocs beyond Hs); [exact Hb|].
        apply (Hquery _ (Some key)); [exact Hk|right; eauto].
      * split; [|apply public_bound].
        apply (public_page sortDocs beyond Hs); [exact Hb|].
        apply (Hquery _ None); [reflexivity|left; reflexivity].
    + destruct (PublicController.given author) as [u|] eqn:Hu;
        cbn [mbind option_bind].
      * destruct (castId u) as [key|] eqn:Hk; [|apply Hfail].
        split; [|apply public_bound].
        apply (public_page sortDocs beyond Hs); [exact Hb|].
        apply (Hquery _ (Some key)); [exact Hk|right; eauto].
      * split; [|apply public_bound].
        apply (public_page sortDocs beyond Hs); [exact Hb|].
        apply (Hquery _ None); [reflexivity|left; reflexivity].
  - unfold PublicController.getFeaturedArticles. cbv zeta. split.
    + apply (public_page sortDocs beyond Hs); [exact Hb|]. intros a Hq.
      apply andb_true_iff in Hq as [Hq Hf]. apply String.eqb_eq in Hq. auto.
    + apply first_bound.
  - unfold PublicController.getPopularArticles. cbv zeta. split.
    + apply (public_page sortDocs beyond Hs); [exact Hb|]. intros a Hq.
      apply andb_true_iff in Hq as [Hq Hf]. apply String.eqb_eq in Hq. auto.
    + apply first_bound.
  - unfold PublicController.getArticlesByCategory. cbv zeta. split.
    + apply (public_page sortDocs beyond Hs); [exact Hb|]. intros a Hq.
      apply andb_true_iff in Hq as [Hq Hf]. apply String.eqb_eq in Hq.
      apply bool_decide_eq_true in Hf. auto.
    + apply public_bound.
  - unfold PublicController.getArticlesByAuthor. cbv zeta.
    destruct (castId authorId) as [key|];
      [|split; [intros pg [=]|intros ? ? _ _ _ _ _ pg [=]]].
    split.
    + apply (public_page sortDocs beyond Hs); [exact Hb|]. intros a Hq.
      apply andb_true_iff in Hq as [Hq Hf]. apply String.eqb_eq in Hq.
      apply String.eqb_eq in Hf. subst key. auto.
    + apply public_bound.
Qed.

Lemma public_lists_show_published_witness :
  let r := PublicController.getArticlesByAuthor (fun _ l => Some l)
             (fun _ _ _ => None) (fun s => Some s) "author1" JS.Absent
             JS.Absent None sampleDB in
  (listsOnly Store.withoutContentBlocks
     (fun a => Article.status a = "published"
               /\ Some "author1" = Some (Article.author a)) sampleDB r
   /\ bounded (JS.parseInt 1 JS.Absent) (JS.parseInt 10 JS.Absent) r)
  /\ itemsOf r = [("a1", Store.withoutContentBlocks sampleArticle)].
Proof.
  split; [|reflexivity].
  refine (proj2 (proj2 (proj2 (proj2
            (public_lists_show_published (fun _ l => Some l)
               (fun _ _ _ => None) (fun _ => None) (fun s => Some s) None None
               None JS.Absent JS.Absent None None None "AI" "author1" 5000
               sampleDB _ _))))).
  - intros s l r [= <-]. reflexivity.
  - intros skip limit docs r [=].
Defined.

(** X23. The owner's list shows the owner's articles only, whatever
    their status: no article twice, every entry a stored article of the
    requesting user, in full, that has the status and the category of the
    query when they are given, and at most [limit] entries for a page of 1
    or more and a positive limit, with the limit and the number of
    documents to skip at most 2147483647; this whatever the order the
    database sorts in and whatever it makes of a skip or a limit outside
    their natural range, as long as it only leaves documents out. *)
Theorem own_list_shows_own_articles
    (sortDocs : string -> list (string * Article.t)
                -> option (list (string * Article.t)))
    (beyond : JS.number -> JS.number -> list (string * Article.t)
              -> option (list (string * Article.t)))
    (status category : option string) (page limit : JS.queryNumber)
    (sort : option string) (u : string) (db : DB) :
  reorders sortDocs ->
  selects beyond ->
  let r := ArticleController.getArticles sortDocs beyond status category page
             limit sort u db in
  listsOnly (fun a => a)
    (fun a =>
       Article.author a = u
       /\ filtered status (fun s => Article.status a = s) True
       /\ filtered category (fun c => Article.category a = Some c) True)
    db r
  /\ bounded (JS.parseInt 1 page) (JS.parseInt 10 limit) r.
Proof.
  intros Hs Hb. cbv zeta. unfold ArticleController.getArticles. cbv zeta.
  destruct (_ ≫= _) as [L|] eqn:HL;
    [|split; [intros pg [=]|intros ? ? _ _ _ _ _ pg [=]]].
  split.
  - intros pg [= <-]. cbn [Reply.items].
    destruct (cursor_page sortDocs beyond Hs _ _ _ _ _ _ Hb HL) as (Hnd & Hel).
    split; [exact Hnd|].
    intros id a Hin. destruct (Hel id a Hin) as [Ha Hq]. exists a.
    split; [exact Ha|]. split; [|reflexivity].
    unfold ArticleController.ownQuery in Hq.
    apply andb_true_iff in Hq as [Hq Hc].
    apply andb_true_iff in Hq as [Hq Hst].
    apply String.eqb_eq in Hq. unfold filtered.
    split; [exact Hq|]. split.
    + destruct status as [s|]; [|exact I].
      destruct (JS.truthy s); [|exact I]. filter_holds.
    + destruct category as [c|]; [|exact I].
      destruct (JS.truthy c); [|exact I]. filter_holds.
  - intros p l Ep El Hp Hl Hsk pg [= <-]. cbn [Reply.items].
    rewrite Ep, El in HL.
    exact (cursor_at_most beyond _ _ _ _ _ HL (or_introl eq_refl) Hp Hl Hsk).
Qed.

Lemma own_list_shows_own_articles_witness :
  let r := ArticleController.getArticles (fun _ l => Some l) (fun _ _ _ => None)
             (Some "draft") None JS.Absent JS.Absent None "author1" draftDB in
  (listsOnly (fun a => a)
     (fun a =>
        Article.author a = "author1"
        /\ filtered (Some "draft") (fun s => Article.status a = s) True
        /\ filtered None (fun c => Article.category a = Some c) True)
     draftDB r
   /\ bounded (JS.parseInt 1 JS.Absent) (JS.parseInt 10 JS.Absent) r)
  /\ itemsOf r = [("d1", draftArticle)].
Proof.
  split; [|reflexivity].
  refine (own_list_shows_own_articles (fun _ l => Some l) (fun _ _ _ => None)
            (Some "draft") None JS.Absent JS.Absent None "author1" draftDB
            _ _).
  - intros s l r [= <-]. reflexivity.
  - intros skip limit docs r [=].
Defined.



(** ** The authentication middleware *)

Section Middleware.

Import JS AuthMiddleware.

Lemma splitOn_none sep s :
  allChars (fun c => negb (Ascii.eqb c sep)) s = true ->
  splitOn sep s = [s].
Proof.
  induction s as [|c r IH]; [reflexivity|]. cbn [allChars splitOn].
  intros H. apply andb_true_iff in H as [Hc Hr].
  apply negb_true_iff in Hc. rewrite Hc, (IH Hr). reflexivity.
Qed.

Lemma splitOn_app sep w t :
  allChars (fun c => negb (Ascii.eqb c sep)) w = true ->
  splitOn sep (w ++ String sep t) = w :: splitOn sep t.
Proof.
  induction w as [|c r IH].
  - intros _. change ("" ++ String sep t) with (String sep t).
    cbn [splitOn]. rewrite Ascii.eqb_refl. reflexivity.
  - cbn [allChars]. intros H. apply andb_true_iff in H as [Hc Hr].
    apply negb_true_iff in Hc.
    change (String c r ++ String sep t) with (String c (r ++ String sep t)).
    cbn [splitOn]. rewrite Hc, (IH Hr). reflexivity.
Qed.

(** The token of a header of the form [Bearer <token>]. *)
Lemma tokenOf_bearer token :
  allChars (fun c => negb (Ascii.eqb c " ")) token = true ->
  tokenOf (Some ("Bearer " ++ token)) = Some token.
Proof.
  intros H. unfold tokenOf.
  change ("Bearer " ++ token) with ("Bearer" ++ String " " token).
  rewrite splitOn_app by reflexivity. rewrite (splitOn_none _ _ H).
  reflexivity.
Qed.

End Middleware.

(** X25. [optionalAuth] and [protect] agree on who is signed in:
    [optionalAuth] leaves a user on the request exactly when [protect]
    would let the request through, and the same user. [protect] refuses
    with 401 and nothing else, and the user it lets through is in the store
    under the id of the token and is active. *)
Theorem optional_auth_agrees_with_protect
    (verify : string -> option string) (isObjectId : string -> bool)
    (authorization : option string) (db : DB) :
  AuthMiddleware.optionalAuth verify isObjectId authorization db
  = admittedUser (AuthMiddleware.protect verify isObjectId authorization db)
  /\ (forall code message,
        AuthMiddleware.protect verify isObjectId authorization db
        = inl (code, message) -> code = 401%nat)
  /\ (forall id user,
        AuthMiddleware.protect verify isObjectId authorization db
        = inr (id, user) ->
        users db !! id = Some user /\ User.isActive user = true
        /\ exists token, AuthMiddleware.tokenOf authorization = Some token
                         /\ verify token = Some id).
Proof.
  unfold AuthMiddleware.optionalAuth, AuthMiddleware.protect.
  destruct (AuthMiddleware.tokenOf authorization) as [token|];
    [|split; [reflexivity|split; [congruence|discriminate]]].
  destruct (JS.truthy token); cbn [negb];
    [|split; [reflexivity|split; [congruence|discriminate]]].
  destruct (verify token) as [id|] eqn:Hv;
    [|split; [reflexivity|split; [congruence|discriminate]]].
  destruct (isObjectId id); cbn [negb];
    [|split; [reflexivity|split; [congruence|discriminate]]].
  destruct (users db !! id) as [user|] eqn:Hu;
    [|split; [reflexivity|split; [congruence|discriminate]]].
  destruct (User.isActive user) eqn:Ha; cbn [negb];
    [|split; [reflexivity|split; [congruence|discriminate]]].
  split; [reflexivity|]. split; [discriminate|].
  intros id' user' [= <- <-]. split; [exact Hu|]. split; [exact Ha|].
  exists token. split; [reflexivity|exact Hv].
Qed.

(** X26. A well-formed header of an active user is let through: for a
    token without a space that [jwt.verify] accepts, whose id is that of an
    active user in the store, [protect] hands the request on with that user
    when the header is [Bearer], one space, and the token. *)
Theorem bearer_token_is_admitted
    (verify : string -> option string) (isObjectId : string -> bool)
    (token id : string) (user : User.t) (db : DB) :
  allChars (fun c => negb (Ascii.eqb c " ")) token = true ->
  token <> "" ->
  verify token = Some id ->
  isObjectId id = true ->
  users db !! id = Some user ->
  User.isActive user = true ->
  AuthMiddleware.protect verify isObjectId (Some ("Bearer " ++ token)) db
  = inr (id, user).
Proof.
  intros Hsp Hne Hv Hid Hu Ha. unfold AuthMiddleware.protect.
  rewrite (tokenOf_bearer token Hsp).
  destruct token as [|c r]; [congruence|]. cbn [JS.truthy negb].
  rewrite Hv, Hid, Hu, Ha. reflexivity.
Qed.

Lemma bearer_token_is_admitted_witness :
  AuthMiddleware.protect verifyReader (fun _ => true) (Some "Bearer tok")
    readerDB
  = inr ("reader1", reader1).
Proof.
  apply (bearer_token_is_admitted verifyReader (fun _ => true) "tok"
           "reader1" reader1 readerDB);
    [reflexivity|discriminate|reflexivity|reflexivity|reflexivity|reflexivity].
Defined.

(** ** Regenerating the excerpts *)

Section Regenerate.

Import JS Document Model ArticleController.

Lemma regenerated_fields now a :
  Article.excerpt (regenerated now a)
  = (if truthy (Model.excerptText a) then Some (excerptOf (Model.excerptText a))
     else Article.excerpt a)
  /\ Article.readTime (regenerated now a) = readTimeOf a
  /\ Article.updatedAt (regenerated now a) = now
  /\ Article.slug (regenerated now a) = Article.slug a
  /\ Article.publishedAt (regenerated now a) = Article.publishedAt a
  /\ keptBySave a (regenerated now a).
Proof.
  unfold regenerated.
  split; [|split; [|split; [|split; [|split]]]].
  - unfold afterHooks, excerpted, timed, dated, slugged, stamped.
    change (contentTouched ["editorData"]) with true.
    change (bool_decide ("title" ∈ ["editorData"])) with false.
    change (bool_decide ("status" ∈ ["editorData"])) with false.
    cbn [andb orb negb].
    change (bool_decide (["editorData"] = [])) with false. cbn [negb].
    change (Model.excerptText
              (Article.set_readTime
                 (readTimeOf (Article.set_updatedAt now a))
                 (Article.set_updatedAt now a)))
      with (Model.excerptText a).
    destruct (truthy (Model.excerptText a)); reflexivity.
  - unfold afterHooks, excerpted, timed, dated, slugged, stamped.
    change (contentTouched ["editorData"]) with true.
    change (bool_decide ("title" ∈ ["editorData"])) with false.
    change (bool_decide ("status" ∈ ["editorData"])) with false.
    cbn [andb orb negb].
    destruct (truthy _); reflexivity.
  - rewrite afterHooks_updatedAt. reflexivity.
  - rewrite afterHooks_slug. reflexivity.
  - rewrite afterHooks_publishedAt. reflexivity.
  - apply afterHooks_kept.
Qed.

Lemma regenerateLoop_effect clock l :
  forall n db m,
    let r := regenerateLoop clock l n db in
    let count :=
      length (List.filter (fun ia => hasEditorData (snd ia)) l) in
    fst r = Some m ->
    m = (n + count)%nat
    /\ forall id,
        (articles (snd r) !! id = articles db !! id
         /\ forall a, (id, a) ∈ l -> hasEditorData a = false)
        \/ exists a k,
            (id, a) ∈ l /\ hasEditorData a = true
            /\ (n <= k < n + count)%nat
            /\ articles (snd r) !! id = Some (regenerated (clock k) a).
Proof.
  induction l as [|[id0 a0] rest IH]; intros n db m; cbv zeta.
  - cbn [regenerateLoop List.filter length fst snd]. intros [= <-].
    split; [lia|].
    intros id. left. split; [reflexivity|]. intros a Hin.
    apply elem_of_nil in Hin. destruct Hin.
  - cbn [regenerateLoop].
    change (List.filter (fun ia => hasEditorData (snd ia)) ((id0, a0) :: rest))
      with (if hasEditorData a0
            then (id0, a0) :: List.filter (fun ia => hasEditorData (snd ia)) rest
            else List.filter (fun ia => hasEditorData (snd ia)) rest).
    destruct (Article.editorData a0) as [e|] eqn:He.
    + assert (H0 : hasEditorData a0 = true).
      { unfold hasEditorData. rewrite He. apply bool_decide_eq_true_2. eauto. }
      rewrite regenerate_save.
      destruct (Schema.validPath a0 "title"); [|discriminate].
      rewrite H0. cbn [length]. intros Hm.
      specialize (IH (S n)
                    (Store.putArticle id0 (regenerated (clock n) a0) db) m).
      cbv zeta in IH. destruct (IH Hm) as [IHc IHa].
      split; [lia|].
      intros id. destruct (IHa id) as [[Hsame Hno] | (a & k & Hin & Hed & Hk & Ha)].
      * destruct (decide (id = id0)) as [-> | Hne].
        -- right. exists a0, n. split; [apply elem_of_cons; auto|].
           split; [exact H0|].
           split; [lia|]. rewrite Hsame. apply putArticle_lookup.
        -- left. split; [rewrite Hsame; apply putArticle_other; exact Hne|].
           intros a Hin. apply elem_of_cons in Hin as [E | Hin];
             [congruence|exact (Hno a Hin)].
      * right. exists a, k. split; [apply elem_of_cons; auto|].
        split; [exact Hed|]. split; [lia|exact Ha].
    + assert (H0 : hasEditorData a0 = false).
      { unfold hasEditorData. rewrite He. apply bool_decide_eq_false_2.
        intros [? ?]; discriminate. }
      rewrite H0. intros Hm.
      specialize (IH n db m). cbv zeta in IH. destruct (IH Hm) as [IHc IHa].
      split; [exact IHc|].
      intros id. destruct (IHa id) as [[Hsame Hno] | (a & k & Hin & Hed & Hk & Ha)].
      * left. split; [exact Hsame|].
        intros a Hin. apply elem_of_cons in Hin as [E | Hin];
          [|exact (Hno a Hin)].
        injection E as -> ->. exact H0.
      * right. exists a, k. split; [apply elem_of_cons; auto|]. auto.
Qed.

Lemma filter_all {A : Type} (l : list A) : List.filter (fun _ => true) l = l.
Proof. induction l as [|x l IH]; [reflexivity|]. cbn. rewrite IH. reflexivity. Qed.

End Regenerate.

(** X27. Regenerating the excerpts, when it answers 200, answers with
    the number of articles that carry an editor document and rewrites
    exactly those, whoever their author is: each gets the read time of its
    content, the excerpt of its first text when there is one (the old
    excerpt stays when there is none), and the time of its save as
    [updatedAt]; title, slug, status, publish time, counters and author
    stay. An article without an editor document is left as it is, no
    article is added or removed, and the users are untouched. This on a
    store where every editor document has its blocks: an editor document
    with no key at all is never stored. *)
Theorem regenerate_excerpts_effect (clock : nat -> Z) (db : DB) (n : nat) :
  (forall id a e, articles db !! id = Some a ->
                  Article.editorData a = Some e ->
                  is_Some (EditorData.blocks e)) ->
  let r := ArticleController.regenerateExcerpts clock db in
  let count := Store.countDocuments hasEditorData db in
  fst r = Reply.Accepted 200 n ->
  n = count
  /\ users (snd r) = users db
  /\ forall id,
      match articles db !! id with
      | None => articles (snd r) !! id = None
      | Some a =>
          if hasEditorData a
          then exists k,
              (k < count)%nat
              /\ articles (snd r) !! id = Some (regenerated (clock k) a)
              /\ Article.excerpt (regenerated (clock k) a)
                 = (if JS.truthy (Model.excerptText a)
                    then Some (Model.excerptOf (Model.excerptText a))
                    else Article.excerpt a)
              /\ Article.readTime (regenerated (clock k) a)
                 = Model.readTimeOf a
              /\ Article.updatedAt (regenerated (clock k) a) = clock k
              /\ Article.slug (regenerated (clock k) a) = Article.slug a
              /\ Article.publishedAt (regenerated (clock k) a)
                 = Article.publishedAt a
              /\ keptBySave a (regenerated (clock k) a)
          else articles (snd r) !! id = Some a
      end.
Proof.
  intros _. cbv zeta. intros Hok.
  assert (Hloop : fst (ArticleController.regenerateLoop clock
                         (Store.find (fun _ => true) db) 0 db) = Some n).
  { unfold ArticleController.regenerateExcerpts in Hok.
    destruct (ArticleController.regenerateLoop _ _ _ _) as [[k|] db'];
      cbn [fst] in Hok |- *; [|discriminate].
    injection Hok as ->. reflexivity. }
  pose proof (regenerateLoop_effect clock (Store.find (fun _ => true) db)
                0%nat db n) as H.
  cbv zeta in H. destruct (H Hloop) as [Hc Ha].
  assert (Hcount : length (List.filter (fun ia => hasEditorData (snd ia))
                             (Store.find (fun _ => true) db))
                   = Store.countDocuments hasEditorData db).
  { unfold Store.countDocuments, Store.find. rewrite filter_all. reflexivity. }
  rewrite Hcount in Hc, Ha. cbn [Nat.add] in Hc, Ha.
  assert (Hall : forall id a, articles db !! id = Some a ->
                              (id, a) ∈ Store.find (fun _ => true) db).
  { intros id a Hin. unfold Store.find. rewrite filter_all.
    apply elem_of_map_to_list. exact Hin. }
  split; [exact Hc|split].
  - rewrite regenerateExcerpts_snd. apply regenerateLoop_users.
  - intros id. rewrite regenerateExcerpts_snd.
    destruct (Ha id) as [[Hsame Hno] | (a1 & k & Hin & Hed & Hk & Hput)].
    + rewrite Hsame. destruct (articles db !! id) as [a|] eqn:Hlook;
        [|reflexivity].
      rewrite (Hno a (Hall id a Hlook)). reflexivity.
    + pose proof (find_all_snapshot db id a1 Hin) as Hlook.
      rewrite Hlook, Hed. exists k. split; [lia|]. split; [exact Hput|].
      apply regenerated_fields.
Qed.

Lemma regenerate_excerpts_effect_witness :
  let r := ArticleController.regenerateExcerpts
             (fun n => 7000 + Z.of_nat n)%Z essayDB in
  fst r = Reply.Accepted 200 1%nat
  /\ 1%nat = Store.countDocuments hasEditorData essayDB
  /\ users (snd r) = users essayDB
  /\ articles (snd r) !! "e1" = Some (regenerated 7000 essay).
Proof.
  assert (Hblocks : forall id a e,
            articles essayDB !! id = Some a ->
            Article.editorData a = Some e ->
            is_Some (EditorData.blocks e)).
  { intros id a e Ha He. unfold essayDB in Ha. cbn [articles] in Ha.
    apply lookup_singleton_Some in Ha as [_ <-].
    injection He as <-. eexists. reflexivity. }
  pose proof (regenerate_excerpts_effect (fun n => 7000 + Z.of_nat n)%Z
                essayDB 1 Hblocks eq_refl) as H.
  split; [reflexivity|]. split; [exact (proj1 H)|].
  split; [exact (proj1 (proj2 H))|]. reflexivity.
Defined.

(** ** From a create request to the public page *)

Section RoundTrip.

Import JS Document Model ArticleController PublicController.

Lemma findPublishedBySlug_unique s db id a :
  Schema.castLower s = s ->
  articles db !! id = Some a ->
  Article.slug a = Some s ->
  (forall id' b, articles db !! id' = Some b -> id' <> id ->
                 Article.slug b <> Some s) ->
  Store.findPublishedBySlug s db
  = if Article.status a =? "published" then Some (id, a) else None.
Proof.
  intros Hc Ha Hs Huniq. unfold Store.findPublishedBySlug. rewrite Hc.
  destruct (List.find _ _) as [[id1 a1]|] eqn:E.
  - apply find_some in E as [Hin Hp]. cbn [snd] in Hp.
    apply andb_true_iff in Hp as [Hs1 Hst1].
    apply bool_decide_eq_true in Hs1.
    apply list_elem_of_In, elem_of_map_to_list in Hin.
    destruct (decide (id1 = id)) as [-> | Hne].
    + rewrite Ha in Hin. injection Hin as <-. rewrite Hst1. reflexivity.
    + exfalso. exact (Huniq id1 a1 Hin Hne Hs1).
  - pose proof (find_none _ _ E (id, a)) as Hn. cbn [snd] in Hn.
    rewrite (bool_decide_eq_true_2 _ Hs) in Hn. cbn [andb] in Hn.
    rewrite Hn; [reflexivity|].
    apply list_elem_of_In, elem_of_map_to_list. exact Ha.
Qed.

End RoundTrip.

(** X29. From the create request to the public page. After a create
    request that succeeded, the public fetch by the slug of the trimmed
    title answers with the created article, its view counted, when the
    article was created as published, and with 404 when it was created as
    anything else: no other article can stand in for it. *)
Theorem created_article_is_served_by_slug (req : Request.body)
    (u newId : string) (now later : Z) (db : DB) :
  let r := ArticleController.createArticle req u newId now db in
  let slug := Model.slugify (JS.trim (default "" (Request.title req))) in
  success (fst r) = true ->
  exists a,
    articles (snd r) !! newId = Some a
    /\ PublicController.getPublicArticle slug later (snd r)
       = if default "draft" (Request.status req) =? "published"
         then (ok 200 (ArticlePayload (viewed later a) None),
               Store.putArticle newId (viewed later a) (snd r))
         else (failure 404 "Article not found or not published", snd r).
Proof.
  cbv zeta. intros Hok.
  destruct (createArticle_cases req u newId now db)
    as [[Hf _] | (_ & _ & _ & E & Hv & Hvalid & Hn)]; [congruence|].
  destruct (createArticleValidation_fields req) as [Ht Hst].
  destruct (created_fields _ u now _ Ht) as (Kt & Ksl & Kst & _).
  rewrite trim_idempotent in Kt, Ksl. rewrite Hst in Kst.
  rewrite E. eexists. split; [apply putArticle_lookup|].
  unfold PublicController.getPublicArticle.
  rewrite (findPublishedBySlug_unique _ _ newId _ (castLower_slugify _)
             (putArticle_lookup _ _ _) Ksl).
  - rewrite Kst.
    destruct (default "draft" (Request.status req) =? "published");
      [|reflexivity].
    rewrite countView_spec.
    assert (Hvt : Schema.validPath
                    (created (Validation.createArticleValidation req).1 u now)
                    "title" = true).
    { apply validArticle_title. unfold created. apply afterHooks_valid.
      exact Hvalid. }
    rewrite Hvt. reflexivity.
  - intros id' b Hb Hne. rewrite putArticle_other in Hb by exact Hne.
    rewrite Ksl in Hn. exact (slugTaken_false _ _ _ Hn id' b Hb Hne).
Qed.

Lemma created_article_is_served_by_slug_witness :
  exists a,
    articles (snd (ArticleController.createArticle noteBody "author1" "n1"
                     3000 sampleDB)) !! "n1" = Some a
    /\ PublicController.getPublicArticle "field-notes" 4000
         (snd (ArticleController.createArticle noteBody "author1" "n1" 3000
                 sampleDB))
       = (failure 404 "Article not found or not published",
          snd (ArticleController.createArticle noteBody "author1" "n1" 3000
                 sampleDB)).
Proof.
  apply (created_article_is_served_by_slug noteBody "author1" "n1" 3000 4000
           sampleDB eq_refl).
Defined.
